(** * PDFTableParser: the PDF-to-table pipeline of [pdf_to_table_processor.py]

    A shallow embedding of the pipeline: the Python values that
    [json.loads] produces, the filesystem, clock, log and external
    collaborators as an explicit world, every function of the module as
    a computation in a state-and-exception monad, and the properties of the
    pipeline's data-flow contract proved about those computations. *)

From stdpp Require Import base option list strings gmap pretty.
From Stdlib Require Import ZArith Ascii.

Set Warnings "-register-all".
Local Open Scope string_scope.
Local Open Scope list_scope.

(** ** Python values *)

(** What [json.loads] can return.  A [dict] keeps insertion order, which is
    what iterating over it observes, so it is an association list; a float
    is kept as its literal, no claim computes with one.  A [str] is kept as
    the UTF-8 bytes of its code points. *)
Inductive json : Type :=
| JNull
| JBool (b : bool)
| JInt (n : Z)
| JFloat (lit : string)
| JStr (s : string)
| JList (xs : list json)
| JDict (kvs : list (string * json)).

Abbreviation pydict := (list (string * json)).

Module PyDict.

(** [k in d] *)
Definition contains (k : string) (d : pydict) : bool :=
  existsb (fun kv => String.eqb k kv.1) d.

(** [d.get(k)] *)
Fixpoint get (k : string) (d : pydict) : option json :=
  match d with
  | [] => None
  | (k', v) :: rest => if String.eqb k k' then Some v else get k rest
  end.

(** [d.setdefault(k, v)]: inserts only when the key is absent; a new key
    goes last. *)
Definition setdefault (k : string) (v : json) (d : pydict) : pydict :=
  if contains k d then d else d ++ [(k, v)].

(** [d.keys()] *)
Definition keys (d : pydict) : list string := map fst d.

End PyDict.

(** Exceptions the pipeline can see. *)
Inductive exn : Type :=
| ValueError (msg : string)   (* the fixed part of the message *)
| TypeError
| AttributeError
| JSONDecodeError
| FileExistsError
| FileNotFoundError
| NotADirectoryError
| IsADirectoryError
| PermissionError
| UnicodeEncodeError
| ExternalError (what : string).

(** [json.loads] returns a lone surrogate for an escape such as [\ud800].
    In the bytes of a [str] it is the three bytes that the UTF-8 scheme
    gives U+D800 to U+DFFF: ED, then a byte from A0 to BF, then a
    continuation byte.  No other code point has ED followed by such a byte,
    and no text codec but [surrogatepass] encodes one. *)
Fixpoint has_surrogate (s : string) : bool :=
  match s with
  | EmptyString => false
  | String b rest =>
      (Nat.eqb (nat_of_ascii b) 237 &&
       match rest with
       | String b' _ =>
           Nat.leb 160 (nat_of_ascii b') && Nat.leb (nat_of_ascii b') 191
       | EmptyString => false
       end)
      || has_surrogate rest
  end.

(** A byte that continues a code point: 10xxxxxx. *)
Definition is_continuation (b : ascii) : bool :=
  Nat.leb 128 (nat_of_ascii b) && Nat.leb (nat_of_ascii b) 191.

(** The continuation bytes [s] starts with, and the code points after
    them. *)
Fixpoint code_points_from (s : string) : string * list string :=
  match s with
  | EmptyString => (EmptyString, [])
  | String b rest =>
      let r := code_points_from rest in
      if is_continuation b then (String b r.1, r.2)
      else (EmptyString, String b r.1 :: r.2)
  end.

(** The code points of a [str], each with the bytes that encode it: a code
    point is a first byte and the continuation bytes that follow it. *)
Definition code_points (s : string) : list string :=
  match s with
  | EmptyString => []
  | String b rest =>
      String b (code_points_from rest).1 :: (code_points_from rest).2
  end.

(** [iter(v)]: a list yields its elements, a dict its keys, a string its
    characters; nothing else parsed from JSON is iterable. *)
Definition chars (s : string) : list json := map JStr (code_points s).

Definition py_iter (v : json) : exn + list json :=
  match v with
  | JList xs => inr xs
  | JDict d => inr (map JStr (PyDict.keys d))
  | JStr s => inr (chars s)
  | _ => inl TypeError
  end.

(** [len(v)] *)
Definition py_len (v : json) : exn + nat :=
  match v with
  | JList xs => inr (List.length xs)
  | JDict d => inr (List.length d)
  | JStr s => inr (List.length (code_points s))
  | _ => inl TypeError
  end.

(** ** Constants of the module *)

(** A path, as its components. *)
Abbreviation path := (list string).

Definition OUTPUT_DIR : path := ["output"].
Definition TEMP_DIR : path := ["temp"].

(** The three field names, as the validation loop and the [DictWriter]
    both list them. *)
Definition FIELDS : list string := ["Commodity Name"; "Qty"; "UOM"].

(** [os.path.join(dir, name)] for a relative [name] without separators. *)
Definition path_join (dir : path) (name : string) : path := dir ++ [name].

(** ** Time stamps *)

Record datetime : Type := {
  year : N; month : N; day : N;
  hour : N; minute : N; second : N;
  microsecond : N
}.

Definition digit (n : N) : ascii := ascii_of_N (48 + n mod 10).

Definition pad2 (n : N) : string :=
  String (digit (n / 10)) (String (digit n) EmptyString).

Definition pad4 (n : N) : string :=
  String (digit (n / 1000)) (String (digit (n / 100)) (pad2 n)).

(** [dt.strftime("%Y%m%d_%H%M%S")] *)
Definition strftime (dt : datetime) : string :=
  pad4 (year dt) +:+ pad2 (month dt) +:+ pad2 (day dt) +:+ "_" +:+
  pad2 (hour dt) +:+ pad2 (minute dt) +:+ pad2 (second dt).

(** What [datetime] itself guarantees of a value. *)
Definition valid_datetime (dt : datetime) : Prop :=
  (1 <= year dt <= 9999 /\ 1 <= month dt <= 12 /\ 1 <= day dt <= 31 /\
   hour dt < 24 /\ minute dt < 60 /\ second dt < 60 /\
   microsecond dt < 1000000)%N.

(** The fields that [strftime] prints. *)
Definition same_second (a b : datetime) : Prop :=
  year a = year b /\ month a = month b /\ day a = day b /\
  hour a = hour b /\ minute a = minute b /\ second a = second b.

(** [os.path.join(TEMP_DIR, f"pdf_images_{timestamp}")] *)
Definition temp_folder_of (dt : datetime) : path :=
  path_join TEMP_DIR ("pdf_images_" +:+ strftime dt).

(** ** Source file names *)

(** [os.path.basename(p)]: what follows the last ['/']. *)
Fixpoint basename_from (acc p : string) : string :=
  match p with
  | EmptyString => acc
  | String c rest =>
      if Ascii.eqb c "/" then basename_from EmptyString rest
      else basename_from (acc +:+ String c EmptyString) rest
  end.

Definition basename (p : string) : string := basename_from EmptyString p.

(** [p.rfind(c)], as an index from the left. *)
Fixpoint rfind_from (c : ascii) (i : nat) (found : option nat) (p : string)
  : option nat :=
  match p with
  | EmptyString => found
  | String c' rest =>
      rfind_from c (S i) (if Ascii.eqb c c' then Some i else found) rest
  end.

Definition rfind (c : ascii) (p : string) : option nat :=
  rfind_from c 0 None p.

Fixpoint all_dots (s : string) : bool :=
  match s with
  | EmptyString => true
  | String c rest => Ascii.eqb c "." && all_dots rest
  end.

(** [os.path.splitext(p)[0]]: cut at the last dot, when that dot comes after
    the last separator and is not part of a run of leading dots. *)
Definition splitext_root (p : string) : string :=
  match rfind "." p with
  | None => p
  | Some dotIndex =>
      let filenameIndex :=
        match rfind "/" p with Some sepIndex => S sepIndex | None => 0 end in
      if bool_decide (filenameIndex <= dotIndex)
           && negb (all_dots (String.substring filenameIndex
                                        (dotIndex - filenameIndex) p))
      then String.substring 0 dotIndex p
      else p
  end.

(** [os.path.join(OUTPUT_DIR, f"{base_name}_{timestamp}.csv")] *)
Definition output_file_of (source_file : string) (dt : datetime) : path :=
  path_join OUTPUT_DIR
    (splitext_root (basename source_file) +:+ "_" +:+ strftime dt +:+ ".csv").

(** ** The world the pipeline runs in *)

(** A page image, as the bytes the rasterizer produced. *)
Definition image := string.

(** What a path of the filesystem holds.  A CSV file is kept as the rows of
    cells handed to [csv.writer], before it renders them as text. *)
Inductive node : Type :=
| Dir
| ImageFile (img : image)
| CsvFile (rows : list (list json))
| OtherFile (content : string).

Inductive level : Type := INFO | WARNING | ERROR.

(** The records the module's [logger] calls write, one constructor per
    call site. *)
Inductive LogMsg : Type :=
| EnsuredDirectory (directory : path)
| CleanedUp (temp_folder : path)
| CleanupError (e : exn)
| ClientInitFailed (e : exn)
| ConvertedPdf (pages : nat) (temp_folder : path)
| ConvertError (e : exn)
| Base64Error (e : exn)
| InvalidItem (page_number : nat) (item : json)
| ClaudeError (page_number : nat) (e : exn)
| PageExtracted (page_num : nat) (items : nat)
| SavedCsv (output_file : path)
| CsvError (e : exn)
| DocumentError (e : exn).

(** Every operation the pipeline attempts on a collaborator, in order. *)
Inductive Event : Type :=
| EvMakedirs (name : path)
| EvRasterize (pdf_path : string) (dpi : nat)
| EvSaveImage (image_path : path)
| EvOpenImage (image_path : path)
| EvApiCall (page_number total_pages : nat) (image_base64 : string)
            (response : exn + string)
| EvOpenCsv (output_file : path)
| EvRmtree (folder : path).

Record World : Type := mkWorld {
  fs : gmap path node;
  clock_reads : nat;
  log : list (level * LogMsg);
  trace : list Event
}.

(** The collaborators, as the run observes them. *)
Record Env : Type := mkEnv {
  (** [os.getenv('ANTHROPIC_API_KEY')] *)
  getenv_api_key : option string;
  (** [anthropic.Anthropic(api_key=...)]: [Some e] when it raises *)
  anthropic_init : string -> option exn;
  (** [datetime.now()] at the n-th reading of the clock *)
  now : nat -> datetime;
  (** [pdf2image.convert_from_path] *)
  convert_from_path : string -> nat -> exn + list image;
  (** re-encoding an opened image as JPEG, then base64 *)
  jpeg_base64 : image -> exn + string;
  (** [client.messages.create(...).content[0].text] for a page *)
  messages_create : string -> nat -> nat -> string -> exn + string;
  (** [json.loads]: [None] when the text is not JSON *)
  json_loads : string -> option json;
  (** paths the operating system refuses to create or write, for whatever
      reason; the refusal is raised as a [PermissionError] *)
  fs_denied : path -> bool;
  (** directories the operating system refuses to remove *)
  rm_denied : path -> bool
}.

Definition set_fs (m : gmap path node) (w : World) : World :=
  mkWorld m (clock_reads w) (log w) (trace w).

(** ** Computations: state and exceptions *)

Inductive outcome (A : Type) : Type :=
| Return (a : A)
| Raise (e : exn).
Arguments Return {A} a.
Arguments Raise {A} e.

Definition M (A : Type) : Type := World -> outcome A * World.

Definition ret {A} (a : A) : M A := fun w => (Return a, w).

Definition raise {A} (e : exn) : M A := fun w => (Raise e, w).

Definition bind {A B} (m : M A) (k : A -> M B) : M B :=
  fun w =>
    match m w with
    | (Return a, w') => k a w'
    | (Raise e, w') => (Raise e, w')
    end.

Notation "x <- c1 ;; c2" := (bind c1 (fun x => c2))
  (at level 100, c1 at next level, right associativity).
Notation "c1 ;; c2" := (bind c1 (fun _ => c2))
  (at level 100, right associativity).

(** [try: m  except Exception as e: handler e] *)
Definition try_except {A} (m : M A) (handler : exn -> M A) : M A :=
  fun w =>
    match m w with
    | (Return a, w') => (Return a, w')
    | (Raise e, w') => handler e w'
    end.

(** [try: m  finally: fin] *)
Definition try_finally {A} (m : M A) (fin : M unit) : M A :=
  fun w =>
    let '(r, w') := m w in
    match fin w' with
    | (Return _, w'') => (r, w'')
    | (Raise e, w'') => (Raise e, w'')
    end.

Definition lift {A} (r : exn + A) : M A :=
  match r with
  | inl e => raise e
  | inr a => ret a
  end.

(** [logger.info], [logger.warning] and [logger.error] *)
Definition logger (l : level) (msg : LogMsg) : M unit :=
  fun w =>
    (Return tt,
     mkWorld (fs w) (clock_reads w) (log w ++ [(l, msg)]) (trace w)).

(** Recording an operation on a collaborator. *)
Definition emit (ev : Event) : M unit :=
  fun w =>
    (Return tt, mkWorld (fs w) (clock_reads w) (log w) (trace w ++ [ev])).

(** The world after [emit ev]. *)
Definition with_event (ev : Event) (w : World) : World :=
  mkWorld (fs w) (clock_reads w) (log w) (trace w ++ [ev]).

(** [datetime.now()] *)
Definition datetime_now (env : Env) : M datetime :=
  fun w => (Return (now env (clock_reads w)),
            mkWorld (fs w) (S (clock_reads w)) (log w) (trace w)).

(** [for x in xs: body x] *)
Fixpoint for_each {A} (xs : list A) (body : A -> M unit) : M unit :=
  match xs with
  | [] => ret tt
  | x :: rest => body x ;; for_each rest body
  end.

(** Reading the world, and changing the filesystem. *)
Definition gets {A} (f : World -> A) : M A := fun w => (Return (f w), w).

Definition modify_fs (f : gmap path node -> gmap path node) : M unit :=
  fun w => (Return tt, set_fs (f (fs w)) w).

(** ** The filesystem *)

Definition path_exists (p : path) (m : gmap path node) : bool :=
  match m !! p with Some _ => true | None => false end.

Definition is_dir (p : path) (m : gmap path node) : bool :=
  match m !! p with Some Dir => true | _ => false end.

(** The directory a path lies in; [[]] is the working directory, which
    exists. *)
Definition parent (p : path) : path := removelast p.

(** Why an entry cannot be made at [p], if it cannot. *)
Definition parent_error (p : path) (m : gmap path node) : option exn :=
  match parent p with
  | [] => None
  | dir =>
      match m !! dir with
      | Some Dir => None
      | Some _ => Some NotADirectoryError
      | None => Some FileNotFoundError
      end
  end.

(** [os.mkdir(p)] *)
Definition mkdir (env : Env) (p : path) : M unit :=
  m <- gets fs ;;
  if path_exists p m then raise FileExistsError
  else match parent_error p m with
       | Some e => raise e
       | None =>
           if fs_denied env p then raise PermissionError
           else modify_fs (insert p Dir)
       end.

(** [os.makedirs(name, exist_ok=True)], on the reversed path: missing
    ancestors first, a [FileExistsError] from them passed over, then the
    leaf, whose error is dropped when the leaf is a directory. *)
Fixpoint makedirs_rev (env : Env) (rname : list string) : M unit :=
  match rname with
  | [] => ret tt
  | tail :: rhead =>
      head_missing <- gets (fun w =>
        match rhead with
        | [] => false
        | _ => negb (path_exists (rev rhead) (fs w))
        end) ;;
      (if head_missing
       then try_except (makedirs_rev env rhead)
              (fun e => match e with FileExistsError => ret tt | _ => raise e end)
       else ret tt) ;;
      try_except (mkdir env (rev rname))
        (fun e =>
           isdir <- gets (fun w => is_dir (rev rname) (fs w)) ;;
           if isdir then ret tt else raise e)
  end.

Definition makedirs (env : Env) (name : path) : M unit :=
  emit (EvMakedirs name) ;; makedirs_rev env (rev name).

(** Removing [folder] removes every path below it. *)
Definition remove_tree (folder : path) (m : gmap path node) : gmap path node :=
  filter (fun kv => ~ folder `prefix_of` kv.1) m.

(** [shutil.rmtree(folder)] *)
Definition rmtree (env : Env) (folder : path) : M unit :=
  emit (EvRmtree folder) ;;
  m <- gets fs ;;
  match m !! folder with
  | None => raise FileNotFoundError
  | Some Dir =>
      if rm_denied env folder then raise PermissionError
      else modify_fs (remove_tree folder)
  | Some _ => raise NotADirectoryError
  end.

(** Opening [p] for writing: the file is created or truncated to [content]. *)
Definition create_file (env : Env) (p : path) (content : node) : M unit :=
  m <- gets fs ;;
  match parent_error p m with
  | Some e => raise e
  | None =>
      if is_dir p m then raise IsADirectoryError
      else if fs_denied env p then raise PermissionError
      else modify_fs (insert p content)
  end.

(** [image.save(image_path, 'JPEG')] *)
Definition image_save (env : Env) (img : image) (image_path : path) : M unit :=
  emit (EvSaveImage image_path) ;; create_file env image_path (ImageFile img).

(** [Image.open(image_path)] *)
Definition image_open (image_path : path) : M image :=
  emit (EvOpenImage image_path) ;;
  m <- gets fs ;;
  match m !! image_path with
  | Some (ImageFile img) => ret img
  | Some Dir => raise IsADirectoryError
  | Some _ => raise (ExternalError "UnidentifiedImageError")
  | None => raise FileNotFoundError
  end.

(** One more row in an open CSV file. *)
Definition append_row (p : path) (row : list json) : M unit :=
  modify_fs (alter (fun n => match n with
                             | CsvFile rows => CsvFile (rows ++ [row])
                             | other => other
                             end) p).

(** ** The functions of the module *)

(** [ensure_directories()] *)
Definition ensure_directories (env : Env) : M unit :=
  for_each [OUTPUT_DIR; TEMP_DIR] (fun directory =>
    makedirs env directory ;;
    logger INFO (EnsuredDirectory directory)).

(** [cleanup_temp_files(temp_folder)] *)
Definition cleanup_temp_files (env : Env) (temp_folder : path) : M unit :=
  try_except
    (present <- gets (fun w => path_exists temp_folder (fs w)) ;;
     if present
     then rmtree env temp_folder ;;
          logger INFO (CleanedUp temp_folder)
     else ret tt)
    (fun e => logger WARNING (CleanupError e)).

(** [not api_key]: an unset variable and an empty one are both falsy. *)
Definition falsy (api_key : option string) : bool :=
  match api_key with
  | None | Some EmptyString => true
  | Some _ => false
  end.

(** [setup_anthropic_client()]; the client is the key it was built from. *)
Definition setup_anthropic_client (env : Env) : M string :=
  let api_key := getenv_api_key env in
  if falsy api_key
  then raise (ValueError "ANTHROPIC_API_KEY not found in environment variables")
  else
    try_except
      (match anthropic_init env (default EmptyString api_key) with
       | Some e => raise e
       | None => ret (default EmptyString api_key)
       end)
      (fun e => logger ERROR (ClientInitFailed e) ;; raise e).

(** The loop of [convert_pdf_to_images] that saves page [i+1] under
    [page_{i+1}.jpg]. *)
Fixpoint save_pages (env : Env) (temp_folder : path) (i : nat)
    (images : list image) (image_paths : list path) : M (list path) :=
  match images with
  | [] => ret image_paths
  | img :: rest =>
      let image_path :=
        path_join temp_folder ("page_" +:+ pretty (i + 1)%nat +:+ ".jpg") in
      image_save env img image_path ;;
      save_pages env temp_folder (S i) rest (image_paths ++ [image_path])
  end.

(** [convert_pdf_to_images(pdf_path, dpi)] *)
Definition convert_pdf_to_images (env : Env) (pdf_path : string) (dpi : nat)
  : M (list path * path) :=
  try_except
    (dt <- datetime_now env ;;
     let temp_folder := temp_folder_of dt in
     makedirs env temp_folder ;;
     emit (EvRasterize pdf_path dpi) ;;
     images <- lift (convert_from_path env pdf_path dpi) ;;
     image_paths <- save_pages env temp_folder 0 images [] ;;
     logger INFO (ConvertedPdf (List.length images) temp_folder) ;;
     ret (image_paths, temp_folder))
    (fun e => logger ERROR (ConvertError e) ;; raise e).

(** [image_to_base64(image_path)] *)
Definition image_to_base64 (env : Env) (image_path : path) : M string :=
  try_except
    (img <- image_open image_path ;;
     lift (jpeg_base64 env img))
    (fun e => logger ERROR (Base64Error e) ;; raise e).

(** [all(k in item for k in ['Commodity Name', 'Qty', 'UOM'])] *)
Definition has_all_fields (d : pydict) : bool :=
  forallb (fun k => PyDict.contains k d) FIELDS.

(** The three [setdefault] calls of the repair, in the order written. *)
Definition repair (d : pydict) : pydict :=
  PyDict.setdefault "UOM" (JStr "BOX")
    (PyDict.setdefault "Qty" (JInt 1)
       (PyDict.setdefault "Commodity Name" (JStr "") d)).

(** The body of the validation loop for one [item]: what the item is after
    the iteration.  [setdefault] exists on a dict only. *)
Definition validate_item (page_number : nat) (item : json) : M json :=
  match item with
  | JDict d =>
      if has_all_fields d then ret item
      else logger WARNING (InvalidItem page_number item) ;;
           ret (JDict (repair d))
  | _ =>
      logger WARNING (InvalidItem page_number item) ;;
      raise AttributeError
  end.

Fixpoint validate_items (page_number : nat) (items : list json)
  : M (list json) :=
  match items with
  | [] => ret []
  | item :: rest =>
      item' <- validate_item page_number item ;;
      rest' <- validate_items page_number rest ;;
      ret (item' :: rest')
  end.

(** [client.messages.create(...)], then [message.content[0].text] *)
Definition call_model (env : Env) (client : string)
    (page_number total_pages : nat) (image_base64 : string) : M string :=
  let response :=
    messages_create env client page_number total_pages image_base64 in
  emit (EvApiCall page_number total_pages image_base64 response) ;;
  lift response.

(** [process_image_with_claude(client, image_base64, page_number, total_pages)].
    The loop repairs the dicts of a list in place, so the list returned holds
    the repaired items; a dict or a string is returned as parsed when the
    loop over its keys or characters ends. *)
Definition process_image_with_claude (env : Env) (client image_base64 : string)
    (page_number total_pages : nat) : M json :=
  try_except
    (response_text <- call_model env client page_number total_pages image_base64 ;;
     results <- lift (match json_loads env response_text with
                      | Some v => inr v
                      | None => inl JSONDecodeError
                      end) ;;
     items <- lift (py_iter results) ;;
     items' <- validate_items page_number items ;;
     ret (match results with JList _ => JList items' | _ => results end))
    (fun e => logger ERROR (ClaudeError page_number e) ;; raise e).

(** [DictWriter._dict_to_list(rowdict)] with [extrasaction='raise'] and
    [restval=''].  The message of the [ValueError] goes on to name the keys
    that are not field names, in the order of a set; only its fixed part is
    kept. *)
Definition dict_to_list (rowdict : json) : exn + list json :=
  match rowdict with
  | JDict d =>
      if forallb (fun k => bool_decide (k ∈ FIELDS)) (PyDict.keys d)
      then inr (map (fun key => default (JStr "") (PyDict.get key d)) FIELDS)
      else inl (ValueError "dict contains fields not in fieldnames")
  | _ => inl AttributeError
  end.

(** Whether the text [csv.writer] makes of a cell can be encoded.  A [str]
    goes into the line as it is; [None] gives the empty text and any other
    value goes through [str()], which renders every number [json.loads]
    returned and escapes the strings it quotes. *)
Definition encodable (cell : json) : bool :=
  match cell with
  | JStr s => negb (has_surrogate s)
  | _ => true
  end.

(** [writer.writerow(row)] on the file [save_to_csv] opens, with
    [encoding='utf-8-sig']: the line made of the cells is encoded when it is
    written, and a line that cannot be encoded is an error and is not
    written. *)
Definition write_row (output_file : path) (row : list json) : M unit :=
  if forallb encodable row then append_row output_file row
  else raise UnicodeEncodeError.

(** [writer.writerows(data)]: the rows are made and written one by one, so
    those before a bad row are in the file when it raises. *)
Fixpoint writerows (output_file : path) (data : list json) : M unit :=
  match data with
  | [] => ret tt
  | rowdict :: rest =>
      row <- lift (dict_to_list rowdict) ;;
      write_row output_file row ;;
      writerows output_file rest
  end.

(** [save_to_csv(data, source_file)].  The header row is made of the field
    names themselves. *)
Definition save_to_csv (env : Env) (data : list json) (source_file : string)
  : M path :=
  try_except
    (dt <- datetime_now env ;;
     let output_file := output_file_of source_file dt in
     emit (EvOpenCsv output_file) ;;
     create_file env output_file (CsvFile []) ;;
     append_row output_file (map JStr FIELDS) ;;
     writerows output_file data ;;
     logger INFO (SavedCsv output_file) ;;
     ret output_file)
    (fun e => logger ERROR (CsvError e) ;; raise e).

(** The page loop of [process_pdf_document]: [page_num] counts from 1,
    [all_results] is extended with each page's results. *)
Fixpoint process_pages (env : Env) (client : string) (total_pages : nat)
    (page_num : nat) (image_paths : list path) (all_results : list json)
  : M (list json) :=
  match image_paths with
  | [] => ret all_results
  | image_path :: rest =>
      image_base64 <- image_to_base64 env image_path ;;
      results <- process_image_with_claude env client image_base64
                   page_num total_pages ;;
      n <- lift (py_len results) ;;
      logger INFO (PageExtracted page_num n) ;;
      batch <- lift (py_iter results) ;;
      process_pages env client total_pages (S page_num) rest
        (all_results ++ batch)
  end.

(** What [process_pdf_document] does before its inner [try]. *)
Definition prepare (env : Env) (pdf_path : string)
  : M (string * (list path * path)) :=
  ensure_directories env ;;
  client <- setup_anthropic_client env ;;
  converted <- convert_pdf_to_images env pdf_path 300 ;;
  ret (client, converted).

(** The inner [try] block: all pages, then the CSV. *)
Definition extract_and_save (env : Env) (pdf_path : string) (client : string)
    (image_paths : list path) : M path :=
  all_results <- process_pages env client (List.length image_paths) 1
                   image_paths [] ;;
  save_to_csv env all_results pdf_path.

(** [process_pdf_document(pdf_path)] *)
Definition process_pdf_document (env : Env) (pdf_path : string) : M path :=
  try_except
    (prepared <- prepare env pdf_path ;;
     let '(client, (image_paths, temp_folder)) := prepared in
     try_finally
       (extract_and_save env pdf_path client image_paths)
       (cleanup_temp_files env temp_folder))
    (fun e => logger ERROR (DocumentError e) ;; raise e).

(** ** Observations on a trace *)

(** The response of each model call, in the order the calls were made. *)
Definition api_response (ev : Event) : option (exn + string) :=
  match ev with
  | EvApiCall _ _ _ response => Some response
  | _ => None
  end.

Definition api_responses (evs : list Event) : list (exn + string) :=
  omap api_response evs.

(** The page number of each model call. *)
Definition api_page (ev : Event) : option nat :=
  match ev with
  | EvApiCall page_number _ _ _ => Some page_number
  | _ => None
  end.

Definition api_pages (evs : list Event) : list nat := omap api_page evs.

Definition is_api_call (ev : Event) : bool :=
  match ev with EvApiCall _ _ _ _ => true | _ => false end.

Definition is_csv_open (ev : Event) : bool :=
  match ev with EvOpenCsv _ => true | _ => false end.

Definition is_rasterize (ev : Event) : bool :=
  match ev with EvRasterize _ _ => true | _ => false end.

Definition is_record (item : json) : bool :=
  match item with JDict _ => true | _ => false end.

(** A response the page extractor accepts: text that parses to something
    iterable whose items are all dicts. *)
Definition acceptable (env : Env) (response : exn + string) : bool :=
  match response with
  | inl _ => false
  | inr text =>
      match json_loads env text with
      | None => false
      | Some parsed =>
          match py_iter parsed with
          | inl _ => false
          | inr items => forallb is_record items
          end
      end
  end.

(** An item after the validation loop, when the loop passes it. *)
Definition repaired (item : json) : json :=
  match item with
  | JDict d => if has_all_fields d then item else JDict (repair d)
  | other => other
  end.

(** The batch of a page, from the model's response for it. *)
Definition batch_of (env : Env) (response : exn + string) : list json :=
  match response with
  | inl _ => []
  | inr text =>
      match json_loads env text with
      | None => []
      | Some parsed =>
          match py_iter parsed with
          | inl _ => []
          | inr items => map repaired items
          end
      end
  end.

(** The defaults of the repair, as a dict. *)
Definition DEFAULTS : pydict :=
  [("Commodity Name", JStr ""); ("Qty", JInt 1); ("UOM", JStr "BOX")].

(** A record with the three fields present and none of them null. *)
Definition complete_non_null (item : json) : Prop :=
  exists d, item = JDict d /\
    forall k, k ∈ FIELDS -> exists v, PyDict.get k d = Some v /\ v <> JNull.

(** ** Sample worlds *)

Definition dq : string := String (ascii_of_nat 34) EmptyString.

Definition quoted (s : string) : string := dq +:+ s +:+ dq.

(** [[{"Commodity Name":"Widget","Qty":5,"UOM":"BOX"}]] *)
Definition widget_text : string :=
  "[{" +:+ quoted "Commodity Name" +:+ ":" +:+ quoted "Widget" +:+ ","
       +:+ quoted "Qty" +:+ ":5," +:+ quoted "UOM" +:+ ":" +:+ quoted "BOX"
       +:+ "}]".

(** [[{"Commodity Name":"Gadget"}]] *)
Definition gadget_text : string :=
  "[{" +:+ quoted "Commodity Name" +:+ ":" +:+ quoted "Gadget" +:+ "}]".

(** [[{"Commodity Name":null,"Qty":5,"UOM":"BOX"}]] *)
Definition null_name_text : string :=
  "[{" +:+ quoted "Commodity Name" +:+ ":null,"
       +:+ quoted "Qty" +:+ ":5," +:+ quoted "UOM" +:+ ":" +:+ quoted "BOX"
       +:+ "}]".

(** [[{"Commodity Name":"Widget","Qty":5,"UOM":"BOX","Price":3}]] *)
Definition priced_text : string :=
  "[{" +:+ quoted "Commodity Name" +:+ ":" +:+ quoted "Widget" +:+ ","
       +:+ quoted "Qty" +:+ ":5," +:+ quoted "UOM" +:+ ":" +:+ quoted "BOX"
       +:+ "," +:+ quoted "Price" +:+ ":3}]".

Definition widget : json :=
  JDict [("Commodity Name", JStr "Widget"); ("Qty", JInt 5); ("UOM", JStr "BOX")].

(** The [str] whose one code point is the lone surrogate U+D800. *)
Definition lone_surrogate : string :=
  String (ascii_of_nat 237)
    (String (ascii_of_nat 160) (String (ascii_of_nat 128) EmptyString)).

(** [[{"Commodity Name":"\ud800","Qty":5,"UOM":"BOX"}]] *)
Definition surrogate_text : string :=
  "[{" +:+ quoted "Commodity Name" +:+ ":" +:+ quoted "\ud800" +:+ ","
       +:+ quoted "Qty" +:+ ":5," +:+ quoted "UOM" +:+ ":" +:+ quoted "BOX"
       +:+ "}]".

Definition surrogate_row : json :=
  JDict [("Commodity Name", JStr lone_surrogate); ("Qty", JInt 5);
         ("UOM", JStr "BOX")].

(** [json.loads] on the texts the samples use; any other text is taken not
    to be JSON. *)
Definition sample_json_loads (text : string) : option json :=
  if String.eqb text widget_text then Some (JList [widget])
  else if String.eqb text gadget_text
  then Some (JList [JDict [("Commodity Name", JStr "Gadget")]])
  else if String.eqb text null_name_text
  then Some (JList [JDict [("Commodity Name", JNull); ("Qty", JInt 5);
                           ("UOM", JStr "BOX")]])
  else if String.eqb text priced_text
  then Some (JList [JDict [("Commodity Name", JStr "Widget"); ("Qty", JInt 5);
                           ("UOM", JStr "BOX"); ("Price", JInt 3)]])
  else if String.eqb text surrogate_text then Some (JList [surrogate_row])
  else if String.eqb text "[5]" then Some (JList [JInt 5])
  else if String.eqb text "[]" then Some (JList [])
  else None.

(** A clock that advances one second per reading. *)
Definition ticking_clock (n : nat) : datetime :=
  {| year := 2024; month := 3; day := 7;
     hour := 9; minute := 5; second := N.of_nat n; microsecond := 0 |}.

(** A clock read twice within one second. *)
Definition fast_clock (n : nat) : datetime :=
  {| year := 2024; month := 3; day := 7;
     hour := 9; minute := 5; second := 42; microsecond := N.of_nat n |}.

(** A world of collaborators: the key, the clock, the pages every PDF but
    ["corrupt.pdf"] rasterizes to, the model's response per page, and the
    directories the system refuses to remove. *)
Definition sample_env (api_key : option string) (clock : nat -> datetime)
    (pages : list image) (responses : list (exn + string))
    (undeletable : path -> bool) : Env :=
  {| getenv_api_key := api_key;
     anthropic_init := fun _ => None;
     now := clock;
     convert_from_path := fun pdf_path _ =>
       if String.eqb pdf_path "corrupt.pdf"
       then inl (ExternalError "PDFPageCountError") else inr pages;
     jpeg_base64 := fun img => inr ("base64:" +:+ img);
     messages_create := fun _ page_number _ _ =>
       nth (page_number - 1) responses (inl (ExternalError "APIConnectionError"));
     json_loads := sample_json_loads;
     fs_denied := fun _ => false;
     rm_denied := undeletable |}.

Definition nothing_denied (p : path) : bool := false.

(** The folder a run that starts in [w] names: the rasterizer's reading of
    the clock is the first of the run. *)
Definition run_temp_folder (env : Env) (w : World) : path :=
  temp_folder_of (now env (clock_reads w)).

(** A directory the provisioner can leave in place or create. *)
Definition provisionable (env : Env) (directory : path) (m : gmap path node)
  : Prop :=
  m !! directory = Some Dir \/
  (m !! directory = None /\ fs_denied env directory = false).

(** One page, and a system that will not let go of the run's folder. *)
Definition sticky_env : Env :=
  sample_env (Some "sk-sample") ticking_clock ["page one"] [inr widget_text]
    (fun p => bool_decide (p = ["temp"; "pdf_images_20240307_090500"])).

(** One page, and two readings of the clock within the same second. *)
Definition same_second_env : Env :=
  sample_env (Some "sk-sample") fast_clock ["page one"] [inr widget_text]
    nothing_denied.

(** No key in the environment. *)
Definition keyless_env : Env :=
  sample_env None ticking_clock ["page one"] [inr widget_text] nothing_denied.

(** Two pages; the model answers the first with the widget row and the
    second with the given response. *)
Definition two_page_env (second_response : exn + string) : Env :=
  sample_env (Some "sk-sample") ticking_clock ["page one"; "page two"]
    [inr widget_text; second_response] nothing_denied.

Definition empty_world : World := mkWorld ∅ 0 [] [].

(** The exception a page raises on a response that is not acceptable. *)
Definition page_error (env : Env) (response : exn + string) : exn :=
  match response with
  | inl e => e
  | inr text =>
      match json_loads env text with
      | None => JSONDecodeError
      | Some parsed =>
          match py_iter parsed with
          | inl e => e
          | inr _ => AttributeError
          end
      end
  end.

(** ** Footprints *)

(** A computation all of whose events satisfy [P] and which changes the
    filesystem only at paths satisfying [Q]. *)
Definition footprint {A} (P : Event -> Prop) (Q : path -> Prop) (m : M A)
  : Prop :=
  forall w r w', m w = (r, w') ->
    (exists evs, trace w' = trace w ++ evs /\ Forall P evs) /\
    (forall p, ~ Q p -> fs w' !! p = fs w !! p).

(** The events of provisioning and rasterizing. *)
Definition is_setup_event (ev : Event) : bool :=
  match ev with
  | EvMakedirs _ | EvRasterize _ _ | EvSaveImage _ => true
  | _ => false
  end.

(** The events of the page loop. *)
Definition is_page_event (ev : Event) : bool :=
  match ev with
  | EvOpenImage _ | EvApiCall _ _ _ _ => true
  | _ => false
  end.

(** ** What the writer and the rasterizer leave behind *)

(** Why [p] cannot be opened for writing, if it cannot. *)
Definition open_error (env : Env) (p : path) (m : gmap path node)
  : option exn :=
  match parent_error p m with
  | Some e => Some e
  | None =>
      if is_dir p m then Some IsADirectoryError
      else if fs_denied env p then Some PermissionError
      else None
  end.

(** The header row of the CSV file. *)
Definition HEADER : list json := map JStr FIELDS.

(** The cells of a row the writer accepts: the three fields in the order of
    the field names, an empty string for a field the row lacks. *)
Definition row_cells (rowdict : json) : list json :=
  match rowdict with
  | JDict d => map (fun key => default (JStr "") (PyDict.get key d)) FIELDS
  | _ => []
  end.

(** What the writer does with one record: the cells it writes, or the error
    it raises, for the record's shape or for a cell that cannot be
    encoded. *)
Definition writerow_result (rowdict : json) : exn + list json :=
  match dict_to_list rowdict with
  | inl e => inl e
  | inr row =>
      if forallb encodable row then inr row else inl UnicodeEncodeError
  end.

(** The rows [writerows] has written when it stops: those before the first
    row it rejects. *)
Fixpoint written_rows (data : list json) : list (list json) :=
  match data with
  | [] => []
  | rowdict :: rest =>
      match writerow_result rowdict with
      | inr row => row :: written_rows rest
      | inl _ => []
      end
  end.

(** The error of the first row [writerows] rejects. *)
Fixpoint rejected (data : list json) : option exn :=
  match data with
  | [] => None
  | rowdict :: rest =>
      match writerow_result rowdict with
      | inr _ => rejected rest
      | inl e => Some e
      end
  end.

(** The path of the image of page [n], counted from 1. *)
Definition page_path (temp_folder : path) (n : nat) : path :=
  path_join temp_folder ("page_" +:+ pretty n +:+ ".jpg").

(** The image each model call was made with. *)
Definition api_image (ev : Event) : option string :=
  match ev with
  | EvApiCall _ _ image_base64 _ => Some image_base64
  | _ => None
  end.

Definition api_images (evs : list Event) : list string := omap api_image evs.

(** A row of the model that lacks one of the three fields. *)
Definition incomplete (item : json) : bool :=
  match item with
  | JDict d => negb (has_all_fields d)
  | _ => false
  end.

(** ** The script *)

(** The file the script is run on. *)
Definition pdf_file : string := "cipl/sample7_Invoice+Packing List-100015.pdf".

(** The line the script prints. *)
Inductive Printed : Type :=
| ProcessingComplete (output_file : path)
| ErrorProcessing (e : exn).

(** The [__main__] block: the document is processed, and whatever happens
    one line is printed. *)
Definition main (env : Env) : M Printed :=
  try_except
    (output_file <- process_pdf_document env pdf_file ;;
     ret (ProcessingComplete output_file))
    (fun e => ret (ErrorProcessing e)).

(** * Properties *)

(** ** Sample values *)

(** The three code points of [aéb], whose second takes two bytes. *)
Example code_points_ex :
  code_points (String "a" (String (ascii_of_nat 195)
                 (String (ascii_of_nat 169) "b")))
  = ["a"; String (ascii_of_nat 195) (String (ascii_of_nat 169) EmptyString);
     "b"].
Proof. reflexivity. Qed.

Example has_surrogate_ex :
  has_surrogate lone_surrogate = true /\
  has_surrogate (String (ascii_of_nat 237)
                   (String (ascii_of_nat 159)
                      (String (ascii_of_nat 191) EmptyString))) = false /\
  code_points lone_surrogate = [lone_surrogate].
Proof. done. Qed.

Example basename_ex :
  basename "cipl/sample7_Invoice+Packing List-100015.pdf"
  = "sample7_Invoice+Packing List-100015.pdf".
Proof. reflexivity. Qed.

Example splitext_ex :
  splitext_root "sample7_Invoice+Packing List-100015.pdf"
  = "sample7_Invoice+Packing List-100015"
  /\ splitext_root ".hidden" = ".hidden"
  /\ splitext_root "a.tar.gz" = "a.tar".
Proof. repeat split; reflexivity. Qed.

Example strftime_ex :
  strftime {| year := 2024; month := 3; day := 7;
              hour := 9; minute := 5; second := 42; microsecond := 17 |}%N
  = "20240307_090542".
Proof. reflexivity. Qed.

(** ** Dicts *)

Module PyDictFacts.
Import PyDict.

Lemma contains_get k d : contains k d = bool_decide (is_Some (get k d)).
Proof.
  induction d as [|[k' v] d IH]; [done|]. simpl.
  destruct (String.eqb k k'); simpl; [done|exact IH].
Qed.

Lemma contains_true k d : contains k d = true <-> is_Some (get k d).
Proof. rewrite contains_get. apply bool_decide_eq_true. Qed.

Lemma contains_false k d : contains k d = false <-> get k d = None.
Proof.
  rewrite contains_get, bool_decide_eq_false, <- eq_None_not_Some. done.
Qed.

Lemma get_snoc k d k' v :
  get k (d ++ [(k', v)]) =
  match get k d with
  | Some x => Some x
  | None => if String.eqb k k' then Some v else None
  end.
Proof.
  induction d as [|[k0 v0] d IH]; simpl; [done|].
  destruct (String.eqb k k0); done.
Qed.

(** [setdefault] reads back the old value of a key, its default when the
    key was absent, and leaves every other key as it was. *)
Lemma get_setdefault k k' v d :
  get k (setdefault k' v d) =
  match get k d with
  | Some x => Some x
  | None => if String.eqb k k' then Some v else None
  end.
Proof.
  unfold setdefault. destruct (contains k' d) eqn:Hc.
  - destruct (get k d) eqn:Hg; [done|].
    destruct (String.eqb k k') eqn:Hk; [|done].
    apply String.eqb_eq in Hk as ->.
    apply contains_true in Hc as [? Hc]. congruence.
  - apply get_snoc.
Qed.

Lemma setdefault_present k v d : contains k d = true -> setdefault k v d = d.
Proof. unfold setdefault. intros ->. done. Qed.

Lemma contains_setdefault k k' v d :
  contains k (setdefault k' v d) = contains k d || String.eqb k k'.
Proof.
  rewrite !contains_get, get_setdefault.
  destruct (get k d) eqn:Hg; [done|].
  destruct (String.eqb k k'); done.
Qed.

End PyDictFacts.

(** ** Row repair *)

Lemma has_all_fields_spec d :
  has_all_fields d = true <->
  PyDict.contains "Commodity Name" d = true /\
  PyDict.contains "Qty" d = true /\ PyDict.contains "UOM" d = true.
Proof.
  unfold has_all_fields, FIELDS. simpl.
  rewrite !andb_true_iff. tauto.
Qed.

Lemma has_all_fields_repair d : has_all_fields (repair d) = true.
Proof.
  apply has_all_fields_spec. unfold repair.
  rewrite !PyDictFacts.contains_setdefault. simpl.
  rewrite !orb_true_r. done.
Qed.

(** After the repair a key reads its old value, or its default when it was
    absent. *)
Lemma get_repair k d :
  PyDict.get k (repair d) =
  match PyDict.get k d with
  | Some v => Some v
  | None => PyDict.get k DEFAULTS
  end.
Proof.
  unfold repair. rewrite !PyDictFacts.get_setdefault.
  destruct (PyDict.get k d); [done|]. simpl.
  destruct (String.eqb k "Commodity Name"); [done|].
  destruct (String.eqb k "Qty"); [done|].
  destruct (String.eqb k "UOM"); done.
Qed.

Lemma repair_complete d : has_all_fields d = true -> repair d = d.
Proof.
  intros (Hn & Hq & Hu)%has_all_fields_spec. unfold repair.
  rewrite (PyDictFacts.setdefault_present "Commodity Name") by done.
  rewrite (PyDictFacts.setdefault_present "Qty") by done.
  by rewrite PyDictFacts.setdefault_present.
Qed.

(** Repairing twice is repairing once, for any record. *)
Lemma repair_repair d : repair (repair d) = repair d.
Proof. apply repair_complete, has_all_fields_repair. Qed.

(** C6: default substitution is idempotent.  A record that already has
    'Commodity Name', 'Qty' and 'UOM' is left unchanged by the three
    [setdefault] calls of the repair, and the validation step of the page
    extractor returns it as it is, without a warning and in the same
    world. *)
Theorem repair_idempotent_on_complete (d : pydict) :
  has_all_fields d = true ->
  repair d = d /\
  repaired (JDict d) = JDict d /\
  forall page_number w,
    validate_item page_number (JDict d) w = (Return (JDict d), w).
Proof.
  intros Hd. split; [by apply repair_complete|]. split.
  - simpl. by rewrite Hd.
  - intros page_number w. simpl. by rewrite Hd.
Qed.

Lemma repair_idempotent_on_complete_witness :
  has_all_fields [("Commodity Name", JStr "Widget"); ("Qty", JInt 5);
                  ("UOM", JStr "BOX")] = true /\
  repair [("Commodity Name", JStr "Widget"); ("Qty", JInt 5);
          ("UOM", JStr "BOX")]
  = [("Commodity Name", JStr "Widget"); ("Qty", JInt 5); ("UOM", JStr "BOX")].
Proof.
  split; [reflexivity|].
  apply (repair_idempotent_on_complete
           [("Commodity Name", JStr "Widget"); ("Qty", JInt 5);
            ("UOM", JStr "BOX")]).
  reflexivity.
Defined.

(** ** Stepping through computations *)

Lemma bind_inv {A B} (m : M A) (k : A -> M B) w r w' :
  bind m k w = (r, w') ->
  (exists a w1, m w = (Return a, w1) /\ k a w1 = (r, w')) \/
  (exists e, m w = (Raise e, w') /\ r = Raise e).
Proof.
  unfold bind. destruct (m w) as [[a|e] w1]; intros H.
  - left. eauto.
  - right. exists e. by simplify_eq.
Qed.

Ltac monad_unfold :=
  unfold bind, ret, raise, lift, try_except, try_finally, logger, emit,
    gets, modify_fs, set_fs in *; simpl in *.

(** ** The validation loop *)

Lemma validate_item_spec page_number item w :
  exists w',
    validate_item page_number item w
    = (if is_record item then Return (repaired item) else Raise AttributeError,
       w') /\
    trace w' = trace w /\ fs w' = fs w /\ clock_reads w' = clock_reads w.
Proof.
  destruct item as [| | | | | |d]; simpl; monad_unfold;
    try (eexists; split; [reflexivity|done]).
  destruct (has_all_fields d); eexists; (split; [reflexivity|done]).
Qed.

Lemma validate_items_spec page_number items w :
  exists w',
    validate_items page_number items w
    = (if forallb is_record items then Return (map repaired items)
       else Raise AttributeError, w') /\
    trace w' = trace w /\ fs w' = fs w /\ clock_reads w' = clock_reads w.
Proof.
  revert w. induction items as [|item rest IH]; intros w.
  - exists w. done.
  - simpl. unfold bind at 1.
    destruct (validate_item_spec page_number item w) as (w1 & -> & Ht & Hf & Hc).
    destruct (is_record item); simpl.
    + unfold bind at 1.
      destruct (IH w1) as (w2 & -> & Ht2 & Hf2 & Hc2).
      exists w2. rewrite Ht2, Hf2, Hc2.
      destruct (forallb is_record rest); done.
    + exists w1. done.
Qed.

(** One page: the model is called once, the filesystem is not touched, and
    the call returns exactly when the response is acceptable, with the batch
    computed from the response. *)
Lemma process_image_spec env client image_base64 page_number total_pages w :
  let response :=
    messages_create env client page_number total_pages image_base64 in
  exists r w',
    process_image_with_claude env client image_base64 page_number total_pages w
    = (r, w') /\
    trace w' = trace w ++ [EvApiCall page_number total_pages image_base64 response] /\
    fs w' = fs w /\ clock_reads w' = clock_reads w /\
    match r with
    | Return results =>
        acceptable env response = true /\
        py_iter results = inr (batch_of env response) /\
        py_len results = inr (List.length (batch_of env response))
    | Raise e => acceptable env response = false /\ e = page_error env response
    end.
Proof.
  intros response. unfold process_image_with_claude, call_model.
  fold response. unfold acceptable, batch_of, page_error.
  destruct response as [e|text]; [monad_unfold; eauto 10|].
  destruct (json_loads env text) as [parsed|] eqn:Hparse;
    [|monad_unfold; rewrite Hparse; simpl; eauto 10].
  destruct (py_iter parsed) as [e|items] eqn:Hiter;
    [monad_unfold; rewrite Hparse; simpl; rewrite Hiter; simpl; eauto 10|].
  unfold try_except, bind at 1. simpl.
  unfold bind at 1. simpl. rewrite Hparse. simpl.
  unfold bind at 1. simpl. rewrite Hiter. simpl.
  unfold bind at 1.
  match goal with |- context [validate_items ?p ?i ?w0] =>
    destruct (validate_items_spec p i w0) as (w1 & -> & Ht & Hf & Hc) end.
  destruct (forallb is_record items) eqn:Hrec; simpl.
  - eexists _, _. split; [reflexivity|].
    rewrite Ht, Hf, Hc. simpl. repeat split; try done.
    + destruct parsed as [| | | |s|xs|d]; simpl in *; simplify_eq; try done.
      * destruct s; simpl in *; by simplify_eq.
      * destruct d; simpl in *; by simplify_eq.
    + destruct parsed as [| | | |s|xs|d]; simpl in *; simplify_eq;
        rewrite ?length_map; try done.
      * destruct s; simpl in *; by simplify_eq.
      * destruct d; simpl in *; by simplify_eq.
  - monad_unfold. eexists _, _. split; [reflexivity|].
    rewrite Ht, Hf, Hc. done.
Qed.

(** ** Footprints of the primitives *)

Section Footprint.
Context {P : Event -> Prop} {Q : path -> Prop}.

Lemma footprint_same {A} (m : M A) :
  (forall w r w', m w = (r, w') -> trace w' = trace w /\ fs w' = fs w) ->
  footprint P Q m.
Proof.
  intros Hm w r w' [Ht Hf]%Hm. split.
  - exists []. by rewrite app_nil_r.
  - intros p _. by rewrite Hf.
Qed.

Lemma footprint_ret {A} (a : A) : footprint P Q (ret a).
Proof. apply footprint_same. intros w r w' [= <- <-]. done. Qed.

Lemma footprint_raise {A} (e : exn) : footprint P Q (@raise A e).
Proof. apply footprint_same. intros w r w' [= <- <-]. done. Qed.

Lemma footprint_lift {A} (r : exn + A) : footprint P Q (lift r).
Proof. destruct r; [apply footprint_raise|apply footprint_ret]. Qed.

Lemma footprint_gets {A} (f : World -> A) : footprint P Q (gets f).
Proof. apply footprint_same. intros w r w' [= <- <-]. done. Qed.

Lemma footprint_logger l msg : footprint P Q (logger l msg).
Proof. apply footprint_same. intros w r w' [= <- <-]. done. Qed.

Lemma footprint_datetime_now env : footprint P Q (datetime_now env).
Proof. apply footprint_same. intros w r w' [= <- <-]. done. Qed.

Lemma footprint_emit ev : P ev -> footprint P Q (emit ev).
Proof.
  intros Hev w r w' [= <- <-]. split; [|done].
  exists [ev]. split; [done|]. by constructor.
Qed.

Lemma footprint_modify_fs f :
  (forall m p, ~ Q p -> f m !! p = m !! p) -> footprint P Q (modify_fs f).
Proof.
  intros Hf w r w' [= <- <-]. split.
  - exists []. by rewrite app_nil_r.
  - intros p Hp. simpl. by apply Hf.
Qed.

Lemma footprint_bind {A B} (m : M A) (k : A -> M B) :
  footprint P Q m -> (forall a, footprint P Q (k a)) ->
  footprint P Q (bind m k).
Proof.
  intros Hm Hk w r w' [(a & w1 & H1 & H2)|(e & H1 & ->)]%bind_inv.
  - destruct (Hm _ _ _ H1) as [(evs1 & Ht1 & HP1) Hf1].
    destruct (Hk a _ _ _ H2) as [(evs2 & Ht2 & HP2) Hf2]. split.
    + exists (evs1 ++ evs2). rewrite Ht2, Ht1, app_assoc. split; [done|].
      by apply Forall_app.
    + intros p Hp. rewrite Hf2, Hf1; done.
  - by apply Hm in H1.
Qed.

Lemma footprint_try_except {A} (m : M A) (handler : exn -> M A) :
  footprint P Q m -> (forall e, footprint P Q (handler e)) ->
  footprint P Q (try_except m handler).
Proof.
  intros Hm Hh w r w'. unfold try_except.
  destruct (m w) as [[a|e] w1] eqn:H1; intros H2.
  - simplify_eq. by apply Hm in H1.
  - destruct (Hm _ _ _ H1) as [(evs1 & Ht1 & HP1) Hf1].
    destruct (Hh e _ _ _ H2) as [(evs2 & Ht2 & HP2) Hf2]. split.
    + exists (evs1 ++ evs2). rewrite Ht2, Ht1, app_assoc. split; [done|].
      by apply Forall_app.
    + intros p Hp. rewrite Hf2, Hf1; done.
Qed.

Lemma footprint_try_finally {A} (m : M A) (fin : M unit) :
  footprint P Q m -> footprint P Q fin ->
  footprint P Q (try_finally m fin).
Proof.
  intros Hm Hfin w r w'. unfold try_finally.
  destruct (m w) as [r1 w1] eqn:H1.
  destruct (fin w1) as [r2 w2] eqn:H2. intros H3.
  destruct (Hm _ _ _ H1) as [(evs1 & Ht1 & HP1) Hf1].
  destruct (Hfin _ _ _ H2) as [(evs2 & Ht2 & HP2) Hf2].
  assert (w' = w2) as -> by (destruct r2; by simplify_eq). split.
  - exists (evs1 ++ evs2). rewrite Ht2, Ht1, app_assoc. split; [done|].
    by apply Forall_app.
  - intros p Hp. rewrite Hf2, Hf1; done.
Qed.

Lemma footprint_for_each {A} (xs : list A) (body : A -> M unit) :
  (forall x, x ∈ xs -> footprint P Q (body x)) ->
  footprint P Q (for_each xs body).
Proof.
  induction xs as [|x xs IH]; intros Hb; simpl.
  - apply footprint_ret.
  - apply footprint_bind.
    + apply Hb. by left.
    + intros _. apply IH. intros y Hy. apply Hb. by right.
Qed.

End Footprint.

Lemma footprint_weaken {A} (P P' : Event -> Prop) (Q Q' : path -> Prop)
    (m : M A) :
  (forall ev, P ev -> P' ev) -> (forall p, Q p -> Q' p) ->
  footprint P Q m -> footprint P' Q' m.
Proof.
  intros HP HQ Hm w r w' [(evs & Ht & Hevs) Hf]%Hm. split.
  - exists evs. split; [done|]. eapply Forall_impl; eauto.
  - intros p Hp. apply Hf. intros Hq. by apply Hp, HQ.
Qed.

(** Goals on a footprint are taken apart along the syntax of the
    computation. *)
Ltac footprint_step :=
  match goal with
  | |- footprint _ _ (ret _) => apply footprint_ret
  | |- footprint _ _ (raise _) => apply footprint_raise
  | |- footprint _ _ (lift _) => apply footprint_lift
  | |- footprint _ _ (gets _) => apply footprint_gets
  | |- footprint _ _ (logger _ _) => apply footprint_logger
  | |- footprint _ _ (datetime_now _) => apply footprint_datetime_now
  | |- footprint _ _ (bind _ _) => apply footprint_bind; [|intros ?]
  | |- footprint _ _ (try_except _ _) => apply footprint_try_except; [|intros ?]
  | |- footprint _ _ (try_finally _ _) => apply footprint_try_finally
  | |- footprint _ _ (if ?c then _ else _) => destruct c
  | |- footprint _ _ (match ?x with _ => _ end) => destruct x
  end.

Section FootprintOfFilesystem.
Context {P : Event -> Prop} {Q : path -> Prop} (env : Env).

Lemma footprint_mkdir p : Q p -> footprint P Q (mkdir env p).
Proof.
  intros Hp. unfold mkdir. repeat footprint_step.
  apply footprint_modify_fs. intros m q Hq.
  apply lookup_insert_ne. congruence.
Qed.

Lemma footprint_makedirs_rev rname :
  (forall q, q <> [] -> q `prefix_of` rev rname -> Q q) ->
  footprint P Q (makedirs_rev env rname).
Proof.
  induction rname as [|tail rhead IH]; intros HQ; simpl.
  - apply footprint_ret.
  - repeat footprint_step.
    + apply IH. intros q Hq Hpre. apply HQ; [done|].
      simpl. by apply prefix_app_r.
    + apply footprint_mkdir. apply HQ; [|done].
      simpl. by destruct (rev rhead).
Qed.

Lemma footprint_makedirs name :
  P (EvMakedirs name) ->
  (forall q, q <> [] -> q `prefix_of` name -> Q q) ->
  footprint P Q (makedirs env name).
Proof.
  intros HP HQ. unfold makedirs. apply footprint_bind.
  - by apply footprint_emit.
  - intros _. apply footprint_makedirs_rev. by rewrite rev_involutive.
Qed.

Lemma lookup_remove_tree (folder : path) (m : gmap path node) (p : path) :
  remove_tree folder m !! p
  = if decide (folder `prefix_of` p) then None else m !! p.
Proof.
  unfold remove_tree. destruct (decide (folder `prefix_of` p)) as [Hp|Hp].
  - apply map_lookup_filter_None. right. intros x _ Hx. by apply Hx.
  - destruct (m !! p) as [x|] eqn:Hm.
    + by apply map_lookup_filter_Some.
    + apply map_lookup_filter_None. by left.
Qed.

Lemma footprint_rmtree folder :
  P (EvRmtree folder) ->
  (forall q, folder `prefix_of` q -> Q q) ->
  footprint P Q (rmtree env folder).
Proof.
  intros HP HQ. unfold rmtree. apply footprint_bind.
  - by apply footprint_emit.
  - intros _. repeat footprint_step.
    apply footprint_modify_fs. intros m q Hq.
    rewrite lookup_remove_tree. case_decide; [|done].
    exfalso. by apply Hq, HQ.
Qed.

Lemma footprint_create_file p content :
  Q p -> footprint P Q (create_file env p content).
Proof.
  intros Hp. unfold create_file. repeat footprint_step.
  apply footprint_modify_fs. intros m q Hq.
  apply lookup_insert_ne. congruence.
Qed.

Lemma footprint_image_save img p :
  P (EvSaveImage p) -> Q p -> footprint P Q (image_save env img p).
Proof.
  intros HP HQ. unfold image_save. apply footprint_bind.
  - by apply footprint_emit.
  - intros _. by apply footprint_create_file.
Qed.

Lemma footprint_image_open p :
  P (EvOpenImage p) -> footprint P Q (image_open p).
Proof.
  intros HP. unfold image_open. apply footprint_bind.
  - by apply footprint_emit.
  - intros _. repeat footprint_step.
Qed.

Lemma footprint_append_row p row : Q p -> footprint P Q (append_row p row).
Proof.
  intros Hp. apply footprint_modify_fs. intros m q Hq.
  apply lookup_alter_ne. congruence.
Qed.

Lemma footprint_write_row p row : Q p -> footprint P Q (write_row p row).
Proof.
  intros HQ. unfold write_row. destruct (forallb encodable row).
  - by apply footprint_append_row.
  - apply footprint_raise.
Qed.

End FootprintOfFilesystem.

(** ** Footprints of the module's functions *)

Section FootprintOfFunctions.
Context {P : Event -> Prop} {Q : path -> Prop} (env : Env).

Lemma prefix_singleton (q : path) (d : string) :
  q <> [] -> q `prefix_of` [d] -> q = [d].
Proof.
  intros Hq [k Hk]. destruct q as [|x q]; [done|].
  destruct q; simpl in *; by simplify_eq.
Qed.

Lemma footprint_ensure_directories :
  P (EvMakedirs OUTPUT_DIR) -> P (EvMakedirs TEMP_DIR) ->
  Q OUTPUT_DIR -> Q TEMP_DIR ->
  footprint P Q (ensure_directories env).
Proof.
  intros HPo HPt HQo HQt. unfold ensure_directories.
  apply footprint_for_each. intros directory Hd.
  apply footprint_bind; [|intros _; apply footprint_logger].
  apply elem_of_cons in Hd as [->|Hd]; [|apply list_elem_of_singleton in Hd as ->].
  - apply footprint_makedirs; [done|].
    intros q Hq Hpre. by rewrite (prefix_singleton q "output").
  - apply footprint_makedirs; [done|].
    intros q Hq Hpre. by rewrite (prefix_singleton q "temp").
Qed.

Lemma footprint_cleanup_temp_files temp_folder :
  P (EvRmtree temp_folder) ->
  (forall q, temp_folder `prefix_of` q -> Q q) ->
  footprint P Q (cleanup_temp_files env temp_folder).
Proof.
  intros HP HQ. unfold cleanup_temp_files. repeat footprint_step.
  by apply footprint_rmtree.
Qed.

Lemma footprint_setup_anthropic_client :
  footprint P Q (setup_anthropic_client env).
Proof. unfold setup_anthropic_client. repeat footprint_step. Qed.

Lemma footprint_save_pages temp_folder images : forall i image_paths,
  (forall name, P (EvSaveImage (path_join temp_folder name))) ->
  (forall name, Q (path_join temp_folder name)) ->
  footprint P Q (save_pages env temp_folder i images image_paths).
Proof.
  induction images as [|img rest IH]; intros i image_paths HP HQ; simpl.
  - apply footprint_ret.
  - apply footprint_bind; [by apply footprint_image_save|].
    intros _. by apply IH.
Qed.

Lemma footprint_convert_pdf_to_images pdf_path dpi :
  (forall ev, is_setup_event ev = true -> P ev) ->
  (forall q, TEMP_DIR `prefix_of` q -> Q q) ->
  footprint P Q (convert_pdf_to_images env pdf_path dpi).
Proof.
  intros HP HQ. unfold convert_pdf_to_images.
  apply footprint_try_except; [|intros e; repeat footprint_step].
  apply footprint_bind; [apply footprint_datetime_now|]. intros dt.
  apply footprint_bind.
  { apply footprint_makedirs; [by apply HP|].
    intros q Hq [k Hk]. apply HQ. unfold temp_folder_of, path_join in Hk.
    destruct q as [|x q]; [done|]. simpl in Hk. injection Hk as <- _.
    by exists q. }
  intros _. apply footprint_bind; [apply footprint_emit; by apply HP|].
  intros _. apply footprint_bind; [apply footprint_lift|]. intros images.
  apply footprint_bind; [|intros ?; repeat footprint_step].
  apply footprint_save_pages.
  - intros name. by apply HP.
  - intros name. apply HQ. unfold temp_folder_of, path_join. simpl.
    by eexists.
Qed.

Lemma footprint_image_to_base64 image_path :
  P (EvOpenImage image_path) ->
  footprint P Q (image_to_base64 env image_path).
Proof.
  intros HP. unfold image_to_base64.
  apply footprint_try_except; [|intros e; repeat footprint_step].
  apply footprint_bind; [by apply footprint_image_open|].
  intros img. apply footprint_lift.
Qed.

Lemma footprint_writerows output_file data :
  Q output_file -> footprint P Q (writerows output_file data).
Proof.
  intros HQ. induction data as [|rowdict rest IH]; simpl.
  - apply footprint_ret.
  - apply footprint_bind; [apply footprint_lift|]. intros row.
    apply footprint_bind; [by apply footprint_write_row|]. by intros _.
Qed.

Lemma footprint_save_to_csv data source_file :
  (forall output_file, P (EvOpenCsv output_file)) ->
  (forall name, Q (path_join OUTPUT_DIR name)) ->
  footprint P Q (save_to_csv env data source_file).
Proof.
  intros HP HQ. unfold save_to_csv.
  apply footprint_try_except; [|intros e; repeat footprint_step].
  apply footprint_bind; [apply footprint_datetime_now|]. intros dt.
  apply footprint_bind; [by apply footprint_emit|]. intros _.
  apply footprint_bind; [apply footprint_create_file, HQ|]. intros _.
  apply footprint_bind; [apply footprint_append_row, HQ|]. intros _.
  apply footprint_bind; [apply footprint_writerows, HQ|]. intros _.
  repeat footprint_step.
Qed.

End FootprintOfFunctions.

(** ** The page loop *)

Lemma api_responses_cons ev evs :
  api_responses (ev :: evs)
  = match api_response ev with
    | Some response => response :: api_responses evs
    | None => api_responses evs
    end.
Proof. reflexivity. Qed.

Lemma api_responses_app evs1 evs2 :
  api_responses (evs1 ++ evs2) = api_responses evs1 ++ api_responses evs2.
Proof. apply omap_app. Qed.

Lemma api_pages_cons ev evs :
  api_pages (ev :: evs)
  = match api_page ev with
    | Some page_number => page_number :: api_pages evs
    | None => api_pages evs
    end.
Proof. reflexivity. Qed.

Lemma image_to_base64_spec env image_path w :
  exists r w',
    image_to_base64 env image_path w = (r, w') /\
    trace w' = trace w ++ [EvOpenImage image_path] /\
    fs w' = fs w /\ clock_reads w' = clock_reads w.
Proof.
  unfold image_to_base64, image_open. monad_unfold.
  destruct (fs w !! image_path) as [[|img|rows|content]|]; simpl; eauto 10.
  destruct (jpeg_base64 env img); simpl; eauto 10.
Qed.

(** The loop calls the model for pages [page_num], [page_num + 1], ... in
    turn.  Every response but possibly the last was acceptable; when the
    loop returns, all were and the result is the batches in that order
    appended to [all_results]; when a response was not acceptable, the loop
    raised the error of that page at once. *)
Lemma process_pages_spec env client total_pages image_paths :
  forall page_num all_results w,
  exists r w' evs goods tail,
    process_pages env client total_pages page_num image_paths all_results w
    = (r, w') /\
    trace w' = trace w ++ evs /\ fs w' = fs w /\
    clock_reads w' = clock_reads w /\
    Forall (fun ev => is_page_event ev = true) evs /\
    api_responses evs = goods ++ tail /\
    forallb (acceptable env) goods = true /\
    match r with
    | Return all =>
        tail = [] /\
        all = all_results ++ concat (map (batch_of env) goods) /\
        api_pages evs = seq page_num (List.length image_paths)
    | Raise e =>
        tail = [] \/
        exists response, tail = [response] /\
          acceptable env response = false /\ e = page_error env response
    end.
Proof.
  induction image_paths as [|image_path rest IH]; intros page_num all_results w.
  - exists (Return all_results), w, [], [], []. simpl.
    rewrite !app_nil_r. repeat split; done.
  - simpl. unfold bind at 1.
    destruct (image_to_base64_spec env image_path w)
      as ([image_base64|e] & w1 & -> & Ht1 & Hf1 & Hc1); simpl.
    2:{ exists (Raise e), w1, [EvOpenImage image_path], [], [].
        repeat split; try done; [by repeat constructor|by left]. }
    unfold bind at 1.
    destruct (process_image_spec env client image_base64 page_num total_pages w1)
      as ([results|e] & w2 & -> & Ht2 & Hf2 & Hc2 & Hr); simpl.
    2:{ destruct Hr as [Hbad ->]. eexists (Raise _), w2, _, [], [_].
        split; [done|]. rewrite Ht2, Ht1, <- app_assoc. simpl.
        split; [done|]. split; [congruence|]. split; [congruence|].
        split; [by repeat constructor|]. split; [done|]. split; [done|].
        right. eauto. }
    destruct Hr as (Hgood & Hiter & Hlen).
    unfold bind at 1. rewrite Hlen. simpl.
    unfold bind at 1. simpl.
    unfold bind at 1. rewrite Hiter. simpl.
    set (response := messages_create env client page_num total_pages image_base64) in *.
    match goal with |- context [process_pages _ _ _ _ _ ?acc ?w0] =>
      destruct (IH (S page_num) acc w0)
        as (r & w3 & evs & goods & tail & -> & Ht3 & Hf3 & Hc3 & Hev & Hresp
            & Hgoods & Hr)
    end.
    simpl in Ht3, Hf3, Hc3.
    exists r, w3,
      (EvOpenImage image_path
       :: EvApiCall page_num total_pages image_base64 response :: evs),
      (response :: goods), tail.
    split; [done|]. split.
    { rewrite Ht3, Ht2, Ht1, <- !app_assoc. done. }
    split; [congruence|]. split; [congruence|].
    split; [by repeat constructor|].
    split; [rewrite !api_responses_cons; cbn [api_response]; by rewrite Hresp|].
    split; [simpl; by rewrite Hgood|].
    destruct r as [all|e]; [|done].
    destruct Hr as (-> & -> & Hpages). repeat split.
    + simpl. by rewrite <- app_assoc.
    + rewrite !api_pages_cons. cbn [api_page]. by rewrite Hpages.
Qed.

(** ** The whole run *)

Lemma footprint_prepare env pdf_path :
  footprint (fun ev => is_setup_event ev = true)
            (fun p => p = OUTPUT_DIR \/ TEMP_DIR `prefix_of` p)
            (prepare env pdf_path).
Proof.
  unfold prepare. apply footprint_bind.
  { apply footprint_ensure_directories; try done; [by left|by right]. }
  intros _. apply footprint_bind; [apply footprint_setup_anthropic_client|].
  intros client. apply footprint_bind; [|intros ?; apply footprint_ret].
  apply footprint_convert_pdf_to_images; [done|]. intros q Hq. by right.
Qed.

(** Cleaning up never raises.  It removes the folder and what is below it
    when the folder is a directory the system lets go of; a refusal ends as
    a warning and leaves everything in place. *)
Lemma cleanup_temp_files_spec env (temp_folder : path) w :
  exists w' evs,
    cleanup_temp_files env temp_folder w = (Return tt, w') /\
    trace w' = trace w ++ evs /\
    Forall (fun ev => ev = EvRmtree temp_folder) evs /\
    match fs w !! temp_folder with
    | None => fs w' = fs w
    | Some Dir =>
        if rm_denied env temp_folder
        then fs w' = fs w /\
             log w' = log w ++ [(WARNING, CleanupError PermissionError)]
        else fs w' = remove_tree temp_folder (fs w)
    | Some _ =>
        fs w' = fs w /\
        log w' = log w ++ [(WARNING, CleanupError NotADirectoryError)]
    end.
Proof.
  unfold cleanup_temp_files, rmtree, path_exists. monad_unfold.
  destruct (fs w !! temp_folder) as [[|img|rows|content]|] eqn:Hf; simpl;
    rewrite ?Hf; simpl.
  - destruct (rm_denied env temp_folder); simpl;
      eexists _, [_]; repeat split; by repeat constructor.
  - eexists _, [_]; repeat split; by repeat constructor.
  - eexists _, [_]; repeat split; by repeat constructor.
  - eexists _, [_]; repeat split; by repeat constructor.
  - exists w, []. rewrite app_nil_r. repeat split; by repeat constructor.
Qed.

(** The clean-up of a folder that is there attempts its removal, once. *)
Lemma cleanup_temp_files_attempts env (temp_folder : path) w w' :
  path_exists temp_folder (fs w) = true ->
  cleanup_temp_files env temp_folder w = (Return tt, w') ->
  trace w' = trace w ++ [EvRmtree temp_folder].
Proof.
  unfold cleanup_temp_files, rmtree, path_exists. monad_unfold.
  destruct (fs w !! temp_folder) as [[|img|rows|content]|] eqn:Hf; simpl;
    rewrite ?Hf; simpl; [|by intros _ [= <-]..|done].
  destruct (rm_denied env temp_folder); simpl; by intros _ [= <-].
Qed.

(** The two ways a run can go: the preparation raises, or it hands over a
    client, the page images and the temporary folder, after which the pages
    are extracted and saved, the folder is cleaned up, and the outcome of
    extracting and saving is the outcome of the run. *)
Lemma process_pdf_document_inv env pdf_path w r w' :
  process_pdf_document env pdf_path w = (r, w') ->
  (exists e w1,
     prepare env pdf_path w = (Raise e, w1) /\ r = Raise e /\
     trace w' = trace w1 /\ fs w' = fs w1 /\
     log w' = log w1 ++ [(ERROR, DocumentError e)]) \/
  (exists client image_paths temp_folder w1 w2 w3,
     prepare env pdf_path w
     = (Return (client, (image_paths, temp_folder)), w1) /\
     extract_and_save env pdf_path client image_paths w1 = (r, w2) /\
     cleanup_temp_files env temp_folder w2 = (Return tt, w3) /\
     trace w' = trace w3 /\ fs w' = fs w3 /\
     log w' = log w3 ++ match r with
                        | Return _ => []
                        | Raise e => [(ERROR, DocumentError e)]
                        end).
Proof.
  unfold process_pdf_document, try_except. unfold bind at 1.
  destruct (prepare env pdf_path w)
    as [[[client [image_paths temp_folder]]|e] w1] eqn:Hprep.
  - unfold try_finally.
    destruct (extract_and_save env pdf_path client image_paths w1)
      as [r2 w2] eqn:Hextract.
    destruct (cleanup_temp_files_spec env temp_folder w2)
      as (w3 & evs & Hclean & _). rewrite Hclean.
    intros H. right. exists client, image_paths, temp_folder, w1, w2, w3.
    destruct r2 as [output_file|e]; monad_unfold; simplify_eq; simpl;
      rewrite ?app_nil_r; done.
  - intros H. left. exists e, w1. monad_unfold. by simplify_eq.
Qed.

Lemma api_responses_none evs :
  Forall (fun ev => is_api_call ev = false) evs -> api_responses evs = [].
Proof.
  induction 1 as [|ev evs Hev _ IH]; [done|].
  rewrite api_responses_cons, IH. by destruct ev.
Qed.

Lemma api_responses_none_inv evs :
  api_responses evs = [] -> Forall (fun ev => is_api_call ev = false) evs.
Proof.
  induction evs as [|ev evs IH]; [by constructor|].
  rewrite api_responses_cons. destruct ev; simpl; try done;
    intros H; constructor; auto.
Qed.

(** The model calls of a run: every response but possibly the last was
    acceptable, and a last one that was not ended the run with that page's
    error before any CSV file was opened. *)
Lemma process_pdf_document_calls env pdf_path w r w' :
  process_pdf_document env pdf_path w = (r, w') ->
  exists evs goods tail,
    trace w' = trace w ++ evs /\
    api_responses evs = goods ++ tail /\
    forallb (acceptable env) goods = true /\
    (tail = [] \/
     exists response,
       tail = [response] /\ acceptable env response = false /\
       r = Raise (page_error env response) /\
       Forall (fun ev => is_csv_open ev = false) evs).
Proof.
  intros [(e & w1 & Hprep & -> & Ht & _)
         |(client & image_paths & temp_folder & w1 & w2 & w3 & Hprep & Hext
           & Hclean & Ht & _)]%process_pdf_document_inv.
  - destruct (footprint_prepare env pdf_path _ _ _ Hprep)
      as [(evs & Ht1 & Hevs) _].
    exists evs, [], []. rewrite Ht, Ht1. repeat split; [|by left].
    apply api_responses_none. eapply Forall_impl; [done|].
    by intros [] ?.
  - destruct (footprint_prepare env pdf_path _ _ _ Hprep)
      as [(evs1 & Ht1 & Hevs1) _].
    destruct (cleanup_temp_files_spec env temp_folder w2)
      as (w3' & evs4 & Hclean' & Ht4 & Hevs4 & _).
    rewrite Hclean in Hclean'. injection Hclean' as <-.
    assert (api_responses evs1 = []) as Hapi1.
    { apply api_responses_none. eapply Forall_impl; [done|]. by intros [] ?. }
    assert (api_responses evs4 = []) as Hapi4.
    { apply api_responses_none. eapply Forall_impl; [done|]. by intros ? ->. }
    unfold extract_and_save in Hext.
    destruct (process_pages_spec env client (List.length image_paths)
                image_paths 1 [] w1)
      as (r2 & wl & evs2 & goods & tail & Hloop & Ht2 & _ & _ & Hevs2 & Hresp
          & Hgoods & Hr2).
    apply bind_inv in Hext
        as [(all & wl' & Hloop' & Hsave)|(e & Hloop' & ->)];
      rewrite Hloop in Hloop'; simplify_eq.
    + destruct Hr2 as (-> & _ & _).
      destruct (footprint_save_to_csv
                  (P:=fun ev => is_csv_open ev = true)
                  (Q:=fun p => exists name, p = path_join OUTPUT_DIR name)
                  env _ pdf_path ltac:(done) ltac:(by eexists) _ _ _ Hsave)
        as [(evs3 & Ht3 & Hevs3) _].
      exists (evs1 ++ evs2 ++ evs3 ++ evs4), goods, [].
      rewrite Ht, Ht4, Ht3, Ht2, Ht1, <- !app_assoc. split; [done|].
      rewrite !api_responses_app, Hapi1, Hapi4, Hresp. simpl.
      rewrite (api_responses_none evs3), !app_nil_r.
      * repeat split; [done|by left].
      * eapply Forall_impl; [done|]. by intros [] ?.
    + exists (evs1 ++ evs2 ++ evs4), goods, tail.
      rewrite Ht, Ht4, Ht2, Ht1, <- !app_assoc. split; [done|].
      rewrite !api_responses_app, Hapi1, Hapi4, Hresp, !app_nil_r. simpl.
      repeat split; [done|].
      destruct Hr2 as [->|(response & -> & Hbad & ->)]; [by left|right].
      exists response. repeat split; [done|].
      rewrite !Forall_app. repeat split.
      * eapply Forall_impl; [exact Hevs1|]. by intros [] ?.
      * eapply Forall_impl; [exact Hevs2|]. by intros [] ?.
      * eapply Forall_impl; [exact Hevs4|]. by intros ? ->.
Qed.

(** ** The temporary folder *)

Lemma mkdir_returns env (p : path) w w' :
  mkdir env p w = (Return tt, w') -> fs w' = <[p := Dir]> (fs w).
Proof.
  unfold mkdir, bind, gets, raise, modify_fs.
  destruct (path_exists p (fs w)); [done|].
  destruct (parent_error p (fs w)); [done|].
  destruct (fs_denied env p); [done|]. by intros [= <-].
Qed.

(** With [exist_ok] the leaf is a directory whenever the call returns. *)
Lemma mkdir_exist_ok env (p : path) w w' :
  try_except (mkdir env p)
    (fun e =>
       isdir <- gets (fun w => is_dir p (fs w)) ;;
       if isdir then ret tt else raise e) w = (Return tt, w') ->
  is_dir p (fs w') = true.
Proof.
  unfold try_except. destruct (mkdir env p w) as [[[]|e] w1] eqn:Hmkdir.
  - intros [= <-]. apply mkdir_returns in Hmkdir.
    unfold is_dir. by rewrite Hmkdir, lookup_insert_eq.
  - unfold bind, gets, ret, raise.
    destruct (is_dir p (fs w1)) eqn:Hdir; [|done]. by intros [= <-].
Qed.

Lemma makedirs_returns_dir env (name : path) w w' :
  name <> [] -> makedirs env name w = (Return tt, w') ->
  is_dir name (fs w') = true.
Proof.
  intros Hname. unfold makedirs.
  intros [(_ & w0 & _ & Hrev)|(e & _ & [=])]%bind_inv.
  destruct (rev name) as [|tail rhead] eqn:Hrn.
  { apply (f_equal (@rev string)) in Hrn. rewrite rev_involutive in Hrn. done. }
  assert (rev (tail :: rhead) = name) as Hback
    by (by rewrite <- Hrn, rev_involutive).
  cbn [makedirs_rev] in Hrev. rewrite Hback in Hrev.
  apply bind_inv in Hrev as [(missing & w2 & _ & Hrev)|(e & _ & [=])].
  apply bind_inv in Hrev as [(_ & w3 & _ & Hrev)|(e & _ & [=])].
  by apply mkdir_exist_ok in Hrev.
Qed.

Lemma path_join_ne (dir : path) name : path_join dir name <> dir.
Proof.
  unfold path_join. intros H%(f_equal (@List.length string)).
  rewrite length_app in H. simpl in H. lia.
Qed.

(** The rasterizer returns the folder named after its reading of the clock,
    and the folder is a directory by then. *)
Lemma convert_pdf_to_images_returns env pdf_path dpi w image_paths
    (temp_folder : path) w' :
  convert_pdf_to_images env pdf_path dpi w
  = (Return (image_paths, temp_folder), w') ->
  temp_folder = run_temp_folder env w /\ is_dir temp_folder (fs w') = true.
Proof.
  unfold convert_pdf_to_images, try_except.
  match goal with |- context [bind (datetime_now env) ?k w] =>
    destruct (bind (datetime_now env) k w) as [[result|e] w1] eqn:Hbody end.
  2:{ by monad_unfold. }
  intros [= -> ->].
  apply bind_inv in Hbody as [(dt & w2 & Hnow & Hbody)|(e & _ & [=])].
  injection Hnow as <- <-.
  apply bind_inv in Hbody as [([] & w3 & Hmk & Hbody)|(e & _ & [=])].
  apply makedirs_returns_dir in Hmk; [|done].
  apply bind_inv in Hbody as [([] & w4 & Hemit & Hbody)|(e & _ & [=])].
  injection Hemit as <-.
  apply bind_inv in Hbody as [(images & w5 & Hlift & Hbody)|(e & _ & [=])].
  assert (w5 = with_event (EvRasterize pdf_path dpi) w3) as ->.
  { unfold lift, ret, raise in Hlift.
    destruct (convert_from_path env pdf_path dpi); by simplify_eq. }
  apply bind_inv in Hbody as [(saved & w6 & Hsave & Hbody)|(e & _ & [=])].
  destruct (footprint_save_pages
              (P:=fun _ => True)
              (Q:=fun p => exists name,
                     p = path_join (temp_folder_of (now env (clock_reads w))) name)
              env _ images 0 [] ltac:(done) ltac:(by eexists) _ _ _ Hsave)
    as [_ Hfs].
  monad_unfold. simplify_eq. split; [done|].
  unfold is_dir in *. simpl in *. rewrite Hfs; [done|].
  intros [name Hname]. symmetry in Hname. by apply path_join_ne in Hname.
Qed.

Lemma prepare_returns env pdf_path w client image_paths (temp_folder : path) w' :
  prepare env pdf_path w = (Return (client, (image_paths, temp_folder)), w') ->
  (exists dt, temp_folder = temp_folder_of dt) /\
  is_dir temp_folder (fs w') = true.
Proof.
  unfold prepare.
  intros [([] & w1 & _ & Hrest)|(e & _ & [=])]%bind_inv.
  apply bind_inv in Hrest as [(client' & w2 & _ & Hrest)|(e & _ & [=])].
  apply bind_inv in Hrest
      as [([image_paths' temp_folder'] & w3 & Hconv & Hret)|(e & _ & [=])].
  injection Hret as <- <- <- <-.
  apply convert_pdf_to_images_returns in Hconv as [-> Hdir].
  split; [by eexists|done].
Qed.

(** Extracting and saving leaves everything under the temp directory as it
    is. *)
Lemma extract_and_save_keeps_temp env pdf_path client image_paths w r w' :
  extract_and_save env pdf_path client image_paths w = (r, w') ->
  forall p : path, TEMP_DIR `prefix_of` p -> fs w' !! p = fs w !! p.
Proof.
  unfold extract_and_save. intros Hrun p [k ->].
  destruct (process_pages_spec env client (List.length image_paths)
              image_paths 1 [] w)
    as (r1 & w1 & evs & goods & tail & Hloop & _ & Hfs & _).
  apply bind_inv in Hrun as [(all & w1' & Hloop' & Hsave)|(e & Hloop' & _)];
    rewrite Hloop in Hloop'; simplify_eq; [|by rewrite Hfs].
  destruct (footprint_save_to_csv
              (P:=fun _ => True)
              (Q:=fun p => exists name, p = path_join OUTPUT_DIR name)
              env _ pdf_path ltac:(done) ltac:(by eexists) _ _ _ Hsave)
    as [_ Hfs'].
  rewrite Hfs', Hfs; [done|]. by intros [name [=]].
Qed.

(** ** The output directory *)

(** Saving starts by opening the CSV file. *)
Lemma save_to_csv_opens env data source_file w r w' :
  save_to_csv env data source_file w = (r, w') ->
  exists output_file evs,
    trace w' = trace w ++ EvOpenCsv output_file :: evs.
Proof.
  unfold save_to_csv, try_except. unfold bind at 1. simpl.
  unfold bind at 1. simpl.
  match goal with |- context [bind (create_file ?e ?p ?c) ?k ?w0] =>
    destruct (bind (create_file e p c) k w0) as [r1 w1] eqn:Hrest;
    assert (footprint (fun _ => True) (fun _ => True)
              (bind (create_file e p c) k)) as Hfoot
  end.
  { apply footprint_bind; [by apply footprint_create_file|]. intros _.
    apply footprint_bind; [by apply footprint_append_row|]. intros _.
    apply footprint_bind; [by apply footprint_writerows|]. intros _.
    repeat footprint_step. }
  destruct (Hfoot _ _ _ Hrest) as [(evs & Ht & _) _]. simpl in Ht.
  rewrite <- app_assoc in Ht. simpl in Ht.
  destruct r1 as [output_file|e]; monad_unfold; intros ?; simplify_eq; eauto.
Qed.

(** A run in which no CSV file is opened leaves every file of the output
    directory as it was. *)
Lemma run_without_csv_keeps_output env pdf_path w r w' evs :
  process_pdf_document env pdf_path w = (r, w') ->
  trace w' = trace w ++ evs ->
  Forall (fun ev => is_csv_open ev = false) evs ->
  forall name,
    fs w' !! path_join OUTPUT_DIR name = fs w !! path_join OUTPUT_DIR name.
Proof.
  intros Hrun Ht Hcsv name.
  apply process_pdf_document_inv in Hrun
      as [(e & w1 & Hprep & _ & _ & Hfs & _)
         |(client & image_paths & temp_folder & w1 & w2 & w3 & Hprep & Hext
           & Hclean & Ht3 & Hfs & _)].
  - destruct (footprint_prepare env pdf_path _ _ _ Hprep) as [_ Hfs1].
    rewrite Hfs. apply Hfs1. by intros [[=]|[k [=]]].
  - destruct (footprint_prepare env pdf_path _ _ _ Hprep)
      as [(evs1 & Ht1 & _) Hfs1].
    destruct (prepare_returns _ _ _ _ _ _ _ Hprep) as [[dt ->] _].
    destruct (footprint_cleanup_temp_files
                (P:=fun _ => True)
                (Q:=fun q => temp_folder_of dt `prefix_of` q)
                env (temp_folder_of dt) ltac:(done) ltac:(done) _ _ _ Hclean)
      as [(evs4 & Ht4 & _) Hfs4].
    destruct (process_pages_spec env client (List.length image_paths)
                image_paths 1 [] w1)
      as (r2 & wl & evs2 & goods & tail & Hloop & Ht2 & Hfs2 & _).
    unfold extract_and_save in Hext.
    apply bind_inv in Hext as [(all & wl' & Hloop' & Hsave)|(e & Hloop' & _)];
      rewrite Hloop in Hloop'; simplify_eq.
    + apply save_to_csv_opens in Hsave as (output_file & evs3 & Hopen).
      rewrite Ht3, Ht4, Hopen, Ht2, Ht1, <- !app_assoc in Ht.
      apply app_inv_head in Ht. subst evs.
      rewrite !Forall_app, Forall_cons in Hcsv.
      by destruct Hcsv as (_ & _ & [? _] & _).
    + rewrite Hfs, Hfs4, Hfs2; [|by intros [k [=]]].
      apply Hfs1. by intros [[=]|[k [=]]].
Qed.

(** ** Responses the extractor does not accept *)

(** Among the responses of a run, one that is not acceptable can only be the
    last. *)
Lemma unacceptable_is_last env (xs ys goods tail : list (exn + string)) x :
  xs ++ x :: ys = goods ++ tail ->
  forallb (acceptable env) goods = true ->
  acceptable env x = false ->
  (tail = [] \/ exists y, tail = [y]) ->
  ys = [] /\ tail = [x].
Proof.
  intros Heq Hgoods Hx Htail.
  assert ((goods ++ tail) !! List.length xs = Some x) as Hlook.
  { rewrite <- Heq. by rewrite list_lookup_middle. }
  destruct (decide (List.length xs < List.length goods)) as [Hlt|Hge].
  - rewrite lookup_app_l in Hlook by done.
    apply list_elem_of_lookup_2, list_elem_of_In in Hlook.
    rewrite forallb_forall in Hgoods. apply Hgoods in Hlook. congruence.
  - apply (f_equal List.length) in Heq as Hlen.
    rewrite !length_app in Hlen. simpl in Hlen.
    destruct Htail as [->|[y ->]]; simpl in Hlen; [lia|].
    assert (List.length ys = 0) as Hys by lia.
    destruct ys; [|done]. split; [done|].
    apply app_inj_tail in Heq as [_ ->]. done.
Qed.

(** A response the extractor does not accept is fatal: the run raises that
    page's error, it is the last call to the model, and no CSV file is ever
    opened. *)
Lemma unacceptable_response_fatal env pdf_path w r w' before after
    page_number total_pages image_base64 response :
  process_pdf_document env pdf_path w = (r, w') ->
  trace w' = trace w ++ before
             ++ EvApiCall page_number total_pages image_base64 response :: after ->
  acceptable env response = false ->
  r = Raise (page_error env response) /\
  Forall (fun ev => is_csv_open ev = false)
    (before ++ EvApiCall page_number total_pages image_base64 response :: after) /\
  (forall name,
     fs w' !! path_join OUTPUT_DIR name = fs w !! path_join OUTPUT_DIR name) /\
  Forall (fun ev => is_api_call ev = false) after.
Proof.
  intros Hrun Ht Hbad. pose proof Hrun as Hrun0. pose proof Ht as Ht0.
  destruct (process_pdf_document_calls _ _ _ _ _ Hrun)
    as (evs & goods & tail & Ht' & Hresp & Hgoods & Htail).
  rewrite Ht in Ht'. apply app_inv_head in Ht' as <-.
  rewrite api_responses_app, api_responses_cons in Hresp. simpl in Hresp.
  destruct (unacceptable_is_last env _ _ _ _ _ Hresp Hgoods Hbad)
    as [Hafter ->].
  { destruct Htail as [->|(y & -> & _)]; eauto. }
  destruct Htail as [?|(y & [= <-] & _ & -> & Hcsv)]; [done|].
  split; [done|]. split; [done|]. split.
  - by apply (run_without_csv_keeps_output _ _ _ _ _ _ Hrun0 Ht0).
  - by apply api_responses_none_inv.
Qed.

(** A run that raises ends its log with the error it raises. *)
Lemma raised_error_is_logged env pdf_path w e w' :
  process_pdf_document env pdf_path w = (Raise e, w') ->
  last (log w') = Some (ERROR, DocumentError e).
Proof.
  intros [(e' & w1 & _ & [= <-] & _ & _ & ->)
         |(client & image_paths & temp_folder & w1 & w2 & w3 & _ & _ & _ & _
           & _ & ->)]%process_pdf_document_inv; apply last_snoc.
Qed.

(** C3: when the text the model returns for a page does not parse as JSON,
    the whole run raises (the [JSONDecodeError] itself); no CSV file is
    opened for writing at any point of the run and every file of the output
    directory is what it was, so nothing extracted from earlier pages is
    used; and the call that got the text is the last call to the model: the
    page is not tried again and no later page is submitted. *)
Theorem invalid_json_aborts_run env pdf_path w r w' before after
    page_number total_pages image_base64 text :
  process_pdf_document env pdf_path w = (r, w') ->
  trace w' = trace w ++ before
             ++ EvApiCall page_number total_pages image_base64 (inr text)
             :: after ->
  json_loads env text = None ->
  r = Raise JSONDecodeError /\
  Forall (fun ev => is_csv_open ev = false)
    (before ++ EvApiCall page_number total_pages image_base64 (inr text)
     :: after) /\
  (forall name,
     fs w' !! path_join OUTPUT_DIR name = fs w !! path_join OUTPUT_DIR name) /\
  Forall (fun ev => is_api_call ev = false) after.
Proof.
  intros Hrun Ht Hparse.
  destruct (unacceptable_response_fatal _ _ _ _ _ _ _ _ _ _ _ Hrun Ht)
    as (-> & Hcsv & Hout & Hafter).
  { simpl. by rewrite Hparse. }
  simpl. rewrite Hparse. done.
Qed.

Lemma invalid_json_aborts_run_witness :
  (process_pdf_document (two_page_env (inr "not json")) "docs/inv.pdf"
     empty_world).1
  = Raise JSONDecodeError.
Proof.
  set (run := process_pdf_document (two_page_env (inr "not json"))
                "docs/inv.pdf" empty_world).
  apply (invalid_json_aborts_run (two_page_env (inr "not json"))
           "docs/inv.pdf" empty_world run.1 run.2
           (take 9 (trace run.2)) (drop 10 (trace run.2))
           2 2 "base64:page two" "not json").
  - apply surjective_pairing.
  - vm_compute. reflexivity.
  - vm_compute. reflexivity.
Defined.

(** On an item that is not a dict the loop writes its warning and then
    raises at the first [setdefault]. *)
Lemma validate_item_non_dict page_number item w :
  is_record item = false ->
  validate_item page_number item w
  = (Raise AttributeError,
     mkWorld (fs w) (clock_reads w)
       (log w ++ [(WARNING, InvalidItem page_number item)]) (trace w)).
Proof. by destruct item. Qed.

Lemma forallb_is_record_false items :
  (exists item, item ∈ items /\ is_record item = false) ->
  forallb is_record items = false.
Proof.
  intros (item & Hin & Hitem). apply not_true_iff_false.
  rewrite forallb_forall. intros Hall.
  apply list_elem_of_In, Hall in Hin. congruence.
Qed.

(** C10: the repair applies to dicts only.  When the response of a page
    parses to an array with an element that is not a dict, the validation
    loop raises ([AttributeError], from [setdefault]) in every world instead
    of returning repaired items; the run raises that same error, which its
    log ends with at level ERROR; the call is the last call to the model, no
    CSV file is opened and the output directory is left as it was: the
    condition is fatal, not recovered. *)
Theorem non_dict_row_aborts_run env pdf_path w r w' before after
    page_number total_pages image_base64 text items :
  process_pdf_document env pdf_path w = (r, w') ->
  trace w' = trace w ++ before
             ++ EvApiCall page_number total_pages image_base64 (inr text)
             :: after ->
  json_loads env text = Some (JList items) ->
  (exists item, item ∈ items /\ is_record item = false) ->
  (forall w0, exists w1,
     validate_items page_number items w0 = (Raise AttributeError, w1)) /\
  r = Raise AttributeError /\
  last (log w') = Some (ERROR, DocumentError AttributeError) /\
  Forall (fun ev => is_csv_open ev = false)
    (before ++ EvApiCall page_number total_pages image_base64 (inr text)
     :: after) /\
  (forall name,
     fs w' !! path_join OUTPUT_DIR name = fs w !! path_join OUTPUT_DIR name) /\
  Forall (fun ev => is_api_call ev = false) after.
Proof.
  intros Hrun Ht Hparse Hitem%forallb_is_record_false.
  destruct (unacceptable_response_fatal _ _ _ _ _ _ _ _ _ _ _ Hrun Ht)
    as (-> & Hcsv & Hout & Hafter).
  { simpl. by rewrite Hparse. }
  simpl in *. rewrite Hparse in *. simpl in *. split.
  { intros w0. destruct (validate_items_spec page_number items w0)
      as (w1 & Hv & _). rewrite Hitem in Hv. eauto. }
  split; [done|]. split; [|done].
  by apply raised_error_is_logged in Hrun.
Qed.

Lemma non_dict_row_aborts_run_witness :
  (process_pdf_document (two_page_env (inr "[5]")) "docs/inv.pdf"
     empty_world).1
  = Raise AttributeError.
Proof.
  set (run := process_pdf_document (two_page_env (inr "[5]"))
                "docs/inv.pdf" empty_world).
  apply (non_dict_row_aborts_run (two_page_env (inr "[5]"))
           "docs/inv.pdf" empty_world run.1 run.2
           (take 9 (trace run.2)) (drop 10 (trace run.2))
           2 2 "base64:page two" "[5]" [JInt 5]).
  - apply surjective_pairing.
  - vm_compute. reflexivity.
  - vm_compute. reflexivity.
  - exists (JInt 5). split; [apply list_elem_of_singleton|]; reflexivity.
Defined.

(** ** What the page extractor returns *)

Lemma repaired_dict d : repaired (JDict d) = JDict (repair d).
Proof.
  simpl. destruct (has_all_fields d) eqn:Hd; [|done].
  by rewrite repair_complete.
Qed.

(** C1, as the code has it: every record in what the page extractor returns
    has the three keys 'Commodity Name', 'Qty' and 'UOM'.  What it returns
    is the parsed rows, each after the repair: a key that was absent reads
    its default ('', 1, 'BOX'), a key that was present reads the value the
    model gave it, whatever that value is. *)
Theorem extractor_records_have_all_fields env client image_base64
    page_number total_pages w results w' :
  process_image_with_claude env client image_base64 page_number total_pages w
  = (Return results, w') ->
  exists text parsed rows,
    messages_create env client page_number total_pages image_base64 = inr text /\
    json_loads env text = Some parsed /\
    py_iter parsed = inr (map JDict rows) /\
    py_iter results = inr (map JDict (map repair rows)) /\
    Forall (fun d =>
              has_all_fields (repair d) = true /\
              forall k, PyDict.get k (repair d)
                        = match PyDict.get k d with
                          | Some v => Some v
                          | None => PyDict.get k DEFAULTS
                          end) rows.
Proof.
  intros Hrun.
  destruct (process_image_spec env client image_base64 page_number
              total_pages w) as (r & w1 & Hrun' & _ & _ & _ & Hr).
  rewrite Hrun in Hrun'. injection Hrun' as <- <-.
  destruct Hr as (Hgood & Hiter & _). revert Hgood Hiter.
  unfold acceptable, batch_of.
  destruct (messages_create env client page_number total_pages image_base64)
    as [e|text]; [done|].
  destruct (json_loads env text) as [parsed|] eqn:Hparse; [|done].
  destruct (py_iter parsed) as [e|items] eqn:Hitems; [done|].
  intros Hrec Hiter. exists text, parsed.
  assert (exists rows, items = map JDict rows) as [rows ->].
  { clear Hiter Hitems. induction items as [|item items IH]; [by exists []|].
    simpl in Hrec. apply andb_true_iff in Hrec as [Hitem Hrest].
    destruct (IH Hrest) as [rows ->].
    destruct item as [| | | | | |d]; try done. by exists (d :: rows). }
  exists rows. repeat split; [done|done| |].
  - rewrite Hiter. f_equal. rewrite !map_map. apply map_ext.
    intros d. apply repaired_dict.
  - apply Forall_forall. intros d _. split.
    + apply has_all_fields_repair.
    + intros k. apply get_repair.
Qed.

Lemma extractor_records_have_all_fields_witness :
  exists rows,
    py_iter (JList [JDict [("Commodity Name", JStr "Gadget"); ("Qty", JInt 1);
                           ("UOM", JStr "BOX")]])
    = inr (map JDict (map repair rows)).
Proof.
  destruct (extractor_records_have_all_fields
              (two_page_env (inr gadget_text)) "sk-sample" "base64:page two"
              2 2 empty_world
              (JList [JDict [("Commodity Name", JStr "Gadget");
                             ("Qty", JInt 1); ("UOM", JStr "BOX")]])
              (process_image_with_claude (two_page_env (inr gadget_text))
                 "sk-sample" "base64:page two" 2 2 empty_world).2)
    as (text & parsed & rows & _ & _ & _ & Hrows & _).
  - vm_compute. reflexivity.
  - exists rows. exact Hrows.
Defined.

(** C1 as stated fails: a field the model returns as [null] is present, so
    the repair leaves it alone, and the record is returned with a null
    'Commodity Name'. *)
Lemma extractor_null_field_counterexample :
  ~ (forall env client image_base64 page_number total_pages w results w',
       process_image_with_claude env client image_base64 page_number
         total_pages w = (Return results, w') ->
       forall items, py_iter results = inr items ->
                     Forall complete_non_null items).
Proof.
  intros Hclaim.
  specialize (Hclaim (two_page_env (inr null_name_text)) "sk-sample"
                "base64:page two" 2 2 empty_world _ _ eq_refl _ eq_refl).
  apply Forall_cons in Hclaim as [(d & [= <-] & Hd) _].
  destruct (Hd "Commodity Name") as (v & [= <-] & Hv).
  - by left.
  - done.
Qed.

(** ** The combined table *)

Lemma length_api_responses evs :
  List.length (api_responses evs) = List.length (api_pages evs).
Proof.
  induction evs as [|ev evs IH]; [done|].
  rewrite api_responses_cons, api_pages_cons.
  destruct ev; simpl; by rewrite ?IH.
Qed.

(** C4: when every page is extracted, [all_results] is the concatenation of
    the per-page batches: the model was called for pages 1, 2, ..., N in
    that order, once each, the batch of a page is what its response yields,
    the batches are appended whole in that order, and so the length of the
    table is the sum of the lengths of the batches. *)
Theorem all_results_concatenates_batches env client image_paths w all w' :
  process_pages env client (List.length image_paths) 1 image_paths [] w
  = (Return all, w') ->
  exists evs,
    trace w' = trace w ++ evs /\
    api_pages evs = seq 1 (List.length image_paths) /\
    List.length (api_responses evs) = List.length image_paths /\
    all = concat (map (batch_of env) (api_responses evs)) /\
    List.length all
    = list_sum (map (@List.length json) (map (batch_of env) (api_responses evs))).
Proof.
  intros Hrun.
  destruct (process_pages_spec env client (List.length image_paths)
              image_paths 1 [] w)
    as (r & w1 & evs & goods & tail & Hrun' & Ht & _ & _ & _ & Hresp & _ & Hr).
  rewrite Hrun in Hrun'. injection Hrun' as <- <-.
  destruct Hr as (-> & -> & Hpages). rewrite app_nil_r in Hresp.
  exists evs. rewrite Hresp. repeat split; [done|done| |].
  - by rewrite <- Hresp, length_api_responses, Hpages, length_seq.
  - simpl. apply length_concat.
Qed.

Lemma all_results_concatenates_batches_witness :
  exists evs,
    api_pages evs = [1; 2] /\
    [widget;
     JDict [("Commodity Name", JStr "Gadget"); ("Qty", JInt 1);
            ("UOM", JStr "BOX")]]
    = concat (map (batch_of (two_page_env (inr gadget_text)))
                (api_responses evs)).
Proof.
  set (env := two_page_env (inr gadget_text)).
  set (paths := [["temp"; "one.jpg"]; ["temp"; "two.jpg"]]).
  set (w := mkWorld (<[["temp"; "one.jpg"] := ImageFile "page one"]>
                      (<[["temp"; "two.jpg"] := ImageFile "page two"]> ∅))
                    0 [] []).
  destruct (all_results_concatenates_batches env "sk-sample" paths w
              [widget;
               JDict [("Commodity Name", JStr "Gadget"); ("Qty", JInt 1);
                      ("UOM", JStr "BOX")]]
              (process_pages env "sk-sample" 2 1 paths [] w).2)
    as (evs & _ & Hpages & _ & Hall & _).
  - vm_compute. reflexivity.
  - exists evs. split; [exact Hpages|exact Hall].
Defined.

(** ** Rows the writer rejects *)

Lemma dict_to_list_extra_key d k :
  k ∈ PyDict.keys d -> k ∉ FIELDS ->
  dict_to_list (JDict d)
  = inl (ValueError "dict contains fields not in fieldnames").
Proof.
  intros Hk Hextra. unfold dict_to_list.
  destruct (forallb _ (PyDict.keys d)) eqn:Hall; [|done].
  rewrite forallb_forall in Hall.
  apply list_elem_of_In, Hall, bool_decide_eq_true in Hk. done.
Qed.

Lemma writerows_extra_key output_file data d k :
  JDict d ∈ data -> k ∈ PyDict.keys d -> k ∉ FIELDS ->
  forall w, exists e w', writerows output_file data w = (Raise e, w').
Proof.
  intros Hin Hk Hextra.
  induction data as [|rowdict rest IH]; intros w.
  - by apply elem_of_nil in Hin.
  - simpl. unfold bind at 1.
    destruct (dict_to_list rowdict) as [e|row] eqn:Hrow; simpl; [eauto|].
    apply elem_of_cons in Hin as [<-|Hin].
    + by rewrite (dict_to_list_extra_key d k) in Hrow.
    + unfold bind at 1, write_row.
      destruct (forallb encodable row); simpl; [|unfold raise; eauto].
      apply IH. done.
Qed.

Lemma save_to_csv_extra_key env data source_file d k :
  JDict d ∈ data -> k ∈ PyDict.keys d -> k ∉ FIELDS ->
  forall w, exists e w', save_to_csv env data source_file w = (Raise e, w').
Proof.
  intros Hin Hk Hextra w. unfold save_to_csv, try_except.
  unfold bind at 1. simpl. unfold bind at 1. simpl.
  unfold bind at 1.
  match goal with |- context [create_file ?e ?p ?c ?w0] =>
    destruct (create_file e p c w0) as [[[]|e1] w1] end.
  2:{ monad_unfold. eauto. }
  unfold bind at 1. simpl. unfold bind at 1.
  match goal with |- context [writerows ?p data ?w0] =>
    destruct (writerows_extra_key p data d k Hin Hk Hextra w0)
      as (e2 & w2 & ->) end.
  monad_unfold. eauto.
Qed.

(** C9: a row with a key other than 'Commodity Name', 'Qty' and 'UOM' makes
    the write step raise, and with it the run, although every page was
    extracted: the [DictWriter] is built with those three field names and
    rejects the row with a [ValueError]. *)
Theorem extra_key_fails_the_run env pdf_path w client image_paths temp_folder
    w1 all w2 d k :
  prepare env pdf_path w = (Return (client, (image_paths, temp_folder)), w1) ->
  process_pages env client (List.length image_paths) 1 image_paths [] w1
  = (Return all, w2) ->
  JDict d ∈ all -> k ∈ PyDict.keys d -> k ∉ FIELDS ->
  dict_to_list (JDict d)
  = inl (ValueError "dict contains fields not in fieldnames") /\
  exists e w3 w',
    save_to_csv env all pdf_path w2 = (Raise e, w3) /\
    process_pdf_document env pdf_path w = (Raise e, w').
Proof.
  intros Hprep Hloop Hin Hk Hextra.
  split; [by apply (dict_to_list_extra_key d k)|].
  destruct (save_to_csv_extra_key env all pdf_path d k Hin Hk Hextra w2)
    as (e & w3 & Hsave).
  exists e, w3.
  destruct (process_pdf_document env pdf_path w) as [r w'] eqn:Hrun.
  exists w'. split; [done|]. f_equal.
  apply process_pdf_document_inv in Hrun
      as [(e' & w1' & Hprep' & _)
         |(client' & image_paths' & temp_folder' & w1' & w2' & w3' & Hprep'
           & Hext & _)];
    rewrite Hprep in Hprep'; simplify_eq.
  unfold extract_and_save, bind in Hext. rewrite Hloop, Hsave in Hext.
  by simplify_eq.
Qed.

Lemma extra_key_fails_the_run_witness :
  exists e w',
    process_pdf_document (two_page_env (inr priced_text)) "docs/inv.pdf"
      empty_world = (Raise e, w').
Proof.
  set (env := two_page_env (inr priced_text)).
  set (prepared := prepare env "docs/inv.pdf" empty_world).
  set (paths := [["temp"; "pdf_images_20240307_090500"; "page_1.jpg"];
                 ["temp"; "pdf_images_20240307_090500"; "page_2.jpg"]]).
  set (row := [("Commodity Name", JStr "Widget"); ("Qty", JInt 5);
               ("UOM", JStr "BOX"); ("Price", JInt 3)]).
  destruct (extra_key_fails_the_run env "docs/inv.pdf" empty_world
              "sk-sample" paths ["temp"; "pdf_images_20240307_090500"]
              prepared.2 [widget; JDict row]
              (process_pages env "sk-sample" 2 1 paths [] prepared.2).2
              row "Price")
    as (_ & e & w3 & w' & _ & Hrun).
  - vm_compute. reflexivity.
  - vm_compute. reflexivity.
  - apply elem_of_cons. right. apply list_elem_of_singleton. reflexivity.
  - vm_compute. apply list_elem_of_In. simpl. tauto.
  - intros Hin. vm_compute in Hin. apply list_elem_of_In in Hin. simpl in Hin.
    intuition discriminate.
  - exists e, w'. exact Hrun.
Defined.

(** ** Provisioning the directories *)

(** [makedirs] on a directory of the working directory: nothing to do for a
    directory that is there, an error for a file in its place, and a
    [mkdir] otherwise. *)
Lemma mkdir_single env (d : string) w :
  mkdir env [d] w
  = match fs w !! [d] with
    | Some _ => (Raise FileExistsError, w)
    | None =>
        if fs_denied env [d] then (Raise PermissionError, w)
        else (Return tt, set_fs (<[[d] := Dir]> (fs w)) w)
    end.
Proof.
  unfold mkdir, path_exists, parent_error, bind, gets, raise, modify_fs.
  cbn [parent removelast].
  destruct (fs w !! [d]); [done|]. by destruct (fs_denied env [d]).
Qed.

Lemma makedirs_single env (d : string) w :
  makedirs env [d] w
  = match fs w !! [d] with
    | Some Dir => (Return tt, with_event (EvMakedirs [d]) w)
    | Some _ => (Raise FileExistsError, with_event (EvMakedirs [d]) w)
    | None =>
        if fs_denied env [d]
        then (Raise PermissionError, with_event (EvMakedirs [d]) w)
        else (Return tt,
              set_fs (<[[d] := Dir]> (fs w)) (with_event (EvMakedirs [d]) w))
    end.
Proof.
  unfold makedirs. cbn [rev app makedirs_rev].
  unfold bind at 1. unfold emit at 1. fold (with_event (EvMakedirs [d]) w).
  unfold bind at 1. unfold gets at 1. unfold bind at 1. unfold ret at 1.
  unfold try_except. rewrite mkdir_single.
  change (fs (with_event (EvMakedirs [d]) w)) with (fs w).
  unfold is_dir, bind, gets, ret, raise.
  destruct (fs w !! [d]) as [[|img|rows|content]|] eqn:Hd;
    cbn [fs with_event]; rewrite ?Hd; try done.
  destruct (fs_denied env [d]); cbn [fs with_event]; rewrite ?Hd; done.
Qed.

Lemma makedirs_provisionable env (d : string) w :
  provisionable env [d] (fs w) ->
  makedirs env [d] w
  = (Return tt, set_fs (<[[d] := Dir]> (fs w)) (with_event (EvMakedirs [d]) w)).
Proof.
  rewrite makedirs_single. intros [Hd|[Hd Hdenied]]; rewrite Hd, ?Hdenied; [|done].
  f_equal. unfold set_fs, with_event. cbn [fs clock_reads log trace].
  by rewrite insert_id.
Qed.

Lemma ensure_directories_returns env w :
  provisionable env OUTPUT_DIR (fs w) ->
  provisionable env TEMP_DIR (fs w) ->
  exists w',
    ensure_directories env w = (Return tt, w') /\
    fs w' = <[TEMP_DIR := Dir]> (<[OUTPUT_DIR := Dir]> (fs w)).
Proof.
  intros Ho Ht. unfold ensure_directories, for_each, OUTPUT_DIR, TEMP_DIR in *.
  unfold bind at 1. unfold bind at 1.
  rewrite makedirs_provisionable by done.
  unfold logger at 1. unfold bind at 1. unfold bind at 1.
  rewrite makedirs_provisionable.
  - eexists. split; [reflexivity|]. done.
  - cbn [fs set_fs with_event]. destruct Ht as [Ht|[Ht Hdenied]].
    + left. by rewrite lookup_insert_ne.
    + right. by rewrite lookup_insert_ne.
Qed.

(** C7: the directory provisioner is given the two directory paths of the
    module.  As long as each is a directory already or is absent and can be
    created, it returns without an error; afterwards both are directories;
    a directory that was there, and every other path, is what it was, so on
    existing directories the call changes nothing in the filesystem; and
    calling it again returns again and leaves the filesystem as the first
    call left it. *)
Theorem ensure_directories_idempotent env w :
  provisionable env OUTPUT_DIR (fs w) ->
  provisionable env TEMP_DIR (fs w) ->
  exists w',
    ensure_directories env w = (Return tt, w') /\
    is_dir OUTPUT_DIR (fs w') = true /\ is_dir TEMP_DIR (fs w') = true /\
    (forall p : path,
       is_dir p (fs w) = true \/ (p <> OUTPUT_DIR /\ p <> TEMP_DIR) ->
       fs w' !! p = fs w !! p) /\
    (is_dir OUTPUT_DIR (fs w) = true -> is_dir TEMP_DIR (fs w) = true ->
     fs w' = fs w) /\
    exists w'',
      ensure_directories env w' = (Return tt, w'') /\ fs w'' = fs w'.
Proof.
  intros Ho Ht.
  destruct (ensure_directories_returns env w Ho Ht) as (w' & Hrun & Hfs).
  assert (fs w' !! OUTPUT_DIR = Some Dir) as Hout.
  { rewrite Hfs, lookup_insert_ne by done. apply lookup_insert_eq. }
  assert (fs w' !! TEMP_DIR = Some Dir) as Htemp.
  { rewrite Hfs. apply lookup_insert_eq. }
  assert (forall p : path, is_dir p (fs w) = true -> fs w' !! p = fs w !! p)
    as Hkeep.
  { intros p Hp. unfold is_dir in Hp.
    destruct (fs w !! p) as [[| | |]|] eqn:Hlook; try done.
    rewrite Hfs, !lookup_insert. repeat case_decide; by simplify_eq. }
  exists w'. split; [done|]. unfold is_dir. rewrite Hout, Htemp.
  split; [done|]. split; [done|]. split; [|split].
  - intros p [Hp|[Hp1 Hp2]]; [by apply Hkeep|].
    rewrite Hfs, !lookup_insert_ne; done.
  - intros Hdo Hdt. apply map_eq. intros p.
    destruct (decide (p = OUTPUT_DIR)) as [->|Hp1]; [by apply Hkeep|].
    destruct (decide (p = TEMP_DIR)) as [->|Hp2]; [by apply Hkeep|].
    rewrite Hfs, !lookup_insert_ne; done.
  - destruct (ensure_directories_returns env w') as (w'' & Hrun' & Hfs').
    + by left.
    + by left.
    + exists w''. split; [done|]. rewrite Hfs'.
      rewrite (insert_id (fs w') OUTPUT_DIR) by done.
      by rewrite insert_id.
Qed.

Lemma ensure_directories_idempotent_witness :
  exists w',
    ensure_directories keyless_env empty_world = (Return tt, w') /\
    is_dir OUTPUT_DIR (fs w') = true.
Proof.
  destruct (ensure_directories_idempotent keyless_env empty_world)
    as (w' & Hrun & Hout & _).
  - right. split; reflexivity.
  - right. split; reflexivity.
  - exists w'. split; [exact Hrun|exact Hout].
Defined.

(** ** A run without a key *)

(** C5: with no API key in the environment the run raises.  What it has done
    by then is the provisioning of the output and the temp directory and
    nothing else: the only operations attempted are the two [makedirs] of
    the provisioner, so no model call and no rasterization, and no path
    other than those two directories has changed.  When the provisioning
    itself went through, the error is the [ValueError] of the missing
    key. *)
Theorem missing_key_fails_before_work env pdf_path w r w' :
  getenv_api_key env = None ->
  process_pdf_document env pdf_path w = (r, w') ->
  (exists e, r = Raise e) /\
  (forall w1, ensure_directories env w = (Return tt, w1) ->
     r = Raise (ValueError
                  "ANTHROPIC_API_KEY not found in environment variables")) /\
  (exists evs,
     trace w' = trace w ++ evs /\
     Forall (fun ev => ev = EvMakedirs OUTPUT_DIR \/ ev = EvMakedirs TEMP_DIR)
       evs /\
     Forall (fun ev => is_api_call ev = false /\ is_rasterize ev = false) evs) /\
  (forall p, p <> OUTPUT_DIR -> p <> TEMP_DIR -> fs w' !! p = fs w !! p).
Proof.
  intros Hkey Hrun.
  assert (exists e w1 w0 r0,
             prepare env pdf_path w = (Raise e, w1) /\
             ensure_directories env w = (r0, w0) /\
             trace w1 = trace w0 /\ fs w1 = fs w0 /\
             match r0 with
             | Return _ =>
                 e = ValueError
                       "ANTHROPIC_API_KEY not found in environment variables"
             | Raise e0 => e = e0
             end)
    as (e & w1 & w0 & r0 & Hprep & Hens & Ht10 & Hf10 & He).
  { unfold prepare, setup_anthropic_client. rewrite Hkey. simpl.
    unfold bind at 1.
    destruct (ensure_directories env w) as [[[]|e0] w0] eqn:Hens.
    - eexists _, w0, w0, (Return tt). by monad_unfold.
    - exists e0, w0, w0, (Raise e0). done. }
  apply process_pdf_document_inv in Hrun
      as [(e' & w1' & Hprep' & -> & Ht & Hf & _)
         |(client & image_paths & temp_folder & w1' & w2 & w3 & Hprep' & _)];
    rewrite Hprep in Hprep'; simplify_eq.
  destruct (footprint_ensure_directories
              (P:=fun ev => ev = EvMakedirs OUTPUT_DIR \/ ev = EvMakedirs TEMP_DIR)
              (Q:=fun p => p = OUTPUT_DIR \/ p = TEMP_DIR) env
              ltac:(by left) ltac:(by right) ltac:(by left) ltac:(by right)
              _ _ _ Hens) as [(evs & Ht0 & Hevs) Hf0].
  split; [eauto|]. split; [|split].
  - intros w1 Hens'. rewrite Hens in Hens'. by simplify_eq.
  - exists evs. rewrite Ht, Ht10. repeat split; [done|done|].
    eapply Forall_impl; [exact Hevs|]. by intros ev [->| ->].
  - intros p Hp1 Hp2. rewrite Hf, Hf10. apply Hf0. by intros [?|?].
Qed.

Lemma missing_key_fails_before_work_witness :
  exists e,
    (process_pdf_document keyless_env "docs/inv.pdf" empty_world).1 = Raise e.
Proof.
  set (run := process_pdf_document keyless_env "docs/inv.pdf" empty_world).
  destruct (missing_key_fails_before_work keyless_env "docs/inv.pdf"
              empty_world run.1 run.2) as (He & _).
  - reflexivity.
  - apply surjective_pairing.
  - exact He.
Defined.

(** ** Cleaning up *)

(** C2, as the code has it: once the rasterizer has returned, the run's
    folder is cleaned up whether extraction and writing return or raise,
    and the outcome of the run is the outcome of extraction and writing,
    whatever the clean-up met.  Unless the system refuses the removal,
    nothing is left at the folder or below it when the run ends; when it
    refuses, the refusal is logged as a warning, the folder stays, and the
    refusal is not raised: the run still returns the file that was written,
    or raises the error of extraction or writing. *)
Theorem temp_folder_cleaned_after_rasterizing env pdf_path w client
    image_paths (temp_folder : path) w1 r w' :
  prepare env pdf_path w = (Return (client, (image_paths, temp_folder)), w1) ->
  process_pdf_document env pdf_path w = (r, w') ->
  (exists w2,
     extract_and_save env pdf_path client image_paths w1 = (r, w2) /\
     trace w' = trace w2 ++ [EvRmtree temp_folder]) /\
  if rm_denied env temp_folder
  then path_exists temp_folder (fs w') = true /\
       (WARNING, CleanupError PermissionError) ∈ log w'
  else forall p : path, temp_folder `prefix_of` p -> fs w' !! p = None.
Proof.
  intros Hprep Hrun.
  destruct (prepare_returns _ _ _ _ _ _ _ Hprep) as [[dt ->] Hdir].
  apply process_pdf_document_inv in Hrun
      as [(e & w1' & Hprep' & _)
         |(client' & image_paths' & temp_folder' & w1' & w2 & w3 & Hprep'
           & Hext & Hclean & Htrace & Hfs & Hlog)];
    rewrite Hprep in Hprep'; simplify_eq.
  assert (fs w2 !! temp_folder_of dt = Some Dir) as Hdir2.
  { rewrite (extract_and_save_keeps_temp _ _ _ _ _ _ _ Hext).
    - unfold is_dir in Hdir.
      by destruct (fs w1' !! temp_folder_of dt) as [[| | |]|].
    - by eexists. }
  split.
  { exists w2. split; [done|]. rewrite Htrace.
    apply (cleanup_temp_files_attempts env _ _ _ ltac:(
      unfold path_exists; by rewrite Hdir2) Hclean). }
  destruct (cleanup_temp_files_spec env (temp_folder_of dt) w2)
    as (w3' & evs & Hclean' & _ & _ & Hfs3).
  rewrite Hclean in Hclean'. injection Hclean' as <-.
  rewrite Hdir2 in Hfs3.
  destruct (rm_denied env (temp_folder_of dt)).
  - destruct Hfs3 as [Hfs3 Hlog3]. split.
    + unfold path_exists. by rewrite Hfs, Hfs3, Hdir2.
    + rewrite Hlog, Hlog3. apply elem_of_app. left.
      apply elem_of_app. right. by apply list_elem_of_singleton.
  - intros p Hp. rewrite Hfs, Hfs3, lookup_remove_tree.
    by rewrite decide_True.
Qed.

Lemma temp_folder_cleaned_after_rasterizing_witness :
  (fs (process_pdf_document (two_page_env (inr gadget_text)) "docs/inv.pdf"
         empty_world).2)
    !! ["temp"; "pdf_images_20240307_090500"; "page_1.jpg"] = None.
Proof.
  set (env := two_page_env (inr gadget_text)).
  set (run := process_pdf_document env "docs/inv.pdf" empty_world).
  set (folder := ["temp"; "pdf_images_20240307_090500"]).
  destruct (temp_folder_cleaned_after_rasterizing env "docs/inv.pdf"
              empty_world "sk-sample"
              [folder ++ ["page_1.jpg"]; folder ++ ["page_2.jpg"]] folder
              (prepare env "docs/inv.pdf" empty_world).2 run.1 run.2)
    as [_ Hgone].
  - vm_compute. reflexivity.
  - apply surjective_pairing.
  - change (rm_denied env folder) with false in Hgone.
    apply Hgone. by exists ["page_1.jpg"].
Defined.

(** C2 as stated fails: when the system refuses to remove the folder, the
    clean-up logs a warning, the run returns its CSV file, and the folder the
    run created is still there. *)
Lemma temp_folder_survives_counterexample :
  ~ (forall env pdf_path w r w',
       path_exists (run_temp_folder env w) (fs w) = false ->
       process_pdf_document env pdf_path w = (r, w') ->
       path_exists (run_temp_folder env w) (fs w') = false).
Proof.
  intros Hclaim.
  specialize (Hclaim sticky_env "docs/inv.pdf" empty_world _ _ eq_refl
                (surjective_pairing _)).
  vm_compute in Hclaim. discriminate.
Qed.

(** When the rasterizer itself raises, the folder it has just created is not
    cleaned up: the inner [try] of [process_pdf_document] starts only after
    the rasterizer has returned. *)
Example rasterizer_failure_leaves_folder :
  let run := process_pdf_document (two_page_env (inr gadget_text))
               "corrupt.pdf" empty_world in
  run.1 = Raise (ExternalError "PDFPageCountError") /\
  is_dir ["temp"; "pdf_images_20240307_090500"] (fs run.2) = true.
Proof. vm_compute. done. Qed.

(** ** Folder names and the clock *)

Lemma digit_inj (a b : N) : digit a = digit b -> (a mod 10 = b mod 10)%N.
Proof.
  unfold digit. intros H%(f_equal N_of_ascii).
  assert (a mod 10 < 10)%N by (apply N.mod_lt; lia).
  assert (b mod 10 < 10)%N by (apply N.mod_lt; lia).
  rewrite !N_ascii_embedding in H by lia. lia.
Qed.

(** A number is ten times its quotient by ten plus its last digit. *)
Ltac split_digit x :=
  pose proof (N.div_mod x 10 ltac:(lia));
  pose proof (N.mod_lt x 10 ltac:(lia)).

Lemma pad2_inj (a b : N) :
  (a < 100)%N -> (b < 100)%N -> pad2 a = pad2 b -> a = b.
Proof.
  intros Ha Hb. unfold pad2. intros [= H1%digit_inj H0%digit_inj].
  split_digit a. split_digit (a / 10)%N.
  split_digit b. split_digit (b / 10)%N. lia.
Qed.

Lemma pad4_inj (a b : N) :
  (a < 10000)%N -> (b < 10000)%N -> pad4 a = pad4 b -> a = b.
Proof.
  intros Ha Hb. unfold pad4, pad2.
  intros [= H3%digit_inj H2%digit_inj H1%digit_inj H0%digit_inj].
  change 1000%N with (10 * 10 * 10)%N in *.
  change 100%N with (10 * 10)%N in *.
  rewrite <- !N.Div0.div_div in *.
  split_digit a. split_digit (a / 10)%N. split_digit (a / 10 / 10)%N.
  split_digit (a / 10 / 10 / 10)%N.
  split_digit b. split_digit (b / 10)%N. split_digit (b / 10 / 10)%N.
  split_digit (b / 10 / 10 / 10)%N.
  lia.
Qed.

Lemma append_inj_r (prefix s1 s2 : string) :
  prefix +:+ s1 = prefix +:+ s2 -> s1 = s2.
Proof.
  induction prefix as [|c prefix IH]; simpl; [done|].
  intros [= H]. by apply IH.
Qed.

Lemma strftime_inj a b :
  valid_datetime a -> valid_datetime b ->
  strftime a = strftime b -> same_second a b.
Proof.
  intros (Hya & Hma & Hda & Hha & Hmia & Hsa & _)
         (Hyb & Hmb & Hdb & Hhb & Hmib & Hsb & _).
  unfold strftime. cbn [pad4 pad2 String.append].
  intros [= y3 y2 y1 y0 m1 m0 d1 d0 h1 h0 mi1 mi0 s1 s0].
  unfold same_second. repeat split.
  - apply pad4_inj; [lia|lia|]. unfold pad4, pad2. congruence.
  - apply pad2_inj; [lia|lia|]. unfold pad2. congruence.
  - apply pad2_inj; [lia|lia|]. unfold pad2. congruence.
  - apply pad2_inj; [lia|lia|]. unfold pad2. congruence.
  - apply pad2_inj; [lia|lia|]. unfold pad2. congruence.
  - apply pad2_inj; [lia|lia|]. unfold pad2. congruence.
Qed.

(** Two readings of the clock name the same folder exactly when they agree
    down to the second. *)
Lemma temp_folder_of_eq_iff a b :
  valid_datetime a -> valid_datetime b ->
  (temp_folder_of a = temp_folder_of b <-> same_second a b).
Proof.
  intros Ha Hb. split.
  - unfold temp_folder_of, path_join, TEMP_DIR. cbn [app]. intros Hfolder.
    assert ("pdf_images_" +:+ strftime a = "pdf_images_" +:+ strftime b)
      as Hname by congruence.
    apply append_inj_r in Hname. by apply strftime_inj.
  - intros (Hy & Hm & Hd & Hh & Hmi & Hs).
    unfold temp_folder_of, strftime. by rewrite Hy, Hm, Hd, Hh, Hmi, Hs.
Qed.

(** C8, as the code has it: the folder a run of the rasterizer returns is
    named after its reading of the clock, down to the second.  Two runs,
    in whatever worlds they start, return the same folder exactly when their
    readings agree in year, month, day, hour, minute and second, whatever
    their microseconds; runs that read the clock in different seconds
    return different folders. *)
Theorem rasterizer_folders_distinct_iff_seconds_differ env
    pdf_path_a dpi_a wa image_paths_a (folder_a : path) wa'
    pdf_path_b dpi_b wb image_paths_b (folder_b : path) wb' :
  valid_datetime (now env (clock_reads wa)) ->
  valid_datetime (now env (clock_reads wb)) ->
  convert_pdf_to_images env pdf_path_a dpi_a wa
  = (Return (image_paths_a, folder_a), wa') ->
  convert_pdf_to_images env pdf_path_b dpi_b wb
  = (Return (image_paths_b, folder_b), wb') ->
  (folder_a = folder_b <->
   same_second (now env (clock_reads wa)) (now env (clock_reads wb))).
Proof.
  intros Ha Hb [-> _]%convert_pdf_to_images_returns
         [-> _]%convert_pdf_to_images_returns.
  by apply temp_folder_of_eq_iff.
Qed.

Lemma rasterizer_folders_distinct_iff_seconds_differ_witness :
  ["temp"; "pdf_images_20240307_090500"]
  <> ["temp"; "pdf_images_20240307_090501"].
Proof.
  set (env := two_page_env (inr gadget_text)).
  set (first := convert_pdf_to_images env "docs/a.pdf" 300 empty_world).
  set (second := convert_pdf_to_images env "docs/b.pdf" 300 first.2).
  intros Hsame.
  apply (rasterizer_folders_distinct_iff_seconds_differ env
           "docs/a.pdf" 300 empty_world
           [["temp"; "pdf_images_20240307_090500"; "page_1.jpg"];
            ["temp"; "pdf_images_20240307_090500"; "page_2.jpg"]]
           ["temp"; "pdf_images_20240307_090500"] first.2
           "docs/b.pdf" 300 first.2
           [["temp"; "pdf_images_20240307_090501"; "page_1.jpg"];
            ["temp"; "pdf_images_20240307_090501"; "page_2.jpg"]]
           ["temp"; "pdf_images_20240307_090501"] second.2) in Hsame.
  - unfold same_second in Hsame. vm_compute in Hsame.
    destruct Hsame as (_ & _ & _ & _ & _ & Hsec). discriminate Hsec.
  - vm_compute. repeat split; discriminate.
  - vm_compute. repeat split; discriminate.
  - vm_compute. reflexivity.
  - vm_compute. reflexivity.
Defined.

(** C8 as stated fails: two successive runs of the rasterizer that read the
    clock within the same second get the same folder; the second run finds
    the folder in place, reuses it without an error and saves its pages over
    those of the first. *)
Lemma rasterizer_folders_collide_counterexample :
  ~ (forall env pdf_path dpi w image_paths1 (folder1 : path) w1
            image_paths2 (folder2 : path) w2,
       convert_pdf_to_images env pdf_path dpi w
       = (Return (image_paths1, folder1), w1) ->
       convert_pdf_to_images env pdf_path dpi w1
       = (Return (image_paths2, folder2), w2) ->
       folder1 <> folder2 /\ path_exists folder2 (fs w1) = false).
Proof.
  intros Hclaim.
  set (first := convert_pdf_to_images same_second_env "docs/inv.pdf" 300
                  empty_world).
  set (second := convert_pdf_to_images same_second_env "docs/inv.pdf" 300
                   first.2).
  destruct (Hclaim same_second_env "docs/inv.pdf" 300 empty_world
              [["temp"; "pdf_images_20240307_090542"; "page_1.jpg"]]
              ["temp"; "pdf_images_20240307_090542"] first.2
              [["temp"; "pdf_images_20240307_090542"; "page_1.jpg"]]
              ["temp"; "pdf_images_20240307_090542"] second.2)
    as [Hdistinct _].
  - vm_compute. reflexivity.
  - vm_compute. reflexivity.
  - by apply Hdistinct.
Qed.

(** ** The scenarios of the specification *)

(** Two pages, the second with a row that has only its name: the CSV file
    holds the header and the two rows, the second with the defaults, and
    the temporary folder is gone. *)
Example two_page_scenario :
  let run := process_pdf_document (two_page_env (inr gadget_text))
               "docs/inv.pdf" empty_world in
  run.1 = Return ["output"; "inv_20240307_090501.csv"] /\
  fs run.2 !! ["output"; "inv_20240307_090501.csv"]
  = Some (CsvFile [[JStr "Commodity Name"; JStr "Qty"; JStr "UOM"];
                   [JStr "Widget"; JInt 5; JStr "BOX"];
                   [JStr "Gadget"; JInt 1; JStr "BOX"]]) /\
  path_exists ["temp"; "pdf_images_20240307_090500"] (fs run.2) = false.
Proof. vm_compute. done. Qed.

(** Text that is not JSON on the second page: the run raises, the output
    directory holds no file, and the temporary folder is gone. *)
Example invalid_text_scenario :
  let run := process_pdf_document (two_page_env (inr "not json"))
               "docs/inv.pdf" empty_world in
  run.1 = Raise JSONDecodeError /\
  map fst (map_to_list (fs run.2)) = [["output"]; ["temp"]].
Proof. vm_compute. done. Qed.

(** No key: the run raises at once; only the two directories exist. *)
Example missing_key_scenario :
  let run := process_pdf_document keyless_env "docs/inv.pdf" empty_world in
  run.1 = Raise (ValueError
                   "ANTHROPIC_API_KEY not found in environment variables") /\
  map fst (map_to_list (fs run.2)) = [["output"]; ["temp"]] /\
  trace run.2 = [EvMakedirs OUTPUT_DIR; EvMakedirs TEMP_DIR].
Proof. vm_compute. done. Qed.

(** A row that is not a dict: the warning for the row is written, then the
    errors of the page and of the run. *)
Example non_dict_row_log :
  let run := process_pdf_document (two_page_env (inr "[5]"))
               "docs/inv.pdf" empty_world in
  drop 4 (log run.2)
  = [(WARNING, InvalidItem 2 (JInt 5));
     (ERROR, ClaudeError 2 AttributeError);
     (INFO, CleanedUp ["temp"; "pdf_images_20240307_090500"]);
     (ERROR, DocumentError AttributeError)].
Proof. vm_compute. done. Qed.

(** * Further properties of the module *)

(** ** The CSV writer *)

Lemma create_file_spec env (p : path) content w :
  create_file env p content w
  = match open_error env p (fs w) with
    | Some e => (Raise e, w)
    | None => (Return tt, set_fs (<[p := content]> (fs w)) w)
    end.
Proof.
  unfold create_file, open_error, bind, gets, raise, modify_fs.
  destruct (parent_error p (fs w)); [done|].
  destruct (is_dir p (fs w)); [done|].
  by destruct (fs_denied env p).
Qed.

(** Rows go to the end of the file one by one until a row is rejected. *)
Lemma writerows_spec (output_file : path) data : forall rows w m,
  fs w = <[output_file := CsvFile rows]> m ->
  writerows output_file data w
  = (match rejected data with Some e => Raise e | None => Return tt end,
     set_fs (<[output_file := CsvFile (rows ++ written_rows data)]> m) w).
Proof.
  induction data as [|rowdict rest IH]; intros rows w m Hfs; simpl.
  - rewrite app_nil_r, <- Hfs. by destruct w.
  - unfold bind at 1. unfold writerow_result.
    destruct (dict_to_list rowdict) as [e|row]; simpl.
    + rewrite app_nil_r, <- Hfs. by destruct w.
    + unfold bind at 1. unfold write_row.
      destruct (forallb encodable row); simpl.
      * unfold append_row, modify_fs.
        rewrite (IH (rows ++ [row]) _ m).
        -- by rewrite <- app_assoc.
        -- simpl. by rewrite Hfs, alter_insert_eq.
      * rewrite app_nil_r, <- Hfs. by destruct w.
Qed.

(** What [save_to_csv] does, in full: the name comes from the source file
    and the clock; a file that cannot be opened is an error and nothing is
    written; otherwise the file is replaced by the header and the rows up to
    the first one the writer rejects, whose error is raised. *)
Lemma save_to_csv_spec env data source_file w :
  let output_file := output_file_of source_file (now env (clock_reads w)) in
  save_to_csv env data source_file w
  = match open_error env output_file (fs w) with
    | Some e =>
        (Raise e,
         mkWorld (fs w) (S (clock_reads w)) (log w ++ [(ERROR, CsvError e)])
           (trace w ++ [EvOpenCsv output_file]))
    | None =>
        (match rejected data with
         | Some e => Raise e
         | None => Return output_file
         end,
         mkWorld (<[output_file := CsvFile (HEADER :: written_rows data)]> (fs w))
           (S (clock_reads w))
           (log w ++ [match rejected data with
                      | Some e => (ERROR, CsvError e)
                      | None => (INFO, SavedCsv output_file)
                      end])
           (trace w ++ [EvOpenCsv output_file]))
    end.
Proof.
  intros output_file. unfold save_to_csv, try_except.
  unfold bind at 1. unfold datetime_now at 1. fold output_file.
  unfold bind at 1. unfold emit at 1.
  unfold bind at 1. rewrite create_file_spec. cbn [fs].
  destruct (open_error env output_file (fs w)) as [e|]; [done|].
  unfold bind at 1. unfold append_row at 1, modify_fs at 1.
  unfold bind at 1.
  erewrite (writerows_spec output_file data [map JStr FIELDS]).
  2:{ cbn [fs set_fs]. by rewrite alter_insert_eq. }
  destruct (rejected data); done.
Qed.

Lemma dict_to_list_cells rowdict row :
  dict_to_list rowdict = inr row ->
  row = row_cells rowdict /\
  exists d, rowdict = JDict d /\ forall k, k ∈ PyDict.keys d -> k ∈ FIELDS.
Proof.
  destruct rowdict as [| | | | | |d]; try done. simpl.
  destruct (forallb _ (PyDict.keys d)) eqn:Hkeys; [|done].
  intros [= <-]. split; [done|]. exists d. split; [done|].
  intros k Hk. rewrite forallb_forall in Hkeys.
  by apply list_elem_of_In, Hkeys, bool_decide_eq_true in Hk.
Qed.

Lemma forallb_false {A} (f : A -> bool) (xs : list A) :
  forallb f xs = false -> exists x, In x xs /\ f x = false.
Proof.
  induction xs as [|x xs IH]; simpl; [done|].
  destruct (f x) eqn:Hx; simpl.
  - intros (y & Hy & Hfy)%IH. exists y. auto.
  - intros _. exists x. auto.
Qed.

(** A record is written when its shape is accepted and every cell of it can
    be encoded. *)
Lemma writerow_result_cells rowdict row :
  writerow_result rowdict = inr row ->
  dict_to_list rowdict = inr row /\ forallb encodable row = true.
Proof.
  unfold writerow_result. destruct (dict_to_list rowdict) as [e|row']; [done|].
  destruct (forallb encodable row') eqn:Henc; [|done]. by intros [= <-].
Qed.

(** The three ways the writer rejects a record: it is no dict, it has a key
    that is no field name, or one of its cells is a string with a lone
    surrogate. *)
Lemma writerow_result_error rowdict e :
  writerow_result rowdict = inl e ->
  (is_record rowdict = false /\ e = AttributeError) \/
  (exists d k, rowdict = JDict d /\ k ∈ PyDict.keys d /\ (k ∉ FIELDS) /\
               e = ValueError "dict contains fields not in fieldnames") \/
  (exists d k s, rowdict = JDict d /\ k ∈ FIELDS /\
                 PyDict.get k d = Some (JStr s) /\ has_surrogate s = true /\
                 e = UnicodeEncodeError).
Proof.
  unfold writerow_result, dict_to_list.
  destruct rowdict as [| | | | | |d];
    try (intros [= <-]; left; by split).
  destruct (forallb _ (PyDict.keys d)) eqn:Hkeys.
  - destruct (forallb encodable _) eqn:Henc; [done|]. intros [= <-].
    right. right. apply forallb_false in Henc as (cell & Hcell & Hbad).
    apply in_map_iff in Hcell as (k & <- & Hk). exists d, k.
    apply list_elem_of_In in Hk.
    destruct (PyDict.get k d) as [[| | | |s| |]|] eqn:Hget; try done.
    exists s. simpl in Hbad. by destruct (has_surrogate s).
  - intros [= <-]. right. left.
    apply forallb_false in Hkeys as (k & Hk & Hbad).
    exists d, k. apply list_elem_of_In in Hk.
    by apply bool_decide_eq_false in Hbad.
Qed.

Lemma accepted_rows data :
  rejected data = None ->
  written_rows data = map row_cells data /\
  Forall (fun rowdict =>
            exists d, rowdict = JDict d /\
                      forall k, k ∈ PyDict.keys d -> k ∈ FIELDS) data.
Proof.
  induction data as [|rowdict rest IH]; simpl; [done|].
  destruct (writerow_result rowdict) as [e|row] eqn:Hrow; [done|].
  intros [-> Hrest]%IH.
  apply writerow_result_cells in Hrow as [[-> Hd]%dict_to_list_cells _].
  split; [done|]. by constructor.
Qed.

Lemma rejected_at good bad rest e :
  rejected good = None -> writerow_result bad = inl e ->
  rejected (good ++ bad :: rest) = Some e /\
  written_rows (good ++ bad :: rest) = map row_cells good.
Proof.
  intros Hgood Hbad. induction good as [|rowdict good IH]; simpl in *.
  - by rewrite Hbad.
  - destruct (writerow_result rowdict) as [e'|row] eqn:Hrow; [done|].
    destruct (IH Hgood) as [-> ->].
    by apply writerow_result_cells in Hrow as [[-> _]%dict_to_list_cells _].
Qed.

Lemma rejected_None data :
  Forall (fun rowdict => exists row, writerow_result rowdict = inr row) data ->
  rejected data = None.
Proof.
  induction 1 as [|rowdict data [row Hrow] _ IH]; simpl; [done|].
  by rewrite Hrow.
Qed.

(** X1: when [save_to_csv] returns, the file it names after the source file
    and the clock holds exactly the header row followed by one row per
    record, in the order of the data, each row being the values of
    'Commodity Name', 'Qty' and 'UOM' in that order with an empty string for
    a field the record lacks; whatever the file held before is gone, and no
    other path has changed.  Every record was a dict with no key outside
    the three. *)
Theorem save_to_csv_writes_table env data source_file w output_file w' :
  save_to_csv env data source_file w = (Return output_file, w') ->
  output_file = output_file_of source_file (now env (clock_reads w)) /\
  fs w' = <[output_file := CsvFile (HEADER :: map row_cells data)]> (fs w) /\
  Forall (fun rowdict =>
            exists d, rowdict = JDict d /\
                      forall k, k ∈ PyDict.keys d -> k ∈ FIELDS) data.
Proof.
  rewrite save_to_csv_spec.
  destruct (open_error env _ (fs w)); [done|].
  destruct (rejected data) eqn:Hrej; [done|].
  intros [= <- <-]. destruct (accepted_rows data Hrej) as [-> Hdata]. done.
Qed.

Lemma save_to_csv_writes_table_witness :
  exists w',
    fs w' = <[["output"; "inv_20240307_090500.csv"]
              := CsvFile [HEADER; [JStr "Widget"; JInt 5; JStr "BOX"];
                          [JStr "Gadget"; JStr ""; JStr ""]]]>
              (<[["output"] := Dir]> ∅).
Proof.
  set (w := mkWorld (<[["output"] := Dir]> ∅) 0 [] []).
  set (data := [widget; JDict [("Commodity Name", JStr "Gadget")]]).
  set (env := two_page_env (inr gadget_text)).
  exists (save_to_csv env data "docs/inv.pdf" w).2.
  apply (save_to_csv_writes_table env data "docs/inv.pdf" w
           ["output"; "inv_20240307_090500.csv"]).
  vm_compute. reflexivity.
Defined.

(** X2: when the file can be opened and the writer rejects a row, the rows
    before it have been written.  The writer rejects a row that is no dict,
    a dict with a key that is no field name, and a row one of whose cells is
    a string with a lone surrogate, which the file's encoding cannot take.
    When every row of [good] is written and [bad] is rejected,
    [save_to_csv] raises the error of [bad], logs it, and leaves behind a
    file with the header and the rows of [good]; the error is one of those
    three. *)
Theorem save_to_csv_leaves_partial_file env good bad rest source_file w e :
  open_error env (output_file_of source_file (now env (clock_reads w))) (fs w)
  = None ->
  Forall (fun rowdict => exists row, writerow_result rowdict = inr row) good ->
  writerow_result bad = inl e ->
  exists w',
    save_to_csv env (good ++ bad :: rest) source_file w = (Raise e, w') /\
    fs w' = <[output_file_of source_file (now env (clock_reads w))
              := CsvFile (HEADER :: map row_cells good)]> (fs w) /\
    last (log w') = Some (ERROR, CsvError e) /\
    (e = AttributeError \/ (exists msg, e = ValueError msg) \/
     e = UnicodeEncodeError).
Proof.
  intros Hopen Hgood%rejected_None Hbad. rewrite save_to_csv_spec, Hopen.
  destruct (rejected_at good bad rest e Hgood Hbad) as [-> ->].
  eexists. split; [done|]. split; [done|]. split; [apply last_snoc|].
  apply writerow_result_error in Hbad
      as [[_ ->]|[(d & k & _ & _ & _ & ->)|(d & k & s & _ & _ & _ & _ & ->)]];
    eauto.
Qed.

Lemma save_to_csv_leaves_partial_file_witness :
  exists w',
    save_to_csv (two_page_env (inr gadget_text))
      [widget; surrogate_row; widget] "docs/inv.pdf"
      (mkWorld (<[["output"] := Dir]> ∅) 0 [] [])
    = (Raise UnicodeEncodeError, w') /\
    fs w' = <[["output"; "inv_20240307_090500.csv"]
              := CsvFile [HEADER; [JStr "Widget"; JInt 5; JStr "BOX"]]]>
              (<[["output"] := Dir]> ∅).
Proof.
  set (w := mkWorld (<[["output"] := Dir]> ∅) 0 [] []).
  set (env := two_page_env (inr gadget_text)).
  destruct (save_to_csv_leaves_partial_file env [widget] surrogate_row [widget]
              "docs/inv.pdf" w UnicodeEncodeError)
    as (w' & Hsave & Hfs & _).
  - vm_compute. reflexivity.
  - constructor; [|constructor]. eexists. vm_compute. reflexivity.
  - vm_compute. reflexivity.
  - exists w'. split; [exact Hsave|exact Hfs].
Defined.

(** ** Columns and keys *)

Lemma get_Some_elem_of k v (d : pydict) :
  NoDup (PyDict.keys d) -> (PyDict.get k d = Some v <-> (k, v) ∈ d).
Proof.
  induction d as [|[k' v'] d IH]; simpl.
  - intros _. split; [done|]. by intros ?%elem_of_nil.
  - intros [Hk' Hd]%NoDup_cons. rewrite elem_of_cons.
    destruct (String.eqb k k') eqn:Hk.
    + apply String.eqb_eq in Hk as ->. split.
      * intros [= ->]. by left.
      * intros [[= ->]|Hin]; [done|]. exfalso. apply Hk'.
        apply list_elem_of_fmap. by exists (k', v).
    + apply String.eqb_neq in Hk. rewrite (IH Hd). split; [by right|].
      intros [[= ? ?]|Hin]; done.
Qed.

Lemma get_permutation k (d d' : pydict) :
  NoDup (PyDict.keys d) -> d ≡ₚ d' -> PyDict.get k d = PyDict.get k d'.
Proof.
  intros Hd Hperm.
  assert (NoDup (PyDict.keys d')) as Hd'.
  { unfold PyDict.keys. by rewrite <- Hperm. }
  destruct (PyDict.get k d) as [v|] eqn:Hget.
  - apply (get_Some_elem_of k v d Hd) in Hget. rewrite Hperm in Hget.
    symmetry. by apply get_Some_elem_of.
  - destruct (PyDict.get k d') as [v|] eqn:Hget'; [|done].
    apply (get_Some_elem_of k v d' Hd') in Hget'. rewrite <- Hperm in Hget'.
    apply (get_Some_elem_of k v d Hd) in Hget'. congruence.
Qed.

(** X3: the columns of a row do not depend on the order of the keys in the
    record: two dicts with the same key-value pairs in any order (keys
    unique, as in a Python dict) are accepted or rejected alike by the
    writer and give the same cells. *)
Theorem dict_to_list_order_independent (d d' : pydict) :
  NoDup (PyDict.keys d) -> d ≡ₚ d' ->
  dict_to_list (JDict d) = dict_to_list (JDict d').
Proof.
  intros Hd Hperm. unfold dict_to_list.
  assert (forallb (fun k => bool_decide (k ∈ FIELDS)) (PyDict.keys d)
          = forallb (fun k => bool_decide (k ∈ FIELDS)) (PyDict.keys d'))
    as ->.
  { apply eq_true_iff_eq. rewrite !forallb_forall.
    assert (PyDict.keys d ≡ₚ PyDict.keys d') as Hkeys
      by (unfold PyDict.keys; by rewrite Hperm).
    split; intros Hall k Hk; apply Hall; apply list_elem_of_In;
      apply list_elem_of_In in Hk; [by rewrite Hkeys|by rewrite <- Hkeys]. }
  destruct (forallb _ _); [|done]. f_equal.
  apply map_ext. intros key. by rewrite (get_permutation key d d').
Qed.

Lemma dict_to_list_order_independent_witness :
  dict_to_list (JDict [("Qty", JInt 5); ("UOM", JStr "BOX");
                       ("Commodity Name", JStr "Widget")])
  = dict_to_list (JDict [("Commodity Name", JStr "Widget"); ("Qty", JInt 5);
                         ("UOM", JStr "BOX")]).
Proof.
  apply dict_to_list_order_independent.
  - vm_compute. repeat constructor; rewrite ?elem_of_cons, ?elem_of_nil;
      intuition discriminate.
  - change ([("Qty", JInt 5); ("UOM", JStr "BOX");
             ("Commodity Name", JStr "Widget")])
      with ([("Qty", JInt 5); ("UOM", JStr "BOX")]
            ++ [("Commodity Name", JStr "Widget")]).
    symmetry. apply Permutation_cons_append.
Defined.

(** ** The page images *)

Lemma string_length_app (s1 s2 : string) :
  String.length (s1 +:+ s2) = String.length s1 + String.length s2.
Proof.
  induction s1 as [|c s1 IH]; [done|].
  change (String c s1 +:+ s2) with (String c (s1 +:+ s2)).
  cbn [String.length]. by rewrite IH.
Qed.

Lemma append_inj_l (s1 s2 suffix : string) :
  s1 +:+ suffix = s2 +:+ suffix -> s1 = s2.
Proof.
  revert s2. induction s1 as [|c s1 IH]; intros [|c' s2] H.
  - done.
  - apply (f_equal String.length) in H.
    rewrite !string_length_app in H. cbn [String.length] in H. lia.
  - apply (f_equal String.length) in H.
    rewrite !string_length_app in H. cbn [String.length] in H. lia.
  - change (String c (s1 +:+ suffix) = String c' (s2 +:+ suffix)) in H.
    injection H as -> H. f_equal. by apply IH.
Qed.

(** Different pages have different files. *)
Lemma page_path_inj (temp_folder : path) a b :
  page_path temp_folder a = page_path temp_folder b -> a = b.
Proof.
  unfold page_path, path_join. intros H%app_inv_head.
  injection H as H. apply append_inj_r, append_inj_l in H.
  by apply pretty_nat_inj in H.
Qed.

Lemma image_save_returns env img (p : path) w w' :
  image_save env img p w = (Return tt, w') ->
  fs w' = <[p := ImageFile img]> (fs w).
Proof.
  unfold image_save. unfold bind at 1, emit at 1.
  rewrite create_file_spec. cbn [fs].
  destruct (open_error env p (fs w)); [done|]. by intros [= <-].
Qed.

Lemma save_pages_spec env (temp_folder : path) images :
  forall i image_paths w saved w',
  save_pages env temp_folder i images image_paths w = (Return saved, w') ->
  saved = image_paths
          ++ map (page_path temp_folder) (seq (S i) (List.length images)) /\
  (forall k img, images !! k = Some img ->
     fs w' !! page_path temp_folder (S (i + k)) = Some (ImageFile img)) /\
  (forall p : path,
     (forall k, k < List.length images ->
                p <> page_path temp_folder (S (i + k))) ->
     fs w' !! p = fs w !! p).
Proof.
  induction images as [|img rest IH]; intros i image_paths w saved w'.
  - intros [= <- <-]. simpl. rewrite app_nil_r. done.
  - cbn [save_pages]. rewrite Nat.add_1_r.
    fold (page_path temp_folder (S i)).
    intros [([] & w1 & Hsave & Hrest)|(e & _ & [=])]%bind_inv.
    apply image_save_returns in Hsave.
    apply IH in Hrest as (-> & Hfiles & Hframe).
    split; [by rewrite <- app_assoc|]. split.
    + intros [|k] img' Hk; simpl in Hk.
      * injection Hk as <-. rewrite Nat.add_0_r, Hframe, Hsave.
        -- apply lookup_insert_eq.
        -- intros k _ Heq%page_path_inj. lia.
      * rewrite <- Nat.add_succ_comm. by apply Hfiles.
    + intros p Hp. rewrite Hframe, Hsave.
      * apply lookup_insert_ne. intros <-. apply (Hp 0); [simpl; lia|].
        by rewrite Nat.add_0_r.
      * intros k Hk. rewrite Nat.add_succ_comm. apply Hp. simpl. lia.
Qed.

(** What the rasterizer returns and leaves in the filesystem. *)
Lemma convert_pdf_to_images_pages env pdf_path dpi w image_paths
    (temp_folder : path) w' :
  convert_pdf_to_images env pdf_path dpi w
  = (Return (image_paths, temp_folder), w') ->
  exists images,
    convert_from_path env pdf_path dpi = inr images /\
    image_paths
    = map (page_path temp_folder) (seq 1 (List.length images)) /\
    (forall k img, images !! k = Some img ->
       fs w' !! page_path temp_folder (S k) = Some (ImageFile img)) /\
    (forall p : path, ~ TEMP_DIR `prefix_of` p -> fs w' !! p = fs w !! p).
Proof.
  intros Hrun.
  destruct (footprint_convert_pdf_to_images
              (P:=fun _ => True) (Q:=fun p => TEMP_DIR `prefix_of` p)
              env pdf_path dpi ltac:(done) ltac:(done) _ _ _ Hrun)
    as [_ Hframe].
  revert Hrun. unfold convert_pdf_to_images, try_except.
  match goal with |- context [bind (datetime_now env) ?k w] =>
    destruct (bind (datetime_now env) k w) as [[result|e] w1] eqn:Hbody end.
  2:{ by monad_unfold. }
  intros [= -> ->].
  apply bind_inv in Hbody as [(dt & w2 & Hnow & Hbody)|(e & _ & [=])].
  apply bind_inv in Hbody as [([] & w3 & Hmk & Hbody)|(e & _ & [=])].
  apply bind_inv in Hbody as [([] & w4 & Hemit & Hbody)|(e & _ & [=])].
  apply bind_inv in Hbody as [(images & w5 & Hlift & Hbody)|(e & _ & [=])].
  apply bind_inv in Hbody as [(saved & w6 & Hsave & Hbody)|(e & _ & [=])].
  apply save_pages_spec in Hsave as (Hsaved & Hfiles & _).
  unfold lift in Hlift.
  destruct (convert_from_path env pdf_path dpi) as [e|images'] eqn:Hconv;
    [by monad_unfold|].
  monad_unfold. simplify_eq. exists images.
  split; [done|]. split; [done|]. split; [|done].
  intros k img Hk. simpl. by apply (Hfiles k img).
Qed.

(** X4: when the rasterizer returns, it returns the folder named after its
    reading of the clock and one path per page of the document,
    [page_1.jpg], [page_2.jpg], ... in page order inside that folder; the
    file at the path of page [k] holds the image of page [k]; and the only
    paths that changed lie under the temp directory. *)
Theorem convert_pdf_to_images_lists_pages env pdf_path dpi w image_paths
    (temp_folder : path) w' :
  convert_pdf_to_images env pdf_path dpi w
  = (Return (image_paths, temp_folder), w') ->
  exists images,
    convert_from_path env pdf_path dpi = inr images /\
    image_paths
    = map (page_path temp_folder) (seq 1 (List.length images)) /\
    (forall k img, images !! k = Some img ->
       fs w' !! page_path temp_folder (S k) = Some (ImageFile img)) /\
    (forall p : path, ~ TEMP_DIR `prefix_of` p -> fs w' !! p = fs w !! p) /\
    List.length image_paths = List.length images /\
    temp_folder = run_temp_folder env w.
Proof.
  intros Hrun.
  destruct (convert_pdf_to_images_returns _ _ _ _ _ _ _ Hrun) as [Hfolder _].
  apply convert_pdf_to_images_pages in Hrun
      as (images & Hconv & Hpaths & Hfiles & Hframe).
  exists images. split; [done|]. split; [done|]. split; [done|].
  split; [done|]. split; [|done].
  by rewrite Hpaths, length_map, length_seq.
Qed.

Lemma convert_pdf_to_images_lists_pages_witness :
  exists images : list image,
    [["temp"; "pdf_images_20240307_090500"; "page_1.jpg"];
     ["temp"; "pdf_images_20240307_090500"; "page_2.jpg"]]
    = map (page_path ["temp"; "pdf_images_20240307_090500"])
        (seq 1 (List.length images)).
Proof.
  set (env := two_page_env (inr gadget_text)).
  destruct (convert_pdf_to_images_lists_pages env "docs/inv.pdf" 300
              empty_world
              [["temp"; "pdf_images_20240307_090500"; "page_1.jpg"];
               ["temp"; "pdf_images_20240307_090500"; "page_2.jpg"]]
              ["temp"; "pdf_images_20240307_090500"]
              (convert_pdf_to_images env "docs/inv.pdf" 300 empty_world).2)
    as (images & _ & Hpaths & _).
  - vm_compute. reflexivity.
  - exists images. exact Hpaths.
Defined.

(** ** The image the model sees *)

Lemma image_to_base64_reads env (image_path : path) w img :
  fs w !! image_path = Some (ImageFile img) ->
  exists w',
    image_to_base64 env image_path w
    = (match jpeg_base64 env img with
       | inr image_base64 => Return image_base64
       | inl e => Raise e
       end, w') /\
    fs w' = fs w /\ trace w' = trace w ++ [EvOpenImage image_path].
Proof.
  intros Himg. unfold image_to_base64, image_open. monad_unfold.
  rewrite Himg. simpl. destruct (jpeg_base64 env img); simpl; eauto.
Qed.

Lemma api_images_cons ev evs :
  api_images (ev :: evs)
  = match api_image ev with
    | Some image_base64 => image_base64 :: api_images evs
    | None => api_images evs
    end.
Proof. reflexivity. Qed.

(** The loop sends the pages' own images, encoded, in page order, as far as
    it gets. *)
Lemma process_pages_images env client total_pages image_paths images :
  forall page_num all_results w r w',
  Forall2 (fun (p : path) img => fs w !! p = Some (ImageFile img))
    image_paths images ->
  process_pages env client total_pages page_num image_paths all_results w
  = (r, w') ->
  exists evs,
    trace w' = trace w ++ evs /\
    Forall2 (fun img image_base64 => jpeg_base64 env img = inr image_base64)
      (take (List.length (api_images evs)) images) (api_images evs) /\
    match r with
    | Return _ => List.length (api_images evs) = List.length images
    | Raise _ => True
    end.
Proof.
  revert images. induction image_paths as [|image_path image_paths IH];
    intros images page_num all_results w r w' Hfiles Hrun.
  - apply Forall2_nil_inv_l in Hfiles as ->. injection Hrun as <- <-.
    exists []. rewrite app_nil_r. split; [done|]. split; [by constructor|done].
  - apply Forall2_cons_inv_l in Hfiles as (img & rest & Himg & Hrest & ->).
    cbn [process_pages] in Hrun.
    destruct (image_to_base64_reads env image_path w img Himg)
      as (w1 & Hread & Hfs1 & Ht1).
    apply bind_inv in Hrun
        as [(image_base64 & w1' & Hread' & Hrun)|(e & Hread' & ->)];
      rewrite Hread in Hread'.
    2:{ injection Hread' as _ <-. exists [EvOpenImage image_path].
        split; [done|]. split; [by constructor|done]. }
    destruct (jpeg_base64 env img) as [e|b64] eqn:Hb64; [done|].
    injection Hread' as <- <-.
    destruct (process_image_spec env client b64 page_num total_pages w1)
      as (r2 & w2 & Hpage & Ht2 & Hfs2 & _ & _).
    set (response := messages_create env client page_num total_pages b64) in *.
    apply bind_inv in Hrun
        as [(results & w2' & Hpage' & Hrun)|(e & Hpage' & ->)];
      rewrite Hpage in Hpage'.
    2:{ injection Hpage' as _ <-.
        exists [EvOpenImage image_path;
                EvApiCall page_num total_pages b64 response].
        rewrite Ht2, Ht1, <- app_assoc. split; [done|]. split; [|done].
        simpl. by repeat constructor. }
    injection Hpage' as -> <-.
    apply bind_inv in Hrun as [(n & w3 & Hlen & Hrun)|(e & Hlen & ->)].
    2:{ assert (w' = w2) as ->
          by (unfold lift, raise, ret in Hlen;
              destruct (py_len results); by simplify_eq).
        exists [EvOpenImage image_path;
                EvApiCall page_num total_pages b64 response].
        rewrite Ht2, Ht1, <- app_assoc. split; [done|]. split; [|done].
        simpl. by repeat constructor. }
    assert (w3 = w2) as ->
      by (unfold lift, raise, ret in Hlen;
          destruct (py_len results); by simplify_eq).
    apply bind_inv in Hrun as [([] & w4 & Hlog & Hrun)|(e & [=] & _)].
    injection Hlog as <-.
    apply bind_inv in Hrun as [(batch & w5 & Hiter & Hrun)|(e & Hiter & ->)].
    2:{ unfold lift, raise, ret in Hiter.
        destruct (py_iter results); simplify_eq.
        exists [EvOpenImage image_path;
                EvApiCall page_num total_pages b64 response].
        simpl. rewrite Ht2, Ht1, <- app_assoc. split; [done|]. split; [|done].
        simpl. by repeat constructor. }
    unfold lift, raise, ret in Hiter.
    destruct (py_iter results); simplify_eq.
    apply (IH rest) in Hrun as (evs & Ht & Himgs & Hr).
    2:{ simpl. by rewrite Hfs2, Hfs1. }
    simpl in Ht.
    exists (EvOpenImage image_path
            :: EvApiCall page_num total_pages b64 response :: evs).
    rewrite Ht, Ht2, Ht1, <- !app_assoc. split; [done|].
    rewrite !api_images_cons. cbn [api_image List.length take].
    split; [by constructor|]. destruct r; [|done]. simpl. by rewrite Hr.
Qed.

Lemma page_files_in_place (temp_folder : path) (images : list image)
    (m : gmap path node) :
  (forall k img, images !! k = Some img ->
     m !! page_path temp_folder (S k) = Some (ImageFile img)) ->
  Forall2 (fun (p : path) img => m !! p = Some (ImageFile img))
    (map (page_path temp_folder) (seq 1 (List.length images))) images.
Proof.
  intros Hfiles. apply Forall2_same_length_lookup_2.
  - by rewrite length_map, length_seq.
  - intros k p img Hp Himg. rewrite list_lookup_fmap in Hp.
    destruct (seq 1 (List.length images) !! k) as [n|] eqn:Hn; [|done].
    apply lookup_seq in Hn as [-> _]. injection Hp as <-.
    by apply Hfiles.
Qed.

(** X5: the model sees each page's own image.  When the rasterizer has
    returned and the page loop then returns, the loop has called the model
    once per page of the document, for pages 1, 2, ... in order, and the
    image sent with the call for page [k] is the encoding of the image the
    rasterizer produced for page [k]. *)
Theorem model_sees_the_rasterized_pages env pdf_path dpi w image_paths
    (temp_folder : path) w1 client total_pages all w2 :
  convert_pdf_to_images env pdf_path dpi w
  = (Return (image_paths, temp_folder), w1) ->
  process_pages env client total_pages 1 image_paths [] w1
  = (Return all, w2) ->
  exists images evs,
    convert_from_path env pdf_path dpi = inr images /\
    trace w2 = trace w1 ++ evs /\
    Forall2 (fun img image_base64 => jpeg_base64 env img = inr image_base64)
      images (api_images evs) /\
    api_pages evs = seq 1 (List.length images).
Proof.
  intros (images & Hconv & -> & Hfiles & _)%convert_pdf_to_images_pages Hloop.
  destruct (process_pages_images env client total_pages _ images 1 [] w1 _ w2
              (page_files_in_place temp_folder images (fs w1) Hfiles) Hloop)
    as (evs & Ht & Himgs & Hlen).
  destruct (process_pages_spec env client total_pages
              (map (page_path temp_folder) (seq 1 (List.length images)))
              1 [] w1)
    as (r & w2' & evs' & goods & tail & Hloop' & Ht' & _ & _ & _ & _ & _ & Hr).
  rewrite Hloop in Hloop'. injection Hloop' as <- <-.
  rewrite Ht in Ht'. apply app_inv_head in Ht' as <-.
  destruct Hr as (_ & _ & Hpages).
  rewrite length_map, length_seq in Hpages.
  exists images, evs. repeat split; [done|done| |done].
  rewrite Hlen, firstn_all in Himgs. done.
Qed.

Lemma model_sees_the_rasterized_pages_witness :
  exists evs, api_images evs = ["base64:page one"; "base64:page two"].
Proof.
  set (env := two_page_env (inr gadget_text)).
  set (converted := convert_pdf_to_images env "docs/inv.pdf" 300 empty_world).
  set (folder := ["temp"; "pdf_images_20240307_090500"]).
  set (paths := [folder ++ ["page_1.jpg"]; folder ++ ["page_2.jpg"]]).
  set (looped := process_pages env "sk-sample" 2 1 paths [] converted.2).
  destruct (model_sees_the_rasterized_pages env "docs/inv.pdf" 300
              empty_world paths folder converted.2 "sk-sample" 2
              [widget; JDict [("Commodity Name", JStr "Gadget");
                              ("Qty", JInt 1); ("UOM", JStr "BOX")]]
              looped.2)
    as (images & evs & Hconv & _ & Himgs & _).
  - vm_compute. reflexivity.
  - vm_compute. reflexivity.
  - exists evs. injection Hconv as <-.
    apply Forall2_cons_inv_l in Himgs as (b1 & rest1 & [= <-] & Himgs & ->).
    apply Forall2_cons_inv_l in Himgs as (b2 & rest2 & [= <-] & Himgs & ->).
    by apply Forall2_nil_inv_l in Himgs as ->.
Defined.

(** ** A run that returns *)

(** The stages of a run that returns: the preparation, the page loop, the
    writer and the clean-up all returned, in that order. *)
Lemma process_pdf_document_returns_inv env pdf_path w output_file w' :
  process_pdf_document env pdf_path w = (Return output_file, w') ->
  exists client image_paths (temp_folder : path) w1 all w2 w3 w4,
    prepare env pdf_path w
    = (Return (client, (image_paths, temp_folder)), w1) /\
    process_pages env client (List.length image_paths) 1 image_paths [] w1
    = (Return all, w2) /\
    save_to_csv env all pdf_path w2 = (Return output_file, w3) /\
    cleanup_temp_files env temp_folder w3 = (Return tt, w4) /\
    trace w' = trace w4 /\ fs w' = fs w4 /\ log w' = log w4.
Proof.
  intros [(e & w1 & _ & [=] & _)
         |(client & image_paths & temp_folder & w1 & w3 & w4 & Hprep & Hext
           & Hclean & Ht & Hfs & Hlog)]%process_pdf_document_inv.
  unfold extract_and_save in Hext.
  apply bind_inv in Hext as [(all & w2 & Hloop & Hsave)|(e & _ & [=])].
  rewrite app_nil_r in Hlog. eauto 15.
Qed.

Lemma prepare_rasterizes env pdf_path w client image_paths
    (temp_folder : path) w1 :
  prepare env pdf_path w = (Return (client, (image_paths, temp_folder)), w1) ->
  exists images,
    convert_from_path env pdf_path 300 = inr images /\
    image_paths = map (page_path temp_folder) (seq 1 (List.length images)).
Proof.
  unfold prepare.
  intros [([] & wa & _ & Hrest)|(e & _ & [=])]%bind_inv.
  apply bind_inv in Hrest as [(client' & wb & _ & Hrest)|(e & _ & [=])].
  apply bind_inv in Hrest
      as [([image_paths' temp_folder'] & wc & Hconv & Hret)|(e & _ & [=])].
  injection Hret as <- <- <- <-.
  apply convert_pdf_to_images_pages in Hconv as (images & ? & ? & _). eauto.
Qed.

Lemma output_file_not_in_temp source_file dt dt' :
  ~ temp_folder_of dt' `prefix_of` output_file_of source_file dt.
Proof. by intros [k [=]]. Qed.

(** The table a run that returns has written, and the calls it made. *)
Lemma process_pdf_document_returns env pdf_path w output_file w' :
  process_pdf_document env pdf_path w = (Return output_file, w') ->
  exists images evs,
    convert_from_path env pdf_path 300 = inr images /\
    trace w' = trace w ++ evs /\
    api_pages evs = seq 1 (List.length images) /\
    Forall (fun response => acceptable env response = true)
      (api_responses evs) /\
    (exists name, output_file = path_join OUTPUT_DIR name) /\
    fs w' !! output_file
    = Some (CsvFile (HEADER :: map row_cells
                       (concat (map (batch_of env) (api_responses evs))))).
Proof.
  intros (client & image_paths & temp_folder & w1 & all & w2 & w3 & w4
          & Hprep & Hloop & Hsave & Hclean & Ht & Hfs & _)
         %process_pdf_document_returns_inv.
  destruct (prepare_rasterizes _ _ _ _ _ _ _ Hprep) as (images & Hconv & Hpaths).
  destruct (prepare_returns _ _ _ _ _ _ _ Hprep) as [[dt ->] _].
  destruct (footprint_prepare env pdf_path _ _ _ Hprep)
    as [(evs1 & Ht1 & Hevs1) _].
  destruct (process_pages_spec env client (List.length image_paths)
              image_paths 1 [] w1)
    as (r & w2' & evs2 & goods & tail & Hloop' & Ht2 & _ & _ & _ & Hresp
        & Hgoods & Hr).
  rewrite Hloop in Hloop'. injection Hloop' as <- <-.
  destruct Hr as (-> & -> & Hpages). rewrite app_nil_r in Hresp.
  cbn [app] in Hsave. pose proof Hsave as Hsave'. rewrite save_to_csv_spec in Hsave'.
  destruct (open_error env _ (fs w2)); [done|].
  destruct (rejected (concat (map (batch_of env) goods))) eqn:Hrej; [done|].
  injection Hsave' as <- <-.
  destruct (accepted_rows _ Hrej) as [Hrows _].
  destruct (footprint_cleanup_temp_files
              (P:=fun ev => is_api_call ev = false)
              (Q:=fun q => temp_folder_of dt `prefix_of` q)
              env (temp_folder_of dt) ltac:(done) ltac:(done) _ _ _ Hclean)
    as [(evs4 & Ht4 & Hevs4) Hfs4].
  exists images, (evs1 ++ evs2 ++ [EvOpenCsv (output_file_of pdf_path
                                      (now env (clock_reads w2)))] ++ evs4).
  split; [done|]. split.
  { rewrite Ht, Ht4. cbn [trace]. rewrite Ht2, Ht1, <- !app_assoc. done. }
  assert (api_responses evs1 = []) as Hapi1.
  { apply api_responses_none. eapply Forall_impl; [done|]. by intros [] ?. }
  assert (api_pages evs1 = []) as Hpages1.
  { apply length_zero_iff_nil. by rewrite <- length_api_responses, Hapi1. }
  assert (api_responses evs4 = []) as Hapi4 by by apply api_responses_none.
  assert (api_pages evs4 = []) as Hpages4.
  { apply length_zero_iff_nil. by rewrite <- length_api_responses, Hapi4. }
  assert (api_responses (evs1 ++ evs2
            ++ [EvOpenCsv (output_file_of pdf_path (now env (clock_reads w2)))]
            ++ evs4) = goods) as ->.
  { rewrite !api_responses_app, Hapi1, Hapi4, Hresp. simpl.
    by rewrite app_nil_r. }
  split.
  { unfold api_pages in *. rewrite !omap_app, Hpages1, Hpages4, Hpages.
    simpl. rewrite app_nil_r, Hpaths, length_map, length_seq. done. }
  split.
  { apply Forall_forall. intros response Hin.
    rewrite forallb_forall in Hgoods. by apply Hgoods, list_elem_of_In. }
  split; [by eexists|].
  rewrite Hfs, Hfs4 by apply output_file_not_in_temp.
  cbn [fs]. by rewrite lookup_insert_eq, Hrows.
Qed.

(** X10: a run that returns has called the model once for every page the
    rasterizer produced, for pages 1, 2, ... in order, every response was
    acceptable, and the file it returns lies in the output directory and
    holds the header row followed by the rows of all pages in page order,
    each row the cells of a repaired record, also after the clean-up: as
    many rows as the batches of the pages hold together. *)
Theorem run_writes_all_pages_in_order env pdf_path w output_file w' :
  process_pdf_document env pdf_path w = (Return output_file, w') ->
  exists images evs rows,
    convert_from_path env pdf_path 300 = inr images /\
    trace w' = trace w ++ evs /\
    api_pages evs = seq 1 (List.length images) /\
    Forall (fun response => acceptable env response = true)
      (api_responses evs) /\
    (exists name, output_file = path_join OUTPUT_DIR name) /\
    fs w' !! output_file = Some (CsvFile (HEADER :: rows)) /\
    rows = map row_cells (concat (map (batch_of env) (api_responses evs))) /\
    List.length (api_responses evs) = List.length images /\
    List.length rows
    = list_sum (map (@List.length json)
                  (map (batch_of env) (api_responses evs))).
Proof.
  intros (images & evs & Hconv & Ht & Hpages & Hgood & Hname & Hfile)
         %process_pdf_document_returns.
  exists images, evs,
    (map row_cells (concat (map (batch_of env) (api_responses evs)))).
  split; [done|]. split; [done|]. split; [done|]. split; [done|].
  split; [done|]. split; [done|]. split; [done|]. split.
  - by rewrite length_api_responses, Hpages, length_seq.
  - rewrite length_map. apply length_concat.
Qed.

Lemma run_writes_all_pages_in_order_witness :
  exists evs, api_pages evs = [1; 2].
Proof.
  set (env := two_page_env (inr gadget_text)).
  destruct (run_writes_all_pages_in_order env "docs/inv.pdf" empty_world
              ["output"; "inv_20240307_090501.csv"]
              (process_pdf_document env "docs/inv.pdf" empty_world).2)
    as (images & evs & rows & Hconv & _ & Hpages & _).
  - vm_compute. reflexivity.
  - exists evs. injection Hconv as <-. exact Hpages.
Defined.

(** X14: a document without pages.  When the rasterizer produces no image
    and the run returns, the model was never called and the file holds the
    header row alone. *)
Theorem run_on_empty_document env pdf_path w output_file w' evs :
  convert_from_path env pdf_path 300 = inr [] ->
  process_pdf_document env pdf_path w = (Return output_file, w') ->
  trace w' = trace w ++ evs ->
  Forall (fun ev => is_api_call ev = false) evs /\
  fs w' !! output_file = Some (CsvFile [HEADER]).
Proof.
  intros Hconv (images & evs' & Hconv' & Ht' & Hpages & _ & _ & Hfile)
               %process_pdf_document_returns Ht.
  rewrite Ht in Ht'. apply app_inv_head in Ht' as <-.
  rewrite Hconv in Hconv'. injection Hconv' as <-. simpl in Hpages.
  assert (api_responses evs = []) as Hnone.
  { apply length_zero_iff_nil. by rewrite length_api_responses, Hpages. }
  rewrite Hnone in Hfile. split; [|done].
  by apply api_responses_none_inv.
Qed.

Lemma run_on_empty_document_witness :
  fs (process_pdf_document
        (sample_env (Some "sk-sample") ticking_clock [] [] nothing_denied)
        "docs/empty.pdf" empty_world).2
    !! ["output"; "empty_20240307_090501.csv"]
  = Some (CsvFile [HEADER]).
Proof.
  set (env := sample_env (Some "sk-sample") ticking_clock [] [] nothing_denied).
  set (run := process_pdf_document env "docs/empty.pdf" empty_world).
  apply (run_on_empty_document env "docs/empty.pdf" empty_world
           ["output"; "empty_20240307_090501.csv"] run.2 (trace run.2)).
  - reflexivity.
  - vm_compute. reflexivity.
  - reflexivity.
Defined.

(** X16: whatever the outcome, a run changes nothing outside the output and
    the temp directory: every path that is not at or below one of them holds
    after the run what it held before. *)
Theorem run_stays_in_its_directories env pdf_path w r w' (p : path) :
  process_pdf_document env pdf_path w = (r, w') ->
  ~ OUTPUT_DIR `prefix_of` p -> ~ TEMP_DIR `prefix_of` p ->
  fs w' !! p = fs w !! p.
Proof.
  intros Hrun Hout Htemp.
  assert (~ (p = OUTPUT_DIR \/ TEMP_DIR `prefix_of` p)) as Hprep_frame.
  { intros [->|?]; [by apply Hout|done]. }
  apply process_pdf_document_inv in Hrun
      as [(e & w1 & Hprep & _ & _ & Hfs & _)
         |(client & image_paths & temp_folder & w1 & w2 & w3 & Hprep & Hext
           & Hclean & _ & Hfs & _)].
  - destruct (footprint_prepare env pdf_path _ _ _ Hprep) as [_ Hfs1].
    rewrite Hfs. by apply Hfs1.
  - destruct (footprint_prepare env pdf_path _ _ _ Hprep) as [_ Hfs1].
    destruct (prepare_returns _ _ _ _ _ _ _ Hprep) as [[dt ->] _].
    destruct (footprint_cleanup_temp_files
                (P:=fun _ => True)
                (Q:=fun q => temp_folder_of dt `prefix_of` q)
                env (temp_folder_of dt) ltac:(done) ltac:(done) _ _ _ Hclean)
      as [_ Hfs3].
    rewrite Hfs, Hfs3.
    2:{ intros [k ->]. apply Htemp. by eexists. }
    rewrite <- (Hfs1 p Hprep_frame).
    unfold extract_and_save in Hext.
    destruct (process_pages_spec env client (List.length image_paths)
                image_paths 1 [] w1)
      as (r2 & wl & evs2 & goods & tail & Hloop & _ & Hfs2 & _).
    apply bind_inv in Hext as [(all & wl' & Hloop' & Hsave)|(e & Hloop' & _)];
      rewrite Hloop in Hloop'; simplify_eq; [|by rewrite Hfs2].
    destruct (footprint_save_to_csv
                (P:=fun _ => True)
                (Q:=fun p => exists name, p = path_join OUTPUT_DIR name)
                env _ pdf_path ltac:(done) ltac:(by eexists) _ _ _ Hsave)
      as [_ Hfs'].
    rewrite Hfs', Hfs2; [done|].
    intros [name ->]. apply Hout. by eexists.
Qed.

Lemma run_stays_in_its_directories_witness :
  fs (process_pdf_document (two_page_env (inr gadget_text)) "docs/inv.pdf"
        (mkWorld (<[["docs"; "inv.pdf"] := OtherFile "%PDF"]> ∅) 0 [] [])).2
    !! ["docs"; "inv.pdf"]
  = Some (OtherFile "%PDF").
Proof.
  set (env := two_page_env (inr gadget_text)).
  set (w := mkWorld (<[["docs"; "inv.pdf"] := OtherFile "%PDF"]> ∅) 0 [] []).
  set (run := process_pdf_document env "docs/inv.pdf" w).
  rewrite (run_stays_in_its_directories env "docs/inv.pdf" w run.1 run.2
             ["docs"; "inv.pdf"]).
  - reflexivity.
  - apply surjective_pairing.
  - by intros [k [=]].
  - by intros [k [=]].
Defined.

(** ** The key *)

(** X7: a key that is set but empty is treated like a missing one.  The run
    raises; what it has done by then is the provisioning of the two
    directories and nothing else; and when the provisioning went through the
    error is the [ValueError] of the missing key. *)
Theorem empty_key_is_a_missing_key env pdf_path w r w' :
  getenv_api_key env = Some EmptyString ->
  process_pdf_document env pdf_path w = (r, w') ->
  (exists e, r = Raise e) /\
  (forall w1, ensure_directories env w = (Return tt, w1) ->
     r = Raise (ValueError
                  "ANTHROPIC_API_KEY not found in environment variables")) /\
  (exists evs,
     trace w' = trace w ++ evs /\
     Forall (fun ev => ev = EvMakedirs OUTPUT_DIR \/ ev = EvMakedirs TEMP_DIR)
       evs) /\
  (forall p, p <> OUTPUT_DIR -> p <> TEMP_DIR -> fs w' !! p = fs w !! p).
Proof.
  intros Hkey Hrun.
  assert (exists e w1 w0 r0,
             prepare env pdf_path w = (Raise e, w1) /\
             ensure_directories env w = (r0, w0) /\
             trace w1 = trace w0 /\ fs w1 = fs w0 /\
             match r0 with
             | Return _ =>
                 e = ValueError
                       "ANTHROPIC_API_KEY not found in environment variables"
             | Raise e0 => e = e0
             end)
    as (e & w1 & w0 & r0 & Hprep & Hens & Ht10 & Hf10 & He).
  { unfold prepare, setup_anthropic_client. rewrite Hkey. simpl.
    unfold bind at 1.
    destruct (ensure_directories env w) as [[[]|e0] w0] eqn:Hens.
    - eexists _, w0, w0, (Return tt). by monad_unfold.
    - exists e0, w0, w0, (Raise e0). done. }
  apply process_pdf_document_inv in Hrun
      as [(e' & w1' & Hprep' & -> & Ht & Hf & _)
         |(client & image_paths & temp_folder & w1' & w2 & w3 & Hprep' & _)];
    rewrite Hprep in Hprep'; simplify_eq.
  destruct (footprint_ensure_directories
              (P:=fun ev => ev = EvMakedirs OUTPUT_DIR \/ ev = EvMakedirs TEMP_DIR)
              (Q:=fun p => p = OUTPUT_DIR \/ p = TEMP_DIR) env
              ltac:(by left) ltac:(by right) ltac:(by left) ltac:(by right)
              _ _ _ Hens) as [(evs & Ht0 & Hevs) Hf0].
  split; [eauto|]. split; [|split].
  - intros w1 Hens'. rewrite Hens in Hens'. by simplify_eq.
  - exists evs. by rewrite Ht, Ht10.
  - intros p Hp1 Hp2. rewrite Hf, Hf10. apply Hf0. by intros [?|?].
Qed.

Lemma empty_key_is_a_missing_key_witness :
  exists e,
    (process_pdf_document
       (sample_env (Some EmptyString) ticking_clock ["page one"]
          [inr widget_text] nothing_denied)
       "docs/inv.pdf" empty_world).1 = Raise e.
Proof.
  set (env := sample_env (Some EmptyString) ticking_clock ["page one"]
                [inr widget_text] nothing_denied).
  set (run := process_pdf_document env "docs/inv.pdf" empty_world).
  destruct (empty_key_is_a_missing_key env "docs/inv.pdf" empty_world
              run.1 run.2) as (He & _).
  - reflexivity.
  - apply surjective_pairing.
  - exact He.
Defined.

(** ** Cleaning up, again *)

(** X8: cleaning up never raises, for any folder in any world.  It changes
    nothing outside the folder; when the folder is not there it does
    nothing at all, not even attempt a removal; and when it is there, then
    afterwards either it is gone or the log ends with a warning. *)
Theorem cleanup_temp_files_never_raises env (temp_folder : path) w :
  exists w',
    cleanup_temp_files env temp_folder w = (Return tt, w') /\
    (forall p : path,
       ~ temp_folder `prefix_of` p -> fs w' !! p = fs w !! p) /\
    (path_exists temp_folder (fs w) = false -> w' = w) /\
    (path_exists temp_folder (fs w) = true ->
     fs w' !! temp_folder = None \/
     exists e, last (log w') = Some (WARNING, CleanupError e)).
Proof.
  destruct (cleanup_temp_files_spec env temp_folder w)
    as (w' & evs & Hrun & _ & _ & Hfs).
  exists w'. split; [done|]. split; [|split].
  - apply (footprint_cleanup_temp_files
             (P:=fun _ => True) (Q:=fun q => temp_folder `prefix_of` q)
             env temp_folder ltac:(done) ltac:(done) _ _ _ Hrun).
  - unfold path_exists. intros Habsent.
    destruct (fs w !! temp_folder) eqn:Hlook; [done|].
    revert Hrun. unfold cleanup_temp_files, path_exists. monad_unfold.
    rewrite Hlook. by intros [= <-].
  - unfold path_exists. intros Hthere.
    destruct (fs w !! temp_folder) as [[|img|rows|content]|] eqn:Hlook;
      [|right; exists NotADirectoryError; destruct Hfs as [_ ->];
        apply last_snoc..|done].
    destruct (rm_denied env temp_folder).
    + right. exists PermissionError. destruct Hfs as [_ ->]. apply last_snoc.
    + left. rewrite Hfs, lookup_remove_tree. by rewrite decide_True.
Qed.

(** ** Responses that are not arrays *)

(** X9: the response need not be an array.  A response that parses to a
    number, a boolean or [null] makes the page raise [TypeError] (it cannot
    be iterated); a non-empty string or a non-empty object makes it raise
    [AttributeError] (its characters or keys are not dicts); an empty
    string or an empty object is returned as it is and contributes no
    rows. *)
Theorem non_array_response env client image_base64 page_number total_pages
    text parsed w :
  messages_create env client page_number total_pages image_base64 = inr text ->
  json_loads env text = Some parsed ->
  (forall xs, parsed <> JList xs) ->
  exists w',
    process_image_with_claude env client image_base64 page_number
      total_pages w
    = (match parsed with
       | JStr EmptyString | JDict [] => Return parsed
       | JStr _ | JDict _ => Raise AttributeError
       | _ => Raise TypeError
       end, w') /\
    match parsed with
    | JStr EmptyString | JDict [] => py_iter parsed = inr []
    | _ => True
    end.
Proof.
  intros Hresp Hparse Hnot_list.
  unfold process_image_with_claude, call_model. rewrite Hresp.
  unfold try_except. unfold bind at 1. unfold emit at 1.
  unfold bind at 1. cbn [lift]. unfold ret at 1.
  unfold bind at 1. rewrite Hparse. cbn [lift]. unfold ret at 1.
  destruct parsed as [| | | |s|xs|d];
    try (monad_unfold; eexists; split; [reflexivity|done]).
  - destruct s as [|c s]; monad_unfold; eexists; (split; [reflexivity|done]).
  - by destruct (Hnot_list xs).
  - destruct d as [|[k v] d]; monad_unfold; eexists;
      (split; [reflexivity|done]).
Qed.

Lemma non_array_response_witness :
  exists w',
    process_image_with_claude
      (mkEnv (Some "sk-sample") (fun _ => None) ticking_clock
         (fun _ _ => inr []) (fun img => inr img)
         (fun _ _ _ _ => inr "5") (fun _ => Some (JInt 5))
         (fun _ => false) (fun _ => false))
      "sk-sample" "image" 1 1 empty_world
    = (Raise TypeError, w').
Proof.
  destruct (non_array_response
              (mkEnv (Some "sk-sample") (fun _ => None) ticking_clock
                 (fun _ _ => inr []) (fun img => inr img)
                 (fun _ _ _ _ => inr "5") (fun _ => Some (JInt 5))
                 (fun _ => false) (fun _ => false))
              "sk-sample" "image" 1 1 "5" (JInt 5) empty_world)
    as (w' & Hrun & _).
  - reflexivity.
  - reflexivity.
  - discriminate.
  - exists w'. exact Hrun.
Defined.

(** ** The name of the output file *)

Lemma output_file_of_eq_iff source_file a b :
  valid_datetime a -> valid_datetime b ->
  (output_file_of source_file a = output_file_of source_file b
   <-> same_second a b).
Proof.
  intros Ha Hb. split.
  - unfold output_file_of, path_join, OUTPUT_DIR. cbn [app]. intros Hfile.
    assert (splitext_root (basename source_file) +:+ "_" +:+ strftime a
              +:+ ".csv"
            = splitext_root (basename source_file) +:+ "_" +:+ strftime b
              +:+ ".csv") as Hname by congruence.
    apply append_inj_r, append_inj_r, append_inj_l in Hname.
    by apply strftime_inj.
  - intros (Hy & Hm & Hd & Hh & Hmi & Hs).
    unfold output_file_of, strftime. by rewrite Hy, Hm, Hd, Hh, Hmi, Hs.
Qed.

(** X11: the output file of a source file is named after the clock down to
    the second.  Two saves for the same source file return the same file
    exactly when their readings of the clock agree in year, month, day,
    hour, minute and second; since a save replaces the file, the later of
    two saves within one second leaves only its own table. *)
Theorem save_to_csv_same_file_iff_same_second env source_file
    data_a wa file_a wa' data_b wb file_b wb' :
  valid_datetime (now env (clock_reads wa)) ->
  valid_datetime (now env (clock_reads wb)) ->
  save_to_csv env data_a source_file wa = (Return file_a, wa') ->
  save_to_csv env data_b source_file wb = (Return file_b, wb') ->
  (file_a = file_b <->
   same_second (now env (clock_reads wa)) (now env (clock_reads wb))) /\
  fs wb' !! file_b = Some (CsvFile (HEADER :: map row_cells data_b)).
Proof.
  intros Ha Hb Hsave_a Hsave_b.
  rewrite save_to_csv_spec in Hsave_a, Hsave_b.
  destruct (open_error env _ (fs wa)); [done|].
  destruct (open_error env _ (fs wb)); [done|].
  destruct (rejected data_a); [done|].
  destruct (rejected data_b) eqn:Hrej; [done|].
  injection Hsave_a as <- _. injection Hsave_b as <- <-.
  split; [by apply output_file_of_eq_iff|].
  cbn [fs]. rewrite lookup_insert_eq.
  by destruct (accepted_rows data_b Hrej) as [-> _].
Qed.

Lemma save_to_csv_same_file_iff_same_second_witness :
  ["output"; "inv_20240307_090542.csv"] = ["output"; "inv_20240307_090542.csv"]
  <-> same_second (fast_clock 0) (fast_clock 1).
Proof.
  set (w := mkWorld (<[["output"] := Dir]> ∅) 0 [] []).
  set (first := save_to_csv same_second_env [widget] "docs/inv.pdf" w).
  set (second := save_to_csv same_second_env [] "docs/inv.pdf" first.2).
  apply (save_to_csv_same_file_iff_same_second same_second_env "docs/inv.pdf"
           [widget] w ["output"; "inv_20240307_090542.csv"] first.2
           [] first.2 ["output"; "inv_20240307_090542.csv"] second.2).
  - vm_compute. repeat split; discriminate.
  - vm_compute. repeat split; discriminate.
  - vm_compute. reflexivity.
  - vm_compute. reflexivity.
Defined.

(** ** Provisioning, again *)

(** X12: the provisioner returns exactly when each of the two directories
    is a directory already or is absent and can be created.  With a file in
    the place of the output directory it raises [FileExistsError] after the
    one attempt, before the temp directory is looked at, and the filesystem
    is as it was. *)
Theorem ensure_directories_returns_iff env w :
  ((exists w', ensure_directories env w = (Return tt, w')) <->
   provisionable env OUTPUT_DIR (fs w) /\ provisionable env TEMP_DIR (fs w)) /\
  (forall n, fs w !! OUTPUT_DIR = Some n -> n <> Dir ->
     ensure_directories env w
     = (Raise FileExistsError, with_event (EvMakedirs OUTPUT_DIR) w)).
Proof.
  split; [split|].
  - intros [w' Hrun]. revert Hrun.
    unfold ensure_directories, for_each, OUTPUT_DIR, TEMP_DIR, provisionable.
    intros [([] & w1 & Hout & Hrest)|(e & _ & [=])]%bind_inv.
    apply bind_inv in Hout as [([] & w0 & Hout & Hlog)|(e & _ & [=])].
    injection Hlog as <-.
    apply bind_inv in Hrest as [([] & w2 & Htemp & _)|(e & _ & [=])].
    apply bind_inv in Htemp as [([] & w3 & Htemp & _)|(e & _ & [=])].
    rewrite makedirs_single in Hout, Htemp. cbn [fs] in Htemp.
    assert (fs w0 !! ["temp"] = fs w !! ["temp"]) as Hsame.
    { destruct (fs w !! ["output"]) as [[| | |]|]; simplify_eq; [done|].
      destruct (fs_denied env ["output"]); simplify_eq.
      cbn [fs set_fs with_event]. by rewrite lookup_insert_ne. }
    rewrite Hsame in Htemp. split.
    + destruct (fs w !! ["output"]) as [[| | |]|]; simplify_eq; [by left|].
      right. by destruct (fs_denied env ["output"]).
    + destruct (fs w !! ["temp"]) as [[| | |]|]; simplify_eq; [by left|].
      right. by destruct (fs_denied env ["temp"]).
  - intros [Hout Htemp].
    destruct (ensure_directories_returns env w Hout Htemp) as (w' & ? & _).
    eauto.
  - intros n Hfile Hn.
    unfold ensure_directories, for_each, OUTPUT_DIR in *.
    unfold bind at 1. unfold bind at 1. rewrite makedirs_single, Hfile.
    by destruct n.
Qed.

(** ** The repair keeps what the model gave *)

Lemma setdefault_appends k v (d : pydict) :
  PyDict.setdefault k v d
  = d ++ (if PyDict.contains k d then [] else [(k, v)]).
Proof.
  unfold PyDict.setdefault. destruct (PyDict.contains k d); [|done].
  by rewrite app_nil_r.
Qed.

Lemma contains_app k (d1 d2 : pydict) :
  PyDict.contains k (d1 ++ d2) = PyDict.contains k d1 || PyDict.contains k d2.
Proof. apply existsb_app. Qed.

(** X13: the repair only adds, and adds all that is missing.  The repaired
    record is the record the model returned, with its pairs in their order
    and with any key outside the three fields still in it, followed by
    exactly the defaults of the fields that were absent, in the order of
    the field names: a pair is added for each absent field, carrying that
    field's default, and none for a field that was present, whatever its
    value. *)
Theorem repair_only_appends (d : pydict) :
  exists added,
    repair d = d ++ added /\
    added = filter (fun kv => PyDict.contains kv.1 d = false) DEFAULTS /\
    (forall kv, kv ∈ added <->
                kv ∈ DEFAULTS /\ PyDict.contains kv.1 d = false) /\
    NoDup (PyDict.keys added).
Proof.
  exists (filter (fun kv => PyDict.contains kv.1 d = false) DEFAULTS).
  split.
  { unfold repair. rewrite !setdefault_appends, !contains_app, <- !app_assoc.
    destruct (PyDict.contains "Commodity Name" d) eqn:Hn;
      destruct (PyDict.contains "Qty" d) eqn:Hq;
      destruct (PyDict.contains "UOM" d) eqn:Hu; simpl;
      unfold DEFAULTS; rewrite !filter_cons, filter_nil; simpl;
      repeat case_decide; congruence. }
  split; [done|]. split.
  { intros kv. rewrite list_elem_of_filter. tauto. }
  unfold PyDict.keys. apply NoDup_fmap_fst.
  - intros k v1 v2 [_ H1]%list_elem_of_filter [_ H2]%list_elem_of_filter.
    unfold DEFAULTS in H1, H2.
    rewrite !elem_of_cons, !elem_of_nil in H1, H2.
    destruct H1 as [|[|[|[]]]], H2 as [|[|[|[]]]]; congruence.
  - apply NoDup_filter. unfold DEFAULTS.
    repeat constructor; rewrite ?elem_of_cons, ?elem_of_nil;
      intuition discriminate.
Qed.

(** ** The script, run *)

(** X15: the script never lets an exception out.  It prints that the
    processing is complete, with the file, exactly when the run returned
    that file; otherwise it prints the error the run raised, which is also
    the error the log ends with. *)
Theorem main_never_raises env w :
  exists printed w',
    main env w = (Return printed, w') /\
    match printed with
    | ProcessingComplete output_file =>
        process_pdf_document env pdf_file w = (Return output_file, w')
    | ErrorProcessing e =>
        process_pdf_document env pdf_file w = (Raise e, w') /\
        last (log w') = Some (ERROR, DocumentError e)
    end.
Proof.
  unfold main, try_except, bind, ret.
  destruct (process_pdf_document env pdf_file w) as [[output_file|e] w'] eqn:Hrun.
  - exists (ProcessingComplete output_file), w'. done.
  - exists (ErrorProcessing e), w'. split; [done|]. split; [done|].
    by apply raised_error_is_logged in Hrun.
Qed.

(** ** Warnings *)

Lemma validate_items_log page_number items : forall w,
  forallb is_record items = true ->
  validate_items page_number items w
  = (Return (map repaired items),
     mkWorld (fs w) (clock_reads w)
       (log w ++ map (fun item => (WARNING, InvalidItem page_number item))
                  (filter (fun item => incomplete item = true) items))
       (trace w)).
Proof.
  induction items as [|item rest IH]; intros w Hrec.
  - simpl. rewrite app_nil_r. by destruct w.
  - simpl in Hrec. apply andb_true_iff in Hrec as [Hitem Hrest].
    destruct item as [| | | | | |d]; try done.
    cbn [validate_items]. unfold bind at 1. cbn [validate_item].
    rewrite filter_cons. cbn [incomplete repaired map].
    destruct (has_all_fields d) eqn:Hd; cbn [negb].
    + unfold ret at 1. unfold bind at 1. rewrite (IH w Hrest).
      rewrite decide_False by done. done.
    + unfold bind at 1, logger at 1, ret at 1. unfold bind at 1.
      rewrite IH by done. cbn [fs clock_reads log trace].
      rewrite decide_True by done. cbn [map]. unfold ret.
      by rewrite <- app_assoc.
Qed.

(** X17: the warnings of a page.  When the page extractor returns, what it
    has added to the log is one warning for each row of the response that
    lacks a field, in row order, naming the row as the model returned it;
    rows that have the three fields leave no trace in the log. *)
Theorem extractor_warns_once_per_incomplete_row env client image_base64
    page_number total_pages w results w' :
  process_image_with_claude env client image_base64 page_number total_pages w
  = (Return results, w') ->
  exists text parsed items,
    messages_create env client page_number total_pages image_base64 = inr text /\
    json_loads env text = Some parsed /\
    py_iter parsed = inr items /\
    log w' = log w
             ++ map (fun item => (WARNING, InvalidItem page_number item))
                  (filter (fun item => incomplete item = true) items).
Proof.
  intros Hrun.
  destruct (process_image_spec env client image_base64 page_number
              total_pages w) as (r & w1 & Hrun' & _ & _ & _ & Hr).
  rewrite Hrun in Hrun'. injection Hrun' as <- <-.
  destruct Hr as (Hgood & _). revert Hrun Hgood.
  unfold process_image_with_claude, call_model, acceptable.
  destruct (messages_create env client page_number total_pages image_base64)
    as [e|text]; [done|].
  destruct (json_loads env text) as [parsed|] eqn:Hparse; [|done].
  destruct (py_iter parsed) as [e|items] eqn:Hitems; [done|].
  intros Hrun Hrec. exists text, parsed, items.
  split; [done|]. split; [done|]. split; [done|].
  revert Hrun. unfold try_except. unfold bind at 1, emit at 1.
  unfold bind at 1. cbn [lift]. unfold ret at 1.
  unfold bind at 1. rewrite Hparse. cbn [lift]. unfold ret at 1.
  unfold bind at 1. rewrite Hitems. cbn [lift]. unfold ret at 1.
  unfold bind at 1. rewrite validate_items_log by done.
  unfold ret. by intros [= _ <-].
Qed.

Lemma extractor_warns_once_per_incomplete_row_witness :
  exists w',
    log w' = [(WARNING,
               InvalidItem 2 (JDict [("Commodity Name", JStr "Gadget")]))].
Proof.
  set (env := two_page_env (inr gadget_text)).
  set (run := process_image_with_claude env "sk-sample" "base64:page two"
                2 2 empty_world).
  destruct (extractor_warns_once_per_incomplete_row env "sk-sample"
              "base64:page two" 2 2 empty_world
              (JList [JDict [("Commodity Name", JStr "Gadget");
                             ("Qty", JInt 1); ("UOM", JStr "BOX")]]) run.2)
    as (text & parsed & items & Hresp & Hparse & Hitems & Hlog).
  - vm_compute. reflexivity.
  - exists run.2. injection Hresp as <-.
    vm_compute in Hparse. injection Hparse as <-.
    injection Hitems as <-. exact Hlog.
Defined.

(** ** A rasterizer that raises *)

Lemma makedirs_inv env (name : path) w r w' :
  name <> [] -> makedirs env name w = (r, w') ->
  trace w' = trace w ++ [EvMakedirs name] /\
  match r with
  | Return _ => is_dir name (fs w') = true
  | Raise _ => True
  end.
Proof.
  intros Hname Hrun. split.
  - revert Hrun. unfold makedirs.
    intros [([] & w0 & Hemit & Hrev)|(e & [=] & _)]%bind_inv.
    injection Hemit as <-.
    destruct (footprint_makedirs_rev (P:=fun _ => False) (Q:=fun _ => True)
                env (rev name) ltac:(done) _ _ _ Hrev)
      as [(evs & Ht & Hevs) _].
    destruct evs as [|ev evs]; [|by apply Forall_cons in Hevs as [[] _]].
    by rewrite Ht, app_nil_r.
  - destruct r as [[]|e]; [|done]. by apply (makedirs_returns_dir env name w).
Qed.

(** When the rasterizer stage raises after the rasterizer was called, the
    folder made for the run is still there. *)
Lemma convert_pdf_to_images_raises env pdf_path dpi w e w' evs :
  convert_pdf_to_images env pdf_path dpi w = (Raise e, w') ->
  trace w' = trace w ++ evs ->
  EvRasterize pdf_path dpi ∈ evs ->
  is_dir (run_temp_folder env w) (fs w') = true /\
  EvMakedirs (run_temp_folder env w) ∈ evs /\
  Forall (fun ev => forall folder, ev <> EvRmtree folder) evs /\
  last (log w') = Some (ERROR, ConvertError e).
Proof.
  unfold convert_pdf_to_images, try_except, run_temp_folder.
  set (temp_folder := temp_folder_of (now env (clock_reads w))).
  match goal with |- context [bind (datetime_now env) ?k w] =>
    destruct (bind (datetime_now env) k w) as [[result|e0] w1] eqn:Hbody end;
    [done|].
  unfold bind at 1, logger at 1, raise. intros [= <- <-] Ht Hrast.
  cbn [fs log trace] in *.
  apply bind_inv in Hbody as [(dt & w2 & Hnow & Hbody)|(e & [=] & _)].
  injection Hnow as <- <-. fold temp_folder in Hbody.
  assert (forall evs' (m : gmap path node),
            trace w1 = trace w ++ EvMakedirs temp_folder
                       :: EvRasterize pdf_path dpi :: evs' ->
            Forall (fun ev => exists p, ev = EvSaveImage p) evs' ->
            m !! temp_folder = Some Dir -> fs w1 !! temp_folder = m !! temp_folder ->
            is_dir temp_folder (fs w1) = true /\
            EvMakedirs temp_folder ∈ evs /\
            Forall (fun ev => forall folder, ev <> EvRmtree folder) evs /\
            last (log w1 ++ [(ERROR, ConvertError e0)])
            = Some (ERROR, ConvertError e0)) as Hdone.
  { intros evs' m Ht1 Hsaves Hm Hfs. rewrite Ht1 in Ht.
    apply app_inv_head in Ht as <-. split.
    { unfold is_dir. by rewrite Hfs, Hm. }
    split; [by left|]. split; [|apply last_snoc].
    constructor; [done|]. constructor; [done|].
    eapply Forall_impl; [done|]. by intros ev [p ->] folder. }
  apply bind_inv in Hbody as [([] & w3 & Hmk & Hbody)|(e & Hmk & [= <-])].
  2:{ apply makedirs_inv in Hmk as [Ht1 _]; [|done]. cbn [trace] in Ht1.
      rewrite Ht1 in Ht. apply app_inv_head in Ht as <-.
      apply list_elem_of_singleton in Hrast. done. }
  apply makedirs_inv in Hmk as [Ht3 Hdir]; [|done]. cbn [trace] in Ht3.
  assert (fs w3 !! temp_folder = Some Dir) as Hdir3.
  { unfold is_dir in Hdir. by destruct (fs w3 !! temp_folder) as [[| | |]|]. }
  apply bind_inv in Hbody as [([] & w4 & Hemit & Hbody)|(e & [=] & _)].
  injection Hemit as <-.
  apply bind_inv in Hbody as [(images & w5 & Hlift & Hbody)|(e & Hlift & [= <-])].
  2:{ unfold lift, raise, ret in Hlift.
      destruct (convert_from_path env pdf_path dpi); simplify_eq.
      apply (Hdone [] (fs w3)); [by rewrite Ht3, <- app_assoc|done..]. }
  unfold lift, raise, ret in Hlift.
  destruct (convert_from_path env pdf_path dpi); simplify_eq.
  apply bind_inv in Hbody as [(saved & w6 & Hsave & Hbody)|(e & Hsave & [= <-])].
  2:{ destruct (footprint_save_pages
                  (P:=fun ev => exists p, ev = EvSaveImage p)
                  (Q:=fun p => exists name, p = path_join temp_folder name)
                  env temp_folder images 0 [] ltac:(by eexists)
                  ltac:(by eexists) _ _ _ Hsave)
        as [(evs' & Ht' & Hevs') Hfs'].
      apply (Hdone evs' (fs w3)); [|done|done|].
      - rewrite Ht'. cbn [trace]. by rewrite Ht3, <- !app_assoc.
      - rewrite Hfs'; [done|]. intros [name Hname]. symmetry in Hname.
        by apply path_join_ne in Hname. }
  by monad_unfold.
Qed.

Lemma ensure_directories_events env w r w' :
  ensure_directories env w = (r, w') ->
  exists evs,
    trace w' = trace w ++ evs /\
    Forall (fun ev => ev = EvMakedirs OUTPUT_DIR \/ ev = EvMakedirs TEMP_DIR)
      evs.
Proof.
  intros Hrun.
  by destruct (footprint_ensure_directories
                 (P:=fun ev => ev = EvMakedirs OUTPUT_DIR
                               \/ ev = EvMakedirs TEMP_DIR)
                 (Q:=fun _ => True) env
                 ltac:(by left) ltac:(by right) ltac:(done) ltac:(done)
                 _ _ _ Hrun) as [? _].
Qed.

(** X6: a rasterizer that raises.  When the preparation of a run raises
    after the rasterizer was called, the run raises that same error and
    does nothing more: no removal is attempted at any point, and the folder
    that was made for the page images is still a directory when the run
    ends. *)
Theorem failed_rasterizer_leaves_folder env pdf_path w e w1 evs :
  prepare env pdf_path w = (Raise e, w1) ->
  trace w1 = trace w ++ evs ->
  EvRasterize pdf_path 300 ∈ evs ->
  exists w' dt,
    process_pdf_document env pdf_path w = (Raise e, w') /\
    trace w' = trace w1 /\
    Forall (fun ev => forall folder, ev <> EvRmtree folder) evs /\
    EvMakedirs (temp_folder_of dt) ∈ evs /\
    is_dir (temp_folder_of dt) (fs w') = true.
Proof.
  intros Hprep Ht Hrast.
  destruct (process_pdf_document env pdf_path w) as [r w'] eqn:Hrun.
  apply process_pdf_document_inv in Hrun
      as [(e' & w1' & Hprep' & -> & Ht' & Hfs' & _)
         |(client & image_paths & temp_folder & w1' & w2 & w3 & Hprep' & _)];
    rewrite Hprep in Hprep'; simplify_eq.
  revert Hprep. unfold prepare.
  intros [([] & wa & Hens & Hrest)|(e1 & Hens & _)]%bind_inv.
  2:{ apply ensure_directories_events in Hens as (evs' & Ht1 & Hevs').
      rewrite Ht1 in Ht. apply app_inv_head in Ht as <-.
      rewrite Forall_forall in Hevs'. by destruct (Hevs' _ Hrast). }
  apply ensure_directories_events in Hens as (evs_a & Hta & Hevs_a).
  apply bind_inv in Hrest as [(client & wb & Hsetup & Hrest)|(e1 & Hsetup & _)].
  2:{ destruct (footprint_setup_anthropic_client
                  (P:=fun _ => False) (Q:=fun _ => True) env _ _ _ Hsetup)
        as [(evs' & Ht1 & Hevs') _].
      destruct evs' as [|ev evs']; [|by apply Forall_cons in Hevs' as [[] _]].
      rewrite Ht1, app_nil_r, Hta in Ht. apply app_inv_head in Ht as <-.
      rewrite Forall_forall in Hevs_a. by destruct (Hevs_a _ Hrast). }
  destruct (footprint_setup_anthropic_client
              (P:=fun _ => False) (Q:=fun _ => True) env _ _ _ Hsetup)
    as [(evs_b & Htb & Hevs_b) _].
  destruct evs_b as [|ev evs_b]; [|by apply Forall_cons in Hevs_b as [[] _]].
  rewrite app_nil_r in Htb.
  apply bind_inv in Hrest as [(converted & wc & _ & [=])|(e1 & Hconv & [= <-])].
  destruct (footprint_convert_pdf_to_images
              (P:=fun _ => True) (Q:=fun _ => True) env pdf_path 300
              ltac:(done) ltac:(done) _ _ _ Hconv) as [(evs_c & Htc & _) _].
  assert (evs = evs_a ++ evs_c) as ->.
  { rewrite Htc, Htb, Hta, <- app_assoc in Ht. by apply app_inv_head in Ht. }
  assert (EvRasterize pdf_path 300 ∈ evs_c) as Hrast_c.
  { apply elem_of_app in Hrast as [Hin|Hin]; [|done].
    rewrite Forall_forall in Hevs_a. by destruct (Hevs_a _ Hin). }
  destruct (convert_pdf_to_images_raises _ _ _ _ _ _ _ Hconv Htc Hrast_c)
    as (Hdir & Hmk & Hno_rm & _).
  exists w', (now env (clock_reads wb)).
  split; [done|]. split; [done|]. split; [|split].
  - apply Forall_app. split; [|done].
    eapply Forall_impl; [exact Hevs_a|]. by intros ev [->| ->] folder.
  - apply elem_of_app. by right.
  - unfold is_dir. rewrite Hfs'. exact Hdir.
Qed.

Lemma failed_rasterizer_leaves_folder_witness :
  exists w' dt,
    process_pdf_document (two_page_env (inr gadget_text)) "corrupt.pdf"
      empty_world
    = (Raise (ExternalError "PDFPageCountError"), w') /\
    is_dir (temp_folder_of dt) (fs w') = true.
Proof.
  set (env := two_page_env (inr gadget_text)).
  set (prepared := prepare env "corrupt.pdf" empty_world).
  destruct (failed_rasterizer_leaves_folder env "corrupt.pdf" empty_world
              (ExternalError "PDFPageCountError") prepared.2
              (trace prepared.2))
    as (w' & dt & Hrun & _ & _ & _ & Hdir).
  - vm_compute. reflexivity.
  - reflexivity.
  - vm_compute. apply list_elem_of_In. simpl. tauto.
  - exists w', dt. split; [exact Hrun|exact Hdir].
Defined.

(** ** One call per page *)


(** ** A rejected row, and the run *)

(** X19: a partial file outlives the run.  When every page was extracted,
    the file could be opened and the writer rejects a row (for its shape, or
    for a cell with a lone surrogate), every row before it having been
    written, the run raises the writer's error, and after the clean-up the
    output file is still there, holding the header and the rows that came
    before the rejected one. *)
Theorem rejected_row_leaves_partial_file env pdf_path w client image_paths
    (temp_folder : path) w1 good bad rest w2 e :
  prepare env pdf_path w = (Return (client, (image_paths, temp_folder)), w1) ->
  process_pages env client (List.length image_paths) 1 image_paths [] w1
  = (Return (good ++ bad :: rest), w2) ->
  open_error env (output_file_of pdf_path (now env (clock_reads w2))) (fs w2)
  = None ->
  Forall (fun rowdict => exists row, writerow_result rowdict = inr row) good ->
  writerow_result bad = inl e ->
  exists w',
    process_pdf_document env pdf_path w = (Raise e, w') /\
    fs w' !! output_file_of pdf_path (now env (clock_reads w2))
    = Some (CsvFile (HEADER :: map row_cells good)).
Proof.
  intros Hprep Hloop Hopen Hgood%rejected_None Hbad.
  destruct (prepare_returns _ _ _ _ _ _ _ Hprep) as [[dt ->] _].
  assert (exists w3,
            save_to_csv env (good ++ bad :: rest) pdf_path w2 = (Raise e, w3) /\
            fs w3 = <[output_file_of pdf_path (now env (clock_reads w2))
                      := CsvFile (HEADER :: map row_cells good)]> (fs w2))
    as (w3 & Hsave & Hfs3).
  { rewrite save_to_csv_spec, Hopen.
    destruct (rejected_at good bad rest e Hgood Hbad) as [-> ->]. eauto. }
  destruct (process_pdf_document env pdf_path w) as [r w'] eqn:Hrun.
  exists w'.
  apply process_pdf_document_inv in Hrun
      as [(e' & w1' & Hprep' & _)
         |(client' & image_paths' & temp_folder' & w1' & w3' & w4 & Hprep'
           & Hext & Hclean & _ & Hfs & _)];
    rewrite Hprep in Hprep'; simplify_eq.
  unfold extract_and_save, bind in Hext. rewrite Hloop, Hsave in Hext.
  injection Hext as <- <-. split; [done|].
  destruct (footprint_cleanup_temp_files
              (P:=fun _ => True)
              (Q:=fun q => temp_folder_of dt `prefix_of` q)
              env (temp_folder_of dt) ltac:(done) ltac:(done) _ _ _ Hclean)
    as [_ Hfs4].
  rewrite Hfs, Hfs4 by apply output_file_not_in_temp.
  by rewrite Hfs3, lookup_insert_eq.
Qed.

Lemma rejected_row_leaves_partial_file_witness :
  exists w',
    process_pdf_document (two_page_env (inr surrogate_text)) "docs/inv.pdf"
      empty_world
    = (Raise UnicodeEncodeError, w') /\
    fs w' !! ["output"; "inv_20240307_090501.csv"]
    = Some (CsvFile [HEADER; [JStr "Widget"; JInt 5; JStr "BOX"]]).
Proof.
  set (env := two_page_env (inr surrogate_text)).
  set (prepared := prepare env "docs/inv.pdf" empty_world).
  set (folder := ["temp"; "pdf_images_20240307_090500"]).
  set (paths := [folder ++ ["page_1.jpg"]; folder ++ ["page_2.jpg"]]).
  set (looped := process_pages env "sk-sample" 2 1 paths [] prepared.2).
  destruct (rejected_row_leaves_partial_file env "docs/inv.pdf" empty_world
              "sk-sample" paths folder prepared.2 [widget] surrogate_row []
              looped.2 UnicodeEncodeError)
    as (w' & Hrun & Hfile).
  - vm_compute. reflexivity.
  - vm_compute. reflexivity.
  - vm_compute. reflexivity.
  - constructor; [|constructor]. eexists. vm_compute. reflexivity.
  - vm_compute. reflexivity.
  - exists w'. split; [exact Hrun|exact Hfile].
Defined.
